(** * The QEmacs buffer-list mode ([modes/bufed.c]): shallow embedding

    The buffer editor keeps a cached list of weak references to the
    editor's buffers, sorts it with a multi-key comparator, renders it into
    a read-only display buffer and applies commands to the row under the
    cursor or to the selected rows.

    C [int] values are integers of [Z] with the 32-bit wrap-around of the
    arithmetic written out ([to_int]); pointers are addresses, [None] being
    [NULL]; a fault (the dereference of a null or dangling pointer) is the
    [None] of the [option] monad in which the stateful functions run.

    Part I holds the definitions, Part II the lemmas and theorems about
    the sort comparator, the rebuild and the commands, Part III further
    properties of the same functions. *)

From Stdlib Require Import ZArith Lia String Ascii List DecimalString.
From Stdlib Require OrderedTypeEx.
From stdpp Require Import base option list sorting.

Local Open Scope Z_scope.

(** * Part I: the model *)

(** ** C integers *)

Definition int_min : Z := - 2 ^ 31.
Definition int_max : Z := 2 ^ 31 - 1.

(** The value an [int] holds after an arithmetic result [z]. *)
Definition to_int (z : Z) : Z := (z + 2 ^ 31) mod 2 ^ 32 - 2 ^ 31.

Definition int_sub (a b : Z) : Z := to_int (a - b).
Definition int_neg (a : Z) : Z := to_int (- a).
Definition int_mul (a b : Z) : Z := to_int (a * b).

(** The [int] value of a C comparison. *)
Definition c_bool (b : bool) : Z := if b then 1 else 0.

(** [x & mask] used as a condition. *)
Definition mask_set (x mask : Z) : bool := negb (Z.land x mask =? 0).

(** ** Sort keys and filter flags (the anonymous enumerations) *)

Definition BUFED_SORT_MODIFIED : Z := Z.shiftl 1 0.
Definition BUFED_SORT_TIME : Z := Z.shiftl 1 2.
Definition BUFED_SORT_NAME : Z := Z.shiftl 1 4.
Definition BUFED_SORT_FILENAME : Z := Z.shiftl 1 6.
Definition BUFED_SORT_SIZE : Z := Z.shiftl 1 8.
Definition BUFED_SORT_DESCENDING : Z := 0xAAAA.

Definition BUFED_HIDE_SYSTEM : Z := 0.
Definition BUFED_ALL_VISIBLE : Z := 1.

Definition COLWIDTH : Z := 20.

(** ** What [qe.h] and the rest of the editor provide

    The header and the helper modules are not part of this file.  Their
    constants and primitives are the fields of an environment; the
    development holds for every environment, under the hypotheses each
    theorem names. *)

Definition addr := positive.
Definition wid := positive.

(** A mode: the address of its [ModeDef] structure and its name. *)
Record ModeDef := { mode_addr : addr; mode_name : string }.

(** Styled text of a buffer: the spans written so far, each with the
    [cur_style] in force when it was written. *)
Definition span : Type := Z * string.

Record Env := {
  (* buffer flags *)
  BF_SYSTEM : Z;
  BF_READONLY : Z;
  BF_IS_LOG : Z;
  BF_IS_STYLE : Z;
  BF_DIRED : Z;
  (* styles *)
  QE_STYLE_KEYWORD : Z;
  QE_STYLE_FUNCTION : Z;
  QE_STYLE_COMMENT : Z;
  QE_STYLE_ERROR : Z;
  (* whether plain [char] is a signed type on the platform *)
  char_signed : bool;
  (* string collation *)
  qe_strcollate : string -> string -> Z;
  (* the sorting routine, given the comparator *)
  qe_qsort_r : forall A : Type, (A -> A -> Z) -> list A -> list A;
  (* the path as shown to the user *)
  make_user_path : string -> string;
  (* text engine: line and column of an offset, offset of a position *)
  eb_get_pos : list span -> Z -> Z * Z;
  eb_goto_pos : list span -> Z -> Z -> Z;
  (* whether the registry carries out a kill request for the named buffer
     at once (it may leave the decision to a confirmation prompt) *)
  kill_granted : string -> bool;
}.

(** ** Buffers, list items, windows and the editor state *)

Record EditBuffer := {
  b_addr : addr;                       (* the address of the structure *)
  b_name : string;
  b_filename : string;
  b_flags : Z;
  b_modified : Z;
  b_mtime : Z;
  b_total_size : Z;
  b_style_bytes : Z;
  b_charset_name : string;             (* charset->name *)
  b_data_type_name : option string;
  b_saved_mode : option ModeDef;
  b_default_mode : option ModeDef;
  b_syntax_mode : option ModeDef;
  b_mode_data_list : list (option ModeDef);   (* md->mode along the list *)
  b_cur_style : Z;
  b_text : list span;
}.

Record StringItem := {
  it_opaque : option addr;             (* the weak buffer reference *)
  it_selected : bool;
  it_group : Z;
  it_str : string;
}.

Record BufedState := {
  bs_flags : Z;
  bs_last_index : Z;
  bs_sort_mode : Z;
  bs_cur_window : option wid;
  bs_cur_buffer : option addr;
  bs_last_buffer : option addr;
  bs_items : list StringItem;
}.

Record EditState := {
  s_id : wid;                          (* the address of the window *)
  s_b : addr;
  s_offset : Z;
  s_offset_top : Z;
  s_flags : Z;
  s_last_buffer : option addr;
}.

(** The editor: the buffer registry in creation order ([first_buffer] and
    the [next] links), the windows, the global [bufed_sort_order], the mode
    data of the buffer list (attached to the buffer at the given address),
    and two traces of requests made to the rest of the editor. *)
Record QEmacsState := {
  first_buffer : list EditBuffer;
  windows : list EditState;
  active_window : option wid;
  bufed_sort_order : Z;
  bufed_data : option (addr * BufedState);
  complete_refresh : bool;
  kill_requests : list string;
}.

Definition set_b_text (b : EditBuffer) (size : Z) (style : Z) (t : list span)
  : EditBuffer :=
  {| b_addr := b_addr b; b_name := b_name b; b_filename := b_filename b;
     b_flags := b_flags b; b_modified := b_modified b; b_mtime := b_mtime b;
     b_total_size := size; b_style_bytes := b_style_bytes b;
     b_charset_name := b_charset_name b;
     b_data_type_name := b_data_type_name b;
     b_saved_mode := b_saved_mode b; b_default_mode := b_default_mode b;
     b_syntax_mode := b_syntax_mode b;
     b_mode_data_list := b_mode_data_list b;
     b_cur_style := style; b_text := t |}.

Definition set_b_status (b : EditBuffer) (fl : Z) (modified : Z)
  : EditBuffer :=
  {| b_addr := b_addr b; b_name := b_name b; b_filename := b_filename b;
     b_flags := fl; b_modified := modified; b_mtime := b_mtime b;
     b_total_size := b_total_size b; b_style_bytes := b_style_bytes b;
     b_charset_name := b_charset_name b;
     b_data_type_name := b_data_type_name b;
     b_saved_mode := b_saved_mode b; b_default_mode := b_default_mode b;
     b_syntax_mode := b_syntax_mode b;
     b_mode_data_list := b_mode_data_list b;
     b_cur_style := b_cur_style b; b_text := b_text b |}.

Definition set_opaque (it : StringItem) (p : option addr) : StringItem :=
  {| it_opaque := p; it_selected := it_selected it;
     it_group := it_group it; it_str := it_str it |}.

Definition set_bs_flags (bs : BufedState) (fl : Z) : BufedState :=
  {| bs_flags := fl; bs_last_index := bs_last_index bs;
     bs_sort_mode := bs_sort_mode bs; bs_cur_window := bs_cur_window bs;
     bs_cur_buffer := bs_cur_buffer bs; bs_last_buffer := bs_last_buffer bs;
     bs_items := bs_items bs |}.

Definition set_bs_last_index (bs : BufedState) (i : Z) : BufedState :=
  {| bs_flags := bs_flags bs; bs_last_index := i;
     bs_sort_mode := bs_sort_mode bs; bs_cur_window := bs_cur_window bs;
     bs_cur_buffer := bs_cur_buffer bs; bs_last_buffer := bs_last_buffer bs;
     bs_items := bs_items bs |}.

Definition set_bs_sort_mode (bs : BufedState) (m : Z) : BufedState :=
  {| bs_flags := bs_flags bs; bs_last_index := bs_last_index bs;
     bs_sort_mode := m; bs_cur_window := bs_cur_window bs;
     bs_cur_buffer := bs_cur_buffer bs; bs_last_buffer := bs_last_buffer bs;
     bs_items := bs_items bs |}.

Definition set_bs_refs (bs : BufedState) (cw : option wid)
  (cb lb : option addr) : BufedState :=
  {| bs_flags := bs_flags bs; bs_last_index := bs_last_index bs;
     bs_sort_mode := bs_sort_mode bs; bs_cur_window := cw;
     bs_cur_buffer := cb; bs_last_buffer := lb;
     bs_items := bs_items bs |}.

Definition set_bs_items (bs : BufedState) (items : list StringItem)
  : BufedState :=
  {| bs_flags := bs_flags bs; bs_last_index := bs_last_index bs;
     bs_sort_mode := bs_sort_mode bs; bs_cur_window := bs_cur_window bs;
     bs_cur_buffer := bs_cur_buffer bs; bs_last_buffer := bs_last_buffer bs;
     bs_items := items |}.

Definition set_s_offsets (s : EditState) (off top : Z) : EditState :=
  {| s_id := s_id s; s_b := s_b s; s_offset := off; s_offset_top := top;
     s_flags := s_flags s; s_last_buffer := s_last_buffer s |}.

Definition set_s_buffer (s : EditState) (b : addr) (last : option addr)
  : EditState :=
  {| s_id := s_id s; s_b := b; s_offset := s_offset s;
     s_offset_top := s_offset_top s; s_flags := s_flags s;
     s_last_buffer := last |}.

Definition set_first_buffer (qs : QEmacsState) (bufs : list EditBuffer)
  : QEmacsState :=
  {| first_buffer := bufs; windows := windows qs;
     active_window := active_window qs;
     bufed_sort_order := bufed_sort_order qs; bufed_data := bufed_data qs;
     complete_refresh := complete_refresh qs;
     kill_requests := kill_requests qs |}.

Definition set_windows (qs : QEmacsState) (ws : list EditState)
  (active : option wid) : QEmacsState :=
  {| first_buffer := first_buffer qs; windows := ws;
     active_window := active;
     bufed_sort_order := bufed_sort_order qs; bufed_data := bufed_data qs;
     complete_refresh := complete_refresh qs;
     kill_requests := kill_requests qs |}.

Definition set_bufed_sort_order (qs : QEmacsState) (order : Z)
  : QEmacsState :=
  {| first_buffer := first_buffer qs; windows := windows qs;
     active_window := active_window qs;
     bufed_sort_order := order; bufed_data := bufed_data qs;
     complete_refresh := complete_refresh qs;
     kill_requests := kill_requests qs |}.

Definition set_bufed_data (qs : QEmacsState) (d : option (addr * BufedState))
  : QEmacsState :=
  {| first_buffer := first_buffer qs; windows := windows qs;
     active_window := active_window qs;
     bufed_sort_order := bufed_sort_order qs; bufed_data := d;
     complete_refresh := complete_refresh qs;
     kill_requests := kill_requests qs |}.

Definition set_complete_refresh (qs : QEmacsState) : QEmacsState :=
  {| first_buffer := first_buffer qs; windows := windows qs;
     active_window := active_window qs;
     bufed_sort_order := bufed_sort_order qs; bufed_data := bufed_data qs;
     complete_refresh := true;
     kill_requests := kill_requests qs |}.

Definition log_kill_request (qs : QEmacsState) (bufname : string)
  : QEmacsState :=
  {| first_buffer := first_buffer qs; windows := windows qs;
     active_window := active_window qs;
     bufed_sort_order := bufed_sort_order qs; bufed_data := bufed_data qs;
     complete_refresh := complete_refresh qs;
     kill_requests := kill_requests qs ++ [bufname] |}.

(** ** The comparator *)

Section Comparator.
Variable E : Env.

(** The value of a [char] (as [*b->filename] reads it). *)
Definition char_val (c : ascii) : Z :=
  let n := Z.of_N (N_of_ascii c) in
  if char_signed E && (128 <=? n) then n - 256 else n.

(** [*s] for a C string: its first character, or the terminator. *)
Definition first_char (s : string) : Z :=
  match s with
  | EmptyString => 0
  | String c _ => char_val c
  end.

(** [*s == '*'] *)
Definition starred (s : string) : bool :=
  match s with
  | EmptyString => false
  | String c _ => Ascii.eqb c "*"%char
  end.

(** Lines 106-111: sort by buffer name, starred names last. *)
Definition sort_by_name (b1 b2 : EditBuffer) : Z :=
  let res := int_sub (c_bool (starred (b_name b1)))
                     (c_bool (starred (b_name b2))) in
  if negb (res =? 0) then res
  else qe_strcollate E (b_name b1) (b_name b2).

(** Lines 96-105: the filename key; [None] when it does not decide. *)
Definition sort_by_filename (b1 b2 : EditBuffer) : option Z :=
  let res := int_sub (first_char (b_filename b2))
                     (first_char (b_filename b1)) in
  if negb (res =? 0) then Some res
  else
    let res := qe_strcollate E (b_filename b1) (b_filename b2) in
    if negb (res =? 0) then Some res else None.

(** Lines 83-113: the value of [res] when the [for (;;)] block is left. *)
Definition sort_keys (sort_mode : Z) (b1 b2 : EditBuffer) : Z :=
  if mask_set sort_mode BUFED_SORT_TIME
     && negb (b_mtime b1 =? b_mtime b2)
  then (if b_mtime b1 <? b_mtime b2 then -1 else 1)
  else if mask_set sort_mode BUFED_SORT_SIZE
          && negb (b_total_size b1 =? b_total_size b2)
  then (if b_total_size b1 <? b_total_size b2 then -1 else 1)
  else
    match (if mask_set sort_mode BUFED_SORT_FILENAME
           then sort_by_filename b1 b2 else None) with
    | Some res => res
    | None => sort_by_name b1 b2
    end.

(** [bufed_sort_func], on the two buffers the compared items point to
    (lines 69-72 load them) and the [sort_mode] of the state passed as
    [opaque]. *)
Definition bufed_sort_func (sort_mode : Z) (b1 b2 : EditBuffer) : Z :=
  let res := int_sub (Z.land (b_flags b1) (BF_SYSTEM E))
                     (Z.land (b_flags b2) (BF_SYSTEM E)) in
  if negb (res =? 0) then res
  else if mask_set sort_mode BUFED_SORT_MODIFIED
          && negb (int_sub (b_modified b2) (b_modified b1) =? 0)
  then int_sub (b_modified b2) (b_modified b1)
  else
    let res := sort_keys sort_mode b1 b2 in
    if mask_set sort_mode BUFED_SORT_DESCENDING then int_neg res else res.

End Comparator.

(** ** Registry, windows and text: the primitives the file calls *)

Definition find_buffer (qs : QEmacsState) (a : addr) : option EditBuffer :=
  List.find (fun b => Pos.eqb (b_addr b) a) (first_buffer qs).

(** [p->field] for a buffer pointer: a fault on [NULL] and on an address
    that is no buffer. *)
Definition deref (qs : QEmacsState) (p : option addr) : option EditBuffer :=
  a ← p; find_buffer qs a.

(** The registry after the buffer at [a] was changed by [f]. *)
Definition upd_buffer (qs : QEmacsState) (a : addr)
  (f : EditBuffer -> EditBuffer) : QEmacsState :=
  set_first_buffer qs
    (List.map (fun b => if Pos.eqb (b_addr b) a then f b else b)
              (first_buffer qs)).

(** A store through a buffer pointer. *)
Definition with_buffer (qs : QEmacsState) (a : addr)
  (f : EditBuffer -> EditBuffer) : option QEmacsState :=
  _ ← find_buffer qs a;
  Some (upd_buffer qs a f).

Definition get_window (qs : QEmacsState) (s : wid) : option EditState :=
  List.find (fun w => Pos.eqb (s_id w) s) (windows qs).

Definition upd_window (qs : QEmacsState) (s : wid)
  (f : EditState -> EditState) : QEmacsState :=
  set_windows qs
    (List.map (fun w => if Pos.eqb (s_id w) s then f w else w) (windows qs))
    (active_window qs).

(** A store through a window pointer. *)
Definition with_window (qs : QEmacsState) (s : wid)
  (f : EditState -> EditState) : option QEmacsState :=
  _ ← get_window qs s;
  Some (upd_window qs s f).

(** Modelled from the spec: [check_buffer] is not in this file.  The spec's
    [resolve]: looks up the stored identity against the registry's live set;
    returns the handle if still present, else clears the stored identity and
    returns nothing.  The result is also the new content of the slot. *)
Definition check_buffer (qs : QEmacsState) (slot : option addr)
  : option addr :=
  match slot with
  | Some a =>
      match find_buffer qs a with Some _ => Some a | None => None end
  | None => None
  end.

(** Modelled from the spec: [check_window] is not in this file; it is the
    same liveness check for the weak reference to the opening window. *)
Definition check_window (qs : QEmacsState) (slot : option wid)
  : option wid :=
  match slot with
  | Some s =>
      match get_window qs s with Some _ => Some s | None => None end
  | None => None
  end.

(** Modelled from the spec: [add_string] and [free_strings] are not in this
    file.  A list item is created fresh, with its label, an empty reference
    and no selection mark, at the end of the collection; [free_strings]
    discards the collection. *)
Definition add_string (cs : list StringItem) (str : string) (group : Z)
  : list StringItem * StringItem :=
  let item := {| it_opaque := None; it_selected := false;
                 it_group := group; it_str := str |} in
  (cs ++ [item], item).

Definition free_strings (cs : list StringItem) : list StringItem := [].

(** Modelled from the spec: the text engine is not in this file.  The
    display buffer is a clearable, append-only text with per-span style. *)
Definition eb_clear (qs : QEmacsState) (b : addr) : option QEmacsState :=
  with_buffer qs b (fun r => set_b_text r 0 (b_cur_style r) []).

Definition strlen (s : string) : Z := Z.of_nat (String.length s).

Definition eb_puts (qs : QEmacsState) (b : addr) (str : string)
  : option QEmacsState :=
  with_buffer qs b
    (fun r => set_b_text r (b_total_size r + strlen str) (b_cur_style r)
                         (b_text r ++ [(b_cur_style r, str)])).

Definition set_cur_style (qs : QEmacsState) (b : addr) (style : Z)
  : option QEmacsState :=
  with_buffer qs b (fun r => set_b_text r (b_total_size r) style (b_text r)).

(** Modelled from the spec: [list_get_pos] is not in this file; the current
    row index is the line of the cursor offset in the window's buffer. *)
Definition list_get_pos (E : Env) (qs : QEmacsState) (w : EditState)
  : option Z :=
  r ← find_buffer qs (s_b w);
  Some (fst (eb_get_pos E (b_text r) (s_offset w))).

(** Modelled from the spec: the window manager is not in this file.
    [switch_to_buffer] makes the buffer the one edited in the window,
    [do_delete_window] closes a window, [do_refresh_complete] asks for a
    full redisplay. *)
Definition switch_to_buffer (qs : QEmacsState) (e : wid) (b : addr)
  : option QEmacsState :=
  with_window qs e (fun w => set_s_buffer w b (s_last_buffer w)).

Definition do_delete_window (qs : QEmacsState) (s : wid) : QEmacsState :=
  set_windows qs
    (List.filter (fun w => negb (Pos.eqb (s_id w) s)) (windows qs))
    (active_window qs).

Definition do_refresh_complete (qs : QEmacsState) : QEmacsState :=
  set_complete_refresh qs.

(** Modelled from the spec: [do_kill_buffer] is not in this file.  It
    requests the destruction of the buffer of that name from the registry,
    which carries it out or leaves it to a confirmation prompt. *)
Definition do_kill_buffer (E : Env) (qs : QEmacsState) (bufname : string)
  : QEmacsState :=
  let qs := log_kill_request qs bufname in
  if kill_granted E bufname then
    match List.find (fun b => String.eqb (b_name b) bufname)
                    (first_buffer qs) with
    | Some victim =>
        set_first_buffer qs
          (List.filter (fun b => negb (Pos.eqb (b_addr b) (b_addr victim)))
                       (first_buffer qs))
    | None => qs
    end
  else qs.

(** The buffer-list mode data attached to the buffer at [a], if any. *)
Definition state_at (qs : QEmacsState) (a : addr) : option BufedState :=
  match bufed_data qs with
  | Some (a', bs) => if Pos.eqb a' a then Some bs else None
  | None => None
  end.

(** [bufed_get_state]: the mode data of the window's buffer. *)
Definition bufed_get_state (qs : QEmacsState) (e : EditState)
  : option BufedState :=
  state_at qs (s_b e).

(** A store through the [bs] pointer a command obtained for the buffer at
    [a]. *)
Definition put_state (qs : QEmacsState) (a : addr) (bs : BufedState)
  : QEmacsState :=
  set_bufed_data qs (Some (a, bs)).

(** ** Formatting ([printf] conversions used by the renderer) *)

Definition spaces (n : nat) : string :=
  string_of_list_ascii (List.repeat " "%char n).

(** [%-Ns] *)
Definition pad_right (s : string) (width : nat) : string :=
  String.append s (spaces (width - String.length s)).

(** [%Ns] *)
Definition pad_left (s : string) (width : nat) : string :=
  String.append (spaces (width - String.length s)) s.

(** [%d] *)
Definition dec (z : Z) : string := NilZero.string_of_int (Z.to_int z).

(** [%1.0d]: with precision zero the value zero prints no digit. *)
Definition dec_1_0 (z : Z) : string :=
  pad_left (if z =? 0 then EmptyString else dec z) 1.

Definition newline : string := String (ascii_of_nat 10) EmptyString.

(** Modes are compared as pointers (line 218): two modes of the same name
    at different addresses are different modes. *)
Definition mode_eqb (m1 m2 : ModeDef) : bool :=
  Pos.eqb (mode_addr m1) (mode_addr m2).

(** ** [build_bufed_list] *)

Section Build.
Variable E : Env.

Definition BUFED_STYLE_BUFNAME : Z := QE_STYLE_KEYWORD E.
Definition BUFED_STYLE_FILENAME : Z := QE_STYLE_FUNCTION E.
Definition BUFED_STYLE_DIRECTORY : Z := QE_STYLE_COMMENT E.
Definition BUFED_STYLE_SYSTEM : Z := QE_STYLE_ERROR E.

(** The test of line 126. *)
Definition listed (bs : BufedState) (b1 : EditBuffer) : bool :=
  negb (mask_set (b_flags b1) (BF_SYSTEM E))
  || mask_set (bs_flags bs) BUFED_ALL_VISIBLE.

(** Lines 125-130: the items created for the listed buffers, in registry
    order, each paired with the buffer its [opaque] field points to. *)
Fixpoint collect_items (bs : BufedState) (bufs : list EditBuffer)
  (cs : list (StringItem * EditBuffer)) : list (StringItem * EditBuffer) :=
  match bufs with
  | [] => cs
  | b1 :: rest =>
      if listed bs b1 then
        let item := snd (add_string (List.map fst cs) (b_name b1) 0) in
        let item := set_opaque item (Some (b_addr b1)) in
        collect_items bs rest (cs ++ [(item, b1)])
      else collect_items bs rest cs
  end.

(** Lines 133-136: the comparator reads the buffers through the items. *)
Definition sort_items (sort_mode : Z) (cs : list (StringItem * EditBuffer))
  : list (StringItem * EditBuffer) :=
  qe_qsort_r E _ (fun p1 p2 => bufed_sort_func E sort_mode (snd p1) (snd p2))
             cs.

(** Lines 165-173: the flag field of a resolved row. *)
Definition row_flags (b1 : EditBuffer) : string :=
  if mask_set (b_flags b1) (BF_SYSTEM E) then "S"
  else if negb (b_modified b1 =? 0) then "*"
  else if mask_set (b_flags b1) (BF_READONLY E) then "%"
  else EmptyString.

(** Lines 182-187: the name column. *)
Definition name_field (str : string) : string :=
  let len := String.length str in
  if COLWIDTH <? Z.of_nat len then
    String.append (substring 0 (Z.to_nat (COLWIDTH - 5 - 3)) str)
      (String.append "..." (substring (len - 5) 5 str))
  else pad_right str (Z.to_nat COLWIDTH).

(** Lines 195-211. *)
Definition primary_mode_name (b1 : EditBuffer) : string :=
  if mask_set (b_flags b1) (BF_IS_LOG E) then "log"
  else if mask_set (b_flags b1) (BF_IS_STYLE E) then "style"
  else match b_saved_mode b1, b_default_mode b1, b_syntax_mode b1 with
       | Some m, _, _ => mode_name m
       | None, Some m, _ => mode_name m
       | None, None, Some m => mode_name m
       | None, None, None => "none"
       end.

(** Lines 217-220: the auxiliary modes. *)
Fixpoint aux_mode_names (saved : option ModeDef) (mds : list (option ModeDef))
  : string :=
  match mds with
  | [] => EmptyString
  | md :: rest =>
      let here :=
        match md with
        | Some m =>
            if match saved with Some sm => mode_eqb m sm | None => false end
            then EmptyString
            else String.append "," (mode_name m)
        | None => EmptyString
        end in
      String.append here (aux_mode_names saved rest)
  end.

(** Lines 212-220: [mode_buf], a buffer of 64 bytes. *)
Definition mode_buf (b1 : EditBuffer) : string :=
  substring 0 63
    (String.append
       (match b_data_type_name b1 with
        | Some n => String.append n "+"
        | None => EmptyString
        end)
       (String.append (primary_mode_name b1)
          (aux_mode_names (b_saved_mode b1) (b_mode_data_list b1)))).

(** Lines 222-225: the per-buffer columns. *)
Definition details_field (b1 : EditBuffer) : string :=
  String.append " "
   (String.append (pad_left (dec (b_total_size b1)) 10)
   (String.append " "
   (String.append (dec_1_0 (Z.land (b_style_bytes b1) 7))
   (String.append " "
   (String.append (pad_right (substring 0 8 (b_charset_name b1)) 8)
   (String.append " "
   (String.append (pad_right (mode_buf b1) 11) " "))))))).

(** Lines 188-232: the columns of a row whose reference resolved. *)
Definition render_details (qs : QEmacsState) (b : addr) (style0 : Z)
  (a : addr) : option QEmacsState :=
  qs ← set_cur_style qs b style0;
  r ← find_buffer qs a;
  qs ← eb_puts qs b (details_field r);
  qs ← set_cur_style qs b
        (if mask_set (b_flags r) (BF_DIRED E) then BUFED_STYLE_DIRECTORY
         else BUFED_STYLE_FILENAME);
  qs ← eb_puts qs b (make_user_path E (b_filename r));
  set_cur_style qs b style0.

(** One turn of the loop of lines 150-234, for the row of index [i]. *)
Definition render_row (bs : BufedState) (s : wid) (b : addr) (i : Z)
  (item : StringItem) (line : Z) (qs : QEmacsState)
  : option (StringItem * Z * QEmacsState) :=
  let b1 := check_buffer qs (it_opaque item) in
  let item := set_opaque item b1 in
  (* line 157 reads [b1->flags] before [b1] is tested *)
  r1 ← deref qs b1;
  let style0 :=
    if mask_set (b_flags r1) (BF_SYSTEM E) then BUFED_STYLE_SYSTEM else 0 in
  '(line, qs) ←
    (if (bs_last_index bs =? -1) && bool_decide (b1 = bs_cur_buffer bs)
        || (i <=? bs_last_index bs)
     then
       rb ← find_buffer qs b;
       qs ← with_window qs s
              (fun w => set_s_offsets w (b_total_size rb) (s_offset_top w));
       Some (i, qs)
     else Some (line, qs));
  flags ←
    match b1 with
    | Some a => r ← find_buffer qs a; Some (row_flags r)
    | None => Some EmptyString
    end;
  qs ← set_cur_style qs b style0;
  qs ← eb_puts qs b (String.append " " (pad_right flags 2));
  qs ← set_cur_style qs b BUFED_STYLE_BUFNAME;
  qs ← eb_puts qs b (name_field (it_str item));
  qs ←
    match b1 with
    | Some a => render_details qs b style0 a
    | None => Some qs
    end;
  qs ← eb_puts qs b newline;
  Some (item, line, qs).

(** The loop of lines 150-234 over the rows from index [i] on. *)
Fixpoint render_rows (bs : BufedState) (s : wid) (b : addr) (i : Z)
  (items : list StringItem) (line : Z) (qs : QEmacsState)
  : option (list StringItem * Z * QEmacsState) :=
  match items with
  | [] => Some ([], line, qs)
  | item :: rest =>
      '(item, line, qs) ← render_row bs s b i item line qs;
      '(rest, line, qs) ← render_rows bs s b (i + 1) rest line qs;
      Some (item :: rest, line, qs)
  end.

(** Lines 124-136: the new collection, sorted when a sort order is set. *)
Definition build_items (qs : QEmacsState) (bs : BufedState)
  : list (StringItem * EditBuffer) :=
  (* [free_strings] leaves the array empty *)
  let bs := set_bs_items bs (free_strings (bs_items bs)) in
  let cs := collect_items bs (first_buffer qs) [] in
  let bs := set_bs_sort_mode bs (bufed_sort_order qs) in
  if negb (bufed_sort_order qs =? 0) then sort_items (bs_sort_mode bs) cs
  else cs.

Definition build_bufed_list (qs : QEmacsState) (bs : BufedState) (s : wid)
  : option (QEmacsState * BufedState) :=
  let cs := build_items qs bs in
  let bs := set_bs_sort_mode bs (bufed_sort_order qs) in
  let bs := set_bs_items bs (List.map fst cs) in
  (* build buffer *)
  w ← get_window qs s;
  let b := s_b w in
  rb ← find_buffer qs b;
  let vpos :=
    if 0 <? b_total_size rb then
      int_sub (fst (eb_get_pos E (b_text rb) (s_offset w)))
              (fst (eb_get_pos E (b_text rb) (s_offset_top w)))
    else -1 in
  qs ← eb_clear qs b;
  '(items, line, qs) ← render_rows bs s b 0 (bs_items bs) 0 qs;
  let bs := set_bs_last_index (set_bs_items bs items) (-1) in
  qs ← with_buffer qs b
        (fun r => set_b_status r (Z.lor (b_flags r) (BF_READONLY E)) 0);
  qs ←
    (if (0 <=? vpos) && (vpos <? line) then
       rb ← find_buffer qs b;
       with_window qs s
         (fun w => set_s_offsets w (s_offset w)
                     (eb_goto_pos E (b_text rb) (int_sub line vpos) 0))
     else Some qs);
  Some (qs, bs).

End Build.

(** ** The selection iterator *)

Section Iterate.
Context {O : Type}.

(** The action receives the opaque state, the item and its index; it may
    change the state and the item it is handed. *)
Variable func_item : O -> StringItem -> Z -> option (O * StringItem).

(** The loop of lines 306-312, from index [i] on. *)
Fixpoint selection_loop (i : Z) (items : list StringItem) (count : Z) (o : O)
  : option (list StringItem * Z * O) :=
  match items with
  | [] => Some ([], count, o)
  | item :: rest =>
      '(item, count, o) ←
        (if it_selected item then
           '(o, item) ← func_item o item i;
           Some (item, count + 1, o)
         else Some (item, count, o));
      '(rest, count, o) ← selection_loop (i + 1) rest count o;
      Some (item :: rest, count, o)
  end.

Definition string_selection_iterate (cs : list StringItem)
  (current_index : Z) (o : O) : option (list StringItem * O) :=
  '(cs, count, o) ← selection_loop 0 cs 0 o;
  (* if no item selected, then act on selected item *)
  if (count =? 0) && (0 <=? current_index)
     && (current_index <? Z.of_nat (length cs))
  then
    item ← cs !! Z.to_nat current_index;
    '(o, item) ← func_item o item current_index;
    Some (<[Z.to_nat current_index := item]> cs, o)
  else Some (cs, o).

End Iterate.

(** ** The commands *)

Section Commands.
Variable E : Env.

Definition index_in_range (bs : BufedState) (index : Z) : bool :=
  negb ((index <? 0) || (Z.of_nat (length (bs_items bs)) <=? index)).

(** [bufed_get_buffer]: the buffer of the cursor row, with the state whose
    slot the liveness check rewrote. *)
Definition bufed_get_buffer (qs : QEmacsState) (bs : BufedState)
  (w : EditState) : option (option addr * BufedState) :=
  index ← list_get_pos E qs w;
  if negb (index_in_range bs index) then Some (None, bs)
  else
    item ← bs_items bs !! Z.to_nat index;
    let b := check_buffer qs (it_opaque item) in
    Some (b, set_bs_items bs
               (<[Z.to_nat index := set_opaque item b]> (bs_items bs))).

(** Lines 265-278 of [bufed_select]: [None] stands for the early
    [return]; otherwise the state, [b], [last_buffer] and [index]. *)
Definition select_target (qs : QEmacsState) (bs : BufedState)
  (w : EditState) (temp : Z)
  : option (option (BufedState * option addr * option addr * Z)) :=
  if temp <? 0 then
    let b := check_buffer qs (bs_cur_buffer bs) in
    let last_buffer := check_buffer qs (bs_last_buffer bs) in
    Some (Some (set_bs_refs bs (bs_cur_window bs) b last_buffer,
                b, last_buffer, -1))
  else
    index ← list_get_pos E qs w;
    if negb (index_in_range bs index) then Some None
    else if (0 <? temp) && (index =? bs_last_index bs) then Some None
    else
      item ← bs_items bs !! Z.to_nat index;
      let b := check_buffer qs (it_opaque item) in
      Some (Some (set_bs_items bs
                    (<[Z.to_nat index := set_opaque item b]> (bs_items bs)),
                  b, bs_cur_buffer bs, index)).

Definition bufed_select (qs : QEmacsState) (s : wid) (temp : Z)
  : option QEmacsState :=
  w ← get_window qs s;
  match bufed_get_state qs w with
  | None => Some qs
  | Some bs =>
      target ← select_target qs bs w temp;
      match target with
      | None => Some qs
      | Some (bs, b, last_buffer, index) =>
          let e := check_window qs (bs_cur_window bs) in
          let bs := set_bs_refs bs e (bs_cur_buffer bs) (bs_last_buffer bs) in
          qs ←
            match e, b with
            | Some e', Some b' =>
                qs ← switch_to_buffer qs e' b';
                with_window qs e' (fun w' => set_s_buffer w' (s_b w') last_buffer)
            | _, _ => Some qs
            end;
          if temp <=? 0 then
            (* delete bufed window *)
            let qs := do_delete_window qs s in
            let qs :=
              match e with
              | Some e' => set_windows qs (windows qs) (Some e')
              | None => qs
              end in
            Some (put_state qs (s_b w) bs)
          else
            let bs := set_bs_last_index bs index in
            Some (put_state (do_refresh_complete qs) (s_b w) bs)
      end
  end.

(** [bufed_kill_item]; the opaque argument is the window [s], the state
    threaded is the editor.  The item handed over belongs to the array
    being iterated, which is [bs->items]; the action touches no other
    item, so the array travels with the iterator and is stored back by
    [bufed_kill_buffer]. *)
Definition bufed_kill_item (s : wid) (qs : QEmacsState) (item : StringItem)
  (index : Z) : option (QEmacsState * StringItem) :=
  let b := check_buffer qs (it_opaque item) in
  let item := set_opaque item b in
  w ← get_window qs s;
  match bufed_get_state qs w with
  | None => Some (qs, item)
  | Some bs =>
      match b with
      | Some a =>
          (* XXX: avoid killing buffer list by mistake *)
          if negb (Pos.eqb a (s_b w)) then
            let qs := do_kill_buffer E qs (it_str item) in
            let item := set_opaque item None in
            let qs :=
              if bool_decide (bs_cur_buffer bs = Some a)
              then put_state qs (s_b w)
                     (set_bs_refs bs (bs_cur_window bs) None
                                  (bs_last_buffer bs))
              else qs in
            Some (qs, item)
          else Some (qs, item)
      | None => Some (qs, item)
      end
  end.

Definition bufed_kill_buffer (qs : QEmacsState) (s : wid)
  : option QEmacsState :=
  w ← get_window qs s;
  match bufed_get_state qs w with
  | None => Some qs
  | Some bs =>
      index ← list_get_pos E qs w;
      '(items, qs) ←
        string_selection_iterate (bufed_kill_item s) (bs_items bs) index qs;
      bs ← state_at qs (s_b w);
      let qs := put_state qs (s_b w) (set_bs_items bs items) in
      qs ← bufed_select qs s 1;
      bs ← state_at qs (s_b w);
      '(qs, bs) ← build_bufed_list E qs bs s;
      Some (put_state qs (s_b w) bs)
  end.

Definition bufed_clear_modified (qs : QEmacsState) (s : wid)
  : option QEmacsState :=
  w ← get_window qs s;
  match bufed_get_state qs w with
  | None => Some qs
  | Some bs =>
      '(b, bs) ← bufed_get_buffer qs bs w;
      match b with
      | None => Some (put_state qs (s_b w) bs)
      | Some a =>
          qs ← with_buffer qs a (fun r => set_b_status r (b_flags r) 0);
          '(qs, bs) ← build_bufed_list E qs bs s;
          Some (put_state qs (s_b w) bs)
      end
  end.

Definition bufed_toggle_read_only (qs : QEmacsState) (s : wid)
  : option QEmacsState :=
  w ← get_window qs s;
  match bufed_get_state qs w with
  | None => Some qs
  | Some bs =>
      '(b, bs) ← bufed_get_buffer qs bs w;
      match b with
      | None => Some (put_state qs (s_b w) bs)
      | Some a =>
          qs ← with_buffer qs a
                (fun r => set_b_status r (Z.lxor (b_flags r) (BF_READONLY E))
                                       (b_modified r));
          '(qs, bs) ← build_bufed_list E qs bs s;
          Some (put_state qs (s_b w) bs)
      end
  end.

Definition bufed_refresh (qs : QEmacsState) (s : wid) (toggle : Z)
  : option QEmacsState :=
  w ← get_window qs s;
  match bufed_get_state qs w with
  | None => Some qs
  | Some bs =>
      let bs :=
        if negb (toggle =? 0)
        then set_bs_flags bs (Z.lxor (bs_flags bs) BUFED_ALL_VISIBLE)
        else bs in
      '(qs, bs) ← build_bufed_list E qs bs s;
      Some (put_state qs (s_b w) bs)
  end.

Definition bufed_set_sort (qs : QEmacsState) (s : wid) (order : Z)
  : option QEmacsState :=
  w ← get_window qs s;
  match bufed_get_state qs w with
  | None => Some qs
  | Some bs =>
      let qs :=
        if bufed_sort_order qs =? order
        then set_bufed_sort_order qs (int_mul order 3)
        else set_bufed_sort_order qs order in
      let bs := set_bs_last_index bs (-1) in
      '(qs, bs) ← build_bufed_list E qs bs s;
      Some (put_state qs (s_b w) bs)
  end.

End Commands.

(** ** A reference environment

    One concrete choice for what the rest of the editor provides: distinct
    flag bits, a signed [char], collation by byte order, insertion sort, and
    a text engine that counts newlines.  It runs the model on concrete
    inputs. *)

Definition byte_collate (s1 s2 : string) : Z :=
  match String.compare s1 s2 with
  | Lt => -1
  | Eq => 0
  | Gt => 1
  end.

Fixpoint insert_by {A : Type} (cmp : A -> A -> Z) (x : A) (l : list A)
  : list A :=
  match l with
  | [] => [x]
  | y :: l' => if cmp x y <=? 0 then x :: l else y :: insert_by cmp x l'
  end.

Fixpoint insertion_sort {A : Type} (cmp : A -> A -> Z) (l : list A)
  : list A :=
  match l with
  | [] => []
  | x :: l' => insert_by cmp x (insertion_sort cmp l')
  end.

Fixpoint flat_text (t : list span) : string :=
  match t with
  | [] => EmptyString
  | (_, s) :: rest => String.append s (flat_text rest)
  end.

(** Line and column reached after [n] characters of [s]. *)
Fixpoint scan_pos (s : string) (n : nat) (line col : Z) : Z * Z :=
  match n, s with
  | S n', String c rest =>
      if Ascii.eqb c (ascii_of_nat 10) then scan_pos rest n' (line + 1) 0
      else scan_pos rest n' line (col + 1)
  | _, _ => (line, col)
  end.

(** Offset of the start of line [line], counted from offset [off]. *)
Fixpoint line_start (s : string) (line : nat) (off : Z) {struct s} : Z :=
  match line, s with
  | S line', String c rest =>
      if Ascii.eqb c (ascii_of_nat 10) then line_start rest line' (off + 1)
      else line_start rest line (off + 1)
  | _, _ => off
  end.

Definition ref_env : Env :=
  {| BF_SYSTEM := 0x0002;
     BF_READONLY := 0x0004;
     BF_IS_LOG := 0x10000;
     BF_IS_STYLE := 0x8000;
     BF_DIRED := 0x0100;
     QE_STYLE_KEYWORD := 3;
     QE_STYLE_FUNCTION := 6;
     QE_STYLE_COMMENT := 1;
     QE_STYLE_ERROR := 9;
     char_signed := true;
     qe_strcollate := byte_collate;
     qe_qsort_r := @insertion_sort;
     make_user_path := fun path => path;
     eb_get_pos := fun t off => scan_pos (flat_text t) (Z.to_nat off) 0 0;
     eb_goto_pos :=
       fun t line col => line_start (flat_text t) (Z.to_nat line) 0 + col;
     kill_granted := fun _ => true |}.

(** A buffer with the given identity, names, flags and modification mark,
    and nothing else of note. *)
Definition plain_buffer (a : addr) (name filename : string)
  (fl modified : Z) : EditBuffer :=
  {| b_addr := a; b_name := name; b_filename := filename;
     b_flags := fl; b_modified := modified; b_mtime := 0;
     b_total_size := 0; b_style_bytes := 0; b_charset_name := "utf-8";
     b_data_type_name := None; b_saved_mode := None;
     b_default_mode := None; b_syntax_mode := None;
     b_mode_data_list := []; b_cur_style := 0; b_text := [] |}.

(** ** Sample editors

    A registry of three files and the buffer of the list, shown in window 1
    and opened from window 2. *)

Definition panel_buffer : EditBuffer :=
  plain_buffer 4%positive "*bufed*" EmptyString (Z.lor 0x0002 0x0004) 0.

Definition blank_state : BufedState :=
  {| bs_flags := 0; bs_last_index := -1; bs_sort_mode := 0;
     bs_cur_window := Some 2%positive; bs_cur_buffer := Some 1%positive;
     bs_last_buffer := None; bs_items := [] |}.

Definition panel_window : EditState :=
  {| s_id := 1%positive; s_b := 4%positive; s_offset := 0; s_offset_top := 0;
     s_flags := 0; s_last_buffer := None |}.

Definition sample_windows : list EditState :=
  [ panel_window;
    {| s_id := 2%positive; s_b := 1%positive; s_offset := 0; s_offset_top := 0;
       s_flags := 0; s_last_buffer := None |} ].

Definition sample_editor : QEmacsState :=
  {| first_buffer :=
       [ plain_buffer 5%positive "*messages*" EmptyString 0x0002 0;
         plain_buffer 1%positive "a.txt" "/tmp/a.txt" 0 0;
         plain_buffer 2%positive "b.txt" "/tmp/b.txt" 0 1;
         plain_buffer 3%positive "c.txt" "/tmp/c.txt" 0 0;
         panel_buffer ];
     windows := sample_windows;
     active_window := Some 1%positive;
     bufed_sort_order := 0;
     bufed_data := Some (4%positive, blank_state);
     complete_refresh := false;
     kill_requests := [] |}.

(** The same editor with the filter showing all buffers. *)
Definition sample_editor_all : QEmacsState :=
  set_bufed_data sample_editor
    (Some (4%positive, set_bs_flags blank_state BUFED_ALL_VISIBLE)).

(** The labels of the rows of the list, in order. *)
Definition row_labels (qs : QEmacsState) : option (list string) :=
  bs ← state_at qs 4%positive;
  Some (List.map it_str (bs_items bs)).

(** What the list mode does when the user marks rows and moves the cursor:
    the rows get their selection mark and the offset of the window goes to
    the start of the line. *)
Definition mark_rows (rows : list nat) (cs : list StringItem)
  : list StringItem :=
  List.map
    (fun '(i, it) =>
       {| it_opaque := it_opaque it;
          it_selected := it_selected it || bool_decide (i ∈ rows);
          it_group := it_group it; it_str := it_str it |})
    (List.combine (List.seq 0 (length cs)) cs).

Definition mark_and_move (E : Env) (qs : QEmacsState) (s : wid)
  (rows : list nat) (line : Z) : option QEmacsState :=
  w ← get_window qs s;
  bs ← bufed_get_state qs w;
  r ← find_buffer qs (s_b w);
  let qs := put_state qs (s_b w)
              (set_bs_items bs (mark_rows rows (bs_items bs))) in
  with_window qs s
    (fun w => set_s_offsets w (eb_goto_pos E (b_text r) line 0)
                            (s_offset_top w)).

(** The list was opened, rows 0 and 1 were marked, the cursor is on
    row 2. *)
Definition two_marked_cursor_on_third : option QEmacsState :=
  qs ← bufed_refresh ref_env sample_editor 1%positive 0;
  mark_and_move ref_env qs 1%positive [0%nat; 1%nat] 2.

(** What is left of the registry and what was asked of it. *)
Definition registry_summary (qs : QEmacsState) : list string * list string :=
  (List.map b_name (first_buffer qs), kill_requests qs).

(** An editor whose list was built before its only file was opened: no
    row, the cursor at the start of an empty display. *)
Definition stale_editor : QEmacsState :=
  {| first_buffer := [ plain_buffer 1%positive "a.txt" "/tmp/a.txt" 0 0; panel_buffer ];
     windows := sample_windows;
     active_window := Some 1%positive;
     bufed_sort_order := 0;
     bufed_data := Some (4%positive, blank_state);
     complete_refresh := false;
     kill_requests := [] |}.

(** ** Notions used to state the properties *)

(** The two buffers tie on the system rule (line 76). *)
Definition same_system_flag (E : Env) (b1 b2 : EditBuffer) : Prop :=
  Z.land (b_flags b1) (BF_SYSTEM E) = Z.land (b_flags b2) (BF_SYSTEM E).

(** The modified-first key is active and tells the two buffers apart. *)
Definition modified_rule_decides (sort_mode : Z) (b1 b2 : EditBuffer)
  : bool :=
  mask_set sort_mode BUFED_SORT_MODIFIED
  && negb (int_sub (b_modified b2) (b_modified b1) =? 0).

(** The result of the first of the rules 2 to 4 that decides, before any
    negation: the modified-first key, else the keys of the loop with the
    name as fallback. *)
Definition rules_2_to_4 (E : Env) (sort_mode : Z) (b1 b2 : EditBuffer) : Z :=
  if modified_rule_decides sort_mode b1 b2
  then int_sub (b_modified b2) (b_modified b1)
  else sort_keys E sort_mode b1 b2.

(** The sorting routine returns a rearrangement of its input. *)
Definition qsort_permutes (E : Env) : Prop :=
  forall (A : Type) (cmp : A -> A -> Z) (l : list A),
    Permutation (qe_qsort_r E A cmp l) l.

(** The item lines 127-128 create for a buffer. *)
Definition fresh_item (b1 : EditBuffer) : StringItem :=
  {| it_opaque := Some (b_addr b1); it_selected := false;
     it_group := 0; it_str := b_name b1 |}.

(** What a rebuild through the display buffer [b] and the window [s] may
    change in the editor: the text, style, modification mark and read-only
    flag of [b], and the offsets of [s]; nothing else. *)
Definition buffer_kept (E : Env) (b : addr) (r r' : EditBuffer) : Prop :=
  b_addr r' = b_addr r /\
  (b_addr r <> b -> r' = r) /\
  (b_flags r' = b_flags r \/
   b_flags r' = Z.lor (b_flags r) (BF_READONLY E)).

Definition window_kept (s : wid) (w w' : EditState) : Prop :=
  s_id w' = s_id w /\ s_b w' = s_b w /\ (s_id w <> s -> w' = w).

Record frame (E : Env) (b : addr) (s : wid) (qs qs' : QEmacsState)
  : Prop := {
  frame_buffers :
    Forall2 (buffer_kept E b) (first_buffer qs) (first_buffer qs');
  frame_windows : Forall2 (window_kept s) (windows qs) (windows qs');
  frame_active : active_window qs' = active_window qs;
  frame_order : bufed_sort_order qs' = bufed_sort_order qs;
  frame_data : bufed_data qs' = bufed_data qs;
  frame_refresh : complete_refresh qs' = complete_refresh qs;
  frame_kills : kill_requests qs' = kill_requests qs;
}.

(** The rows of lines 125-130 before sorting: a fresh item for each listed
    buffer, in registry order. *)
Definition listed_rows (E : Env) (qs : QEmacsState) (bs : BufedState)
  : list (StringItem * EditBuffer) :=
  List.map (fun b1 => (fresh_item b1, b1))
           (List.filter (listed E bs) (first_buffer qs)).

(** The mode data a rebuild leaves. *)
Definition rebuilt (E : Env) (qs : QEmacsState) (bs : BufedState)
  : BufedState :=
  set_bs_last_index
    (set_bs_items (set_bs_sort_mode bs (bufed_sort_order qs))
                  (List.map fst (build_items E qs bs)))
    (-1).

(** The selection iterator in the words of its description: the rows it
    acts on are the rows flagged selected, in ascending order, or the
    current row alone when no row is flagged and the index is in bounds;
    the action is applied to them one after the other. *)
Fixpoint flagged_from (i : nat) (cs : list StringItem) : list nat :=
  match cs with
  | [] => []
  | item :: rest =>
      if it_selected item then i :: flagged_from (S i) rest
      else flagged_from (S i) rest
  end.

Definition target_rows (cs : list StringItem) (current_index : Z)
  : list nat :=
  match flagged_from 0 cs with
  | [] =>
      if (0 <=? current_index) && (current_index <? Z.of_nat (length cs))
      then [Z.to_nat current_index] else []
  | rows => rows
  end.

Fixpoint apply_to_rows {O : Type}
  (func_item : O -> StringItem -> Z -> option (O * StringItem))
  (rows : list nat) (cs : list StringItem) (o : O)
  : option (list StringItem * O) :=
  match rows with
  | [] => Some (cs, o)
  | i :: rest =>
      item ← cs !! i;
      '(o, item) ← func_item o item (Z.of_nat i);
      apply_to_rows func_item rest (<[i := item]> cs) o
  end.

(** ** Orders given by comparators *)

(** A comparator in the C style orders its domain when its sign is
    antisymmetric and transitive, a zero result standing for a tie. *)
Record cmp_order {A : Type} (c : A -> A -> Z) : Prop := {
  co_anti : forall x y, c x y < 0 <-> 0 < c y x;
  co_lt_lt : forall x y z, c x y < 0 -> c y z < 0 -> c x z < 0;
  co_eq_eq : forall x y z, c x y = 0 -> c y z = 0 -> c x z = 0;
  co_eq_lt : forall x y z, c x y = 0 -> c y z < 0 -> c x z < 0;
  co_lt_eq : forall x y z, c x y < 0 -> c y z = 0 -> c x z < 0;
}.

(** First [c1], then [c2] on a tie. *)
Definition lex {A : Type} (c1 c2 : A -> A -> Z) (x y : A) : Z :=
  if c1 x y =? 0 then c2 x y else c1 x y.

(** The comparison of the integer keys [f x] and [f y]. *)
Definition by_key {A : Type} (f : A -> Z) (x y : A) : Z :=
  if f x =? f y then 0 else if f x <? f y then -1 else 1.

(** [x] goes before [y], or ties with it. *)
Definition cmp_le {A : Type} (c : A -> A -> Z) (x y : A) : Prop := c x y <= 0.

(** The comparator is total and transitive on the elements of [l]: what a
    sorting routine needs of it. *)
Definition consistent_on {A : Type} (c : A -> A -> Z) (l : list A) : Prop :=
  (forall x y, In x l -> In y l -> c x y <= 0 \/ c y x <= 0) /\
  (forall x y z, In x l -> In y l -> In z l ->
     c x y <= 0 -> c y z <= 0 -> c x z <= 0).

(** The sorting routine sorts: under a consistent comparator its result is
    in order. *)
Definition qsort_sorts (E : Env) : Prop :=
  forall (A : Type) (c : A -> A -> Z) (l : list A),
    consistent_on c l -> StronglySorted (cmp_le c) (qe_qsort_r E A c l).

(** The collation is a total order on strings, with results that can be
    negated. *)
Definition collation_order (E : Env) : Prop :=
  cmp_order (qe_strcollate E) /\
  (forall a b, qe_strcollate E a b = 0 -> a = b) /\
  (forall a b, int_min < qe_strcollate E a b <= int_max).

(** The keys of the sort commands. *)
Definition single_sort_key (key : Z) : Prop :=
  In key [BUFED_SORT_MODIFIED; BUFED_SORT_TIME; BUFED_SORT_NAME;
          BUFED_SORT_FILENAME; BUFED_SORT_SIZE].

(** [c1] first when the key is active, [c2] alone otherwise. *)
Definition lex_if {A : Type} (active : bool) (c1 c2 : A -> A -> Z)
  : A -> A -> Z :=
  if active then lex c1 c2 else c2.

(** The loop of keys as a lexicographic order: time, size, first byte of
    the file name (the greater byte first), collation of the file names,
    starred names last, collation of the names. *)
Definition name_order (E : Env) : EditBuffer -> EditBuffer -> Z :=
  lex (fun b1 b2 => int_sub (c_bool (starred (b_name b1)))
                            (c_bool (starred (b_name b2))))
      (fun b1 b2 => qe_strcollate E (b_name b1) (b_name b2)).

Definition filename_order (E : Env) (rest : EditBuffer -> EditBuffer -> Z)
  : EditBuffer -> EditBuffer -> Z :=
  lex (fun b1 b2 => int_sub (- first_char E (b_filename b1))
                            (- first_char E (b_filename b2)))
      (lex (fun b1 b2 => qe_strcollate E (b_filename b1) (b_filename b2))
           rest).

Definition keys_order (E : Env) (sort_mode : Z)
  : EditBuffer -> EditBuffer -> Z :=
  lex_if (mask_set sort_mode BUFED_SORT_TIME) (by_key b_mtime)
    (lex_if (mask_set sort_mode BUFED_SORT_SIZE) (by_key b_total_size)
       (if mask_set sort_mode BUFED_SORT_FILENAME
        then filename_order E (name_order E)
        else name_order E)).

(** The editor [qs] lists what [qs0] listed: the window [s] still shows the
    buffer [b] of the list, the mode data has the filter of [bs0], and the
    registry is the one of [qs0] up to what rebuilds write into [b]. *)
Definition same_listing (E : Env) (b : addr) (s : wid) (qs0 : QEmacsState)
  (bs0 : BufedState) (qs : QEmacsState) : Prop :=
  (exists w, get_window qs s = Some w /\ s_b w = b) /\
  (exists bs, state_at qs b = Some bs /\ bs_flags bs = bs_flags bs0) /\
  Forall2 (buffer_kept E b) (first_buffer qs0) (first_buffer qs).

(** The sort order a sort command leaves (lines 460-463). *)
Definition next_sort_order (current order : Z) : Z :=
  if current =? order then int_mul order 3 else order.

(** ** The whole comparator as an order *)

(** The modification mark is a small integer (a flag, in practice), so
    that the difference of two marks is an [int]. *)
Definition modified_in_range (b : EditBuffer) : Prop :=
  - 2 ^ 30 < b_modified b < 2 ^ 30.

(** The mark, and zero outside the range above. *)
Definition modified_key (b : EditBuffer) : Z :=
  if (- 2 ^ 30 <? b_modified b) && (b_modified b <? 2 ^ 30)
  then b_modified b else 0.

(** The comparator as a lexicographic order: the system flag, then the
    modification mark (modified first) when its key is active, then the
    loop of keys, in the direction the mask gives. *)
Definition full_order (E : Env) (sort_mode : Z)
  : EditBuffer -> EditBuffer -> Z :=
  lex (fun b1 b2 => int_sub (Z.land (b_flags b1) (BF_SYSTEM E))
                            (Z.land (b_flags b2) (BF_SYSTEM E)))
    (lex_if (mask_set sort_mode BUFED_SORT_MODIFIED)
       (fun b1 b2 => int_sub (- modified_key b1) (- modified_key b2))
       (if mask_set sort_mode BUFED_SORT_DESCENDING
        then (fun b1 b2 => - keys_order E sort_mode b1 b2)
        else keys_order E sort_mode)).

(** The comparator the sort of line 134 is given, on rows. *)
Definition row_cmp (E : Env) (sort_mode : Z)
  (p1 p2 : StringItem * EditBuffer) : Z :=
  bufed_sort_func E sort_mode (snd p1) (snd p2).

(** ** More sample data *)

(** The three files of the sample editor, and a scratch buffer: starred,
    without a file, not a system buffer. *)
Definition file_a : EditBuffer :=
  plain_buffer 1%positive "a.txt" "/tmp/a.txt" 0 0.

Definition file_b : EditBuffer :=
  plain_buffer 2%positive "b.txt" "/tmp/b.txt" 0 1.

Definition file_c : EditBuffer :=
  plain_buffer 3%positive "c.txt" "/tmp/c.txt" 0 0.

Definition scratch_buffer : EditBuffer :=
  plain_buffer 6%positive "*scratch*" EmptyString 0 0.

(** A file saved at the given time. *)
Definition saved_at (a : addr) (name : string) (mtime : Z) : EditBuffer :=
  {| b_addr := a; b_name := name; b_filename := name;
     b_flags := 0; b_modified := 0; b_mtime := mtime;
     b_total_size := 0; b_style_bytes := 0; b_charset_name := "utf-8";
     b_data_type_name := None; b_saved_mode := None;
     b_default_mode := None; b_syntax_mode := None;
     b_mode_data_list := []; b_cur_style := 0; b_text := [] |}.

(** The sample editor with the name key as its sort order. *)
Definition sample_editor_by_name : QEmacsState :=
  set_bufed_sort_order sample_editor BUFED_SORT_NAME.

(** The sample editor whose list has the given row alone, the cursor on
    it. *)
Definition row_state (item : StringItem) : BufedState :=
  set_bs_items blank_state [item].

Definition row_editor (item : StringItem) : QEmacsState :=
  put_state sample_editor 4%positive (row_state item).

(** A row whose buffer, at address 9, is not in the registry. *)
Definition dead_row : StringItem :=
  set_opaque (fresh_item file_a) (Some 9%positive).

(** The row of the first file after a preview of it. *)
Definition previewed_state : BufedState :=
  set_bs_last_index (row_state (fresh_item file_a)) 0.

Definition previewed_editor : QEmacsState :=
  put_state sample_editor 4%positive previewed_state.

(** Two rows, the first one flagged. *)
Definition first_of_two_flagged : list StringItem :=
  mark_rows [0%nat] [fresh_item file_a; fresh_item file_b].

(** ** Notions for the commands that end in a rebuild *)

(** The window [s] of the list, its mode data and its buffer are where
    they were in [qs0], and the registry of [qs] has no buffer that [qs0]
    had not. *)
Definition list_in_place (s : wid) (w : EditState) (qs0 qs : QEmacsState)
  : Prop :=
  get_window qs s = Some w /\
  is_Some (state_at qs (s_b w)) /\
  is_Some (find_buffer qs (s_b w)) /\
  (forall r, In r (first_buffer qs) -> In r (first_buffer qs0)).

(** A row that carries the name of the buffer of the list refers to that
    buffer: a kill request made for the row of another buffer does not
    name the buffer of the list. *)
Definition label_spares_the_list (w : EditState) (qs0 : QEmacsState)
  (item : StringItem) : Prop :=
  forall r, In r (first_buffer qs0) -> b_addr r = s_b w ->
            it_str item = b_name r -> it_opaque item = Some (s_b w).

(** No row is marked selected, and there are as many rows as the registry
    has listed buffers. *)
Definition rows_of_the_registry (E : Env) (qs : QEmacsState)
  (bs : BufedState) : Prop :=
  Forall (fun it => it_selected it = false) (bs_items bs) /\
  length (bs_items bs)
  = length (List.filter (listed E bs) (first_buffer qs)).

(** The sample editor of [two_marked_cursor_on_third]: three rows, the
    first two marked. *)
Definition marked_editor : QEmacsState :=
  Eval vm_compute in default sample_editor two_marked_cursor_on_third.

Definition marked_state : BufedState :=
  Eval vm_compute in default blank_state (state_at marked_editor 4%positive).

Definition marked_window : EditState :=
  Eval vm_compute in
    default panel_window (get_window marked_editor 1%positive).

(** * Part II: properties *)

(** ** C integers *)

Lemma to_int_small z : int_min <= z <= int_max -> to_int z = z.
Proof.
  unfold int_min, int_max, to_int. intros Hz.
  rewrite Z.mod_small by lia. lia.
Qed.

Lemma to_int_range z : int_min <= to_int z <= int_max.
Proof.
  unfold int_min, int_max, to_int.
  pose proof (Z.mod_pos_bound (z + 2 ^ 31) (2 ^ 32) ltac:(lia)). lia.
Qed.

Lemma int_sub_diag a : int_sub a a = 0.
Proof. unfold int_sub. rewrite Z.sub_diag. reflexivity. Qed.

Lemma land_disjoint_parts a b : Z.land (Z.ldiff a b) (Z.land a b) = 0.
Proof.
  apply Z.bits_inj'. intros n Hn.
  rewrite Z.land_spec, Z.ldiff_spec, Z.land_spec, Z.bits_0.
  destruct (Z.testbit a n), (Z.testbit b n); reflexivity.
Qed.

(** A mask selects a value between [0] and the mask, whatever the sign of
    the masked integer. *)
Lemma land_mask_range x mask : 0 <= mask -> 0 <= Z.land x mask <= mask.
Proof.
  intros Hm. split.
  - apply Z.land_nonneg. right. exact Hm.
  - pose proof (Z.lor_ldiff_and mask x) as Hsplit.
    rewrite <- Z.add_nocarry_lor in Hsplit by apply land_disjoint_parts.
    assert (0 <= Z.ldiff mask x) by (apply Z.ldiff_nonneg; left; exact Hm).
    rewrite (Z.land_comm x mask). lia.
Qed.

Lemma mask_set_true x mask : mask_set x mask = true <-> Z.land x mask <> 0.
Proof.
  unfold mask_set. rewrite negb_true_iff, Z.eqb_neq. reflexivity.
Qed.

Lemma mask_set_false x mask : mask_set x mask = false <-> Z.land x mask = 0.
Proof.
  unfold mask_set. rewrite negb_false_iff, Z.eqb_eq. reflexivity.
Qed.

(** ** The comparator *)

Section ComparatorFacts.
Variable E : Env.

(** C1.  When exactly one of the two compared buffers has the system flag,
    the system buffer compares after the other one, under every sort mask:
    the result is the masked flag itself (or its opposite), whatever the
    keys and the descending bits of the mask, so it is never negated. *)
Theorem system_buffers_sort_last (sort_mode : Z) (b1 b2 : EditBuffer) :
  0 < BF_SYSTEM E <= int_max ->
  mask_set (b_flags b1) (BF_SYSTEM E) = true ->
  mask_set (b_flags b2) (BF_SYSTEM E) = false ->
  0 < bufed_sort_func E sort_mode b1 b2 /\
  bufed_sort_func E sort_mode b2 b1 < 0 /\
  bufed_sort_func E sort_mode b1 b2 = Z.land (b_flags b1) (BF_SYSTEM E) /\
  bufed_sort_func E sort_mode b2 b1 = - Z.land (b_flags b1) (BF_SYSTEM E).
Proof.
  intros Hsys H1 H2.
  apply mask_set_true in H1. apply mask_set_false in H2.
  pose proof (land_mask_range (b_flags b1) (BF_SYSTEM E) ltac:(lia)) as Hr.
  unfold bufed_sort_func. rewrite H2. unfold int_sub.
  rewrite Z.sub_0_r, Z.sub_0_l.
  rewrite (to_int_small (Z.land (b_flags b1) (BF_SYSTEM E))),
    (to_int_small (- Z.land (b_flags b1) (BF_SYSTEM E)))
    by (unfold int_min, int_max in *; lia).
  destruct (Z.eqb_spec (Z.land (b_flags b1) (BF_SYSTEM E)) 0) as [Heq|Hne];
    [contradiction|].
  destruct (Z.eqb_spec (- Z.land (b_flags b1) (BF_SYSTEM E)) 0) as [Heq|_];
    [lia|].
  simpl. lia.
Qed.

(** C2, as amended.  Under a mask with a descending bit and for two
    buffers that tie on the system rule: when the modified-first key
    decides, its result is returned as it is; otherwise the result of the
    loop of keys (time, size, filename, name) is negated. *)
Theorem descending_negates_loop_keys_only (sort_mode : Z)
  (b1 b2 : EditBuffer) :
  same_system_flag E b1 b2 ->
  mask_set sort_mode BUFED_SORT_DESCENDING = true ->
  (modified_rule_decides sort_mode b1 b2 = true ->
   bufed_sort_func E sort_mode b1 b2
   = int_sub (b_modified b2) (b_modified b1)) /\
  (modified_rule_decides sort_mode b1 b2 = false ->
   bufed_sort_func E sort_mode b1 b2
   = int_neg (sort_keys E sort_mode b1 b2)).
Proof.
  intros Htie Hdesc. unfold same_system_flag in Htie.
  unfold bufed_sort_func, modified_rule_decides.
  rewrite Htie, int_sub_diag, Hdesc. simpl.
  split; intros ->; reflexivity.
Qed.

(** C5, at the failing input.  With the filename key alone, two buffers
    that differ only in their file names [a] and [b] are ordered by the
    difference of the first bytes, second minus first: [a] comes after
    [b], and the collation is not consulted. *)
Theorem filename_key_orders_by_first_byte_reversed :
  bufed_sort_func E BUFED_SORT_FILENAME
    (plain_buffer 1%positive "x" "a" 0 0) (plain_buffer 2%positive "x" "b" 0 0) = 1 /\
  bufed_sort_func E BUFED_SORT_FILENAME
    (plain_buffer 2%positive "x" "b" 0 0) (plain_buffer 1%positive "x" "a" 0 0) = -1.
Proof.
  unfold bufed_sort_func, sort_keys, sort_by_filename, first_char, char_val.
  simpl. destruct (char_signed E); split; reflexivity.
Qed.

End ComparatorFacts.

(** Witness of C1: a system buffer against an ordinary one, descending
    name order. *)
Lemma system_buffers_sort_last_witness :
  0 < bufed_sort_func ref_env (int_mul BUFED_SORT_NAME 3)
        (plain_buffer 1%positive "*scratch*" "" 2 0) (plain_buffer 2%positive "a.txt" "" 0 0).
Proof.
  apply (system_buffers_sort_last ref_env (int_mul BUFED_SORT_NAME 3)
           (plain_buffer 1%positive "*scratch*" "" 2 0) (plain_buffer 2%positive "a.txt" "" 0 0));
    [vm_compute; split; [reflexivity | discriminate] | reflexivity
    | reflexivity].
Defined.

(** Witness of the amended C2: two ordinary buffers under the descending
    name order. *)
Lemma descending_negates_loop_keys_only_witness :
  bufed_sort_func ref_env (int_mul BUFED_SORT_NAME 3)
    (plain_buffer 1%positive "a" "" 0 0) (plain_buffer 2%positive "b" "" 0 0)
  = int_neg (sort_keys ref_env (int_mul BUFED_SORT_NAME 3)
               (plain_buffer 1%positive "a" "" 0 0) (plain_buffer 2%positive "b" "" 0 0)).
Proof.
  apply (descending_negates_loop_keys_only ref_env (int_mul BUFED_SORT_NAME 3)
           (plain_buffer 1%positive "a" "" 0 0) (plain_buffer 2%positive "b" "" 0 0));
    reflexivity.
Defined.

(** Counterexample to C2 as stated: modified-first key with the descending
    bit, a modified buffer against an unmodified one.  The modified-first
    rule gives [-1]; the comparator returns [-1], not its negation. *)
Lemma descending_negation_counterexample :
  let m := int_mul BUFED_SORT_MODIFIED 3 in
  let b1 := plain_buffer 1%positive "a" "" 0 1 in
  let b2 := plain_buffer 2%positive "b" "" 0 0 in
  mask_set m BUFED_SORT_DESCENDING = true /\
  same_system_flag ref_env b1 b2 /\
  rules_2_to_4 ref_env m b1 b2 = -1 /\
  bufed_sort_func ref_env m b1 b2 = -1 /\
  bufed_sort_func ref_env m b1 b2 <> int_neg (rules_2_to_4 ref_env m b1 b2).
Proof.
  vm_compute. repeat split; discriminate.
Qed.

(** ** The registry and the frame of a rebuild *)

Lemma find_buffer_addr qs a r : find_buffer qs a = Some r -> b_addr r = a.
Proof.
  unfold find_buffer. intros H. apply find_some in H as [_ H].
  apply Pos.eqb_eq in H. exact H.
Qed.

Lemma find_buffer_In qs a r :
  find_buffer qs a = Some r -> In r (first_buffer qs).
Proof. unfold find_buffer. intros H. apply find_some in H as [H _]. exact H. Qed.

Lemma get_window_id qs s w : get_window qs s = Some w -> s_id w = s.
Proof.
  unfold get_window. intros H. apply find_some in H as [_ H].
  apply Pos.eqb_eq in H. exact H.
Qed.

Section Frame.
Variable E : Env.
Variable b : addr.
Variable s : wid.

Lemma buffer_kept_refl r : buffer_kept E b r r.
Proof. unfold buffer_kept. auto. Qed.

Lemma buffer_kept_trans r1 r2 r3 :
  buffer_kept E b r1 r2 -> buffer_kept E b r2 r3 -> buffer_kept E b r1 r3.
Proof.
  intros (Ha & Hother & Hfl) (Ha' & Hother' & Hfl'). repeat split.
  - congruence.
  - intros Hne. rewrite Hother' by congruence. auto.
  - destruct Hfl as [Hfl|Hfl], Hfl' as [Hfl'|Hfl']; rewrite Hfl', Hfl; auto.
    right. rewrite <- Z.lor_assoc, Z.lor_diag. reflexivity.
Qed.

Lemma window_kept_refl w : window_kept s w w.
Proof. unfold window_kept. auto. Qed.

Lemma window_kept_trans w1 w2 w3 :
  window_kept s w1 w2 -> window_kept s w2 w3 -> window_kept s w1 w3.
Proof.
  intros (Hi & Hb & Ho) (Hi' & Hb' & Ho'). repeat split; try congruence.
  intros Hne. rewrite Ho' by congruence. auto.
Qed.

Lemma Forall2_diag {A : Type} (R : A -> A -> Prop) (l : list A) :
  (forall x, R x x) -> Forall2 R l l.
Proof. intros HR. induction l; constructor; auto. Qed.

Lemma Forall2_map_r {A : Type} (R : A -> A -> Prop) (g : A -> A)
  (l : list A) : (forall x, R x (g x)) -> Forall2 R l (List.map g l).
Proof. intros HR. induction l; simpl; constructor; auto. Qed.

Lemma frame_refl qs : frame E b s qs qs.
Proof.
  constructor; try reflexivity.
  - apply Forall2_diag, buffer_kept_refl.
  - apply Forall2_diag, window_kept_refl.
Qed.

Lemma frame_trans qs1 qs2 qs3 :
  frame E b s qs1 qs2 -> frame E b s qs2 qs3 -> frame E b s qs1 qs3.
Proof.
  intros [Hb Hw Ha Ho Hd Hr Hk] [Hb' Hw' Ha' Ho' Hd' Hr' Hk'].
  constructor; try congruence.
  - eapply Forall2_trans; [|exact Hb|exact Hb']. apply buffer_kept_trans.
  - eapply Forall2_trans; [|exact Hw|exact Hw']. apply window_kept_trans.
Qed.

Lemma find_kept (l l' : list EditBuffer) a r :
  Forall2 (buffer_kept E b) l l' ->
  List.find (fun x => Pos.eqb (b_addr x) a) l = Some r ->
  exists r', List.find (fun x => Pos.eqb (b_addr x) a) l' = Some r'
             /\ buffer_kept E b r r'.
Proof.
  induction 1 as [|x y l l' Hxy Hl IH]; simpl; [discriminate|].
  destruct Hxy as (Ha & Hrest). rewrite Ha.
  destruct (Pos.eqb (b_addr x) a).
  - intros [= <-]. exists y. split; [reflexivity|]. split; assumption.
  - exact IH.
Qed.

Lemma frame_find_buffer qs qs' a r :
  frame E b s qs qs' -> find_buffer qs a = Some r ->
  exists r', find_buffer qs' a = Some r' /\ buffer_kept E b r r'.
Proof. intros [Hb _ _ _ _ _ _]. apply find_kept. exact Hb. Qed.

Lemma frame_is_buffer qs qs' a :
  frame E b s qs qs' -> is_Some (find_buffer qs a) ->
  is_Some (find_buffer qs' a).
Proof.
  intros Hf [r Hr]. destruct (frame_find_buffer _ _ _ _ Hf Hr) as (r' & Hr' & _).
  exists r'. exact Hr'.
Qed.

Lemma frame_get_window qs qs' x w :
  frame E b s qs qs' -> get_window qs x = Some w ->
  exists w', get_window qs' x = Some w' /\ window_kept s w w'.
Proof.
  intros [_ Hw _ _ _ _ _]. unfold get_window. revert Hw.
  generalize (windows qs) (windows qs').
  induction 1 as [|u v l l' Huv Hl IH]; simpl; [discriminate|].
  destruct Huv as (Hi & Hrest). rewrite Hi.
  destruct (Pos.eqb (s_id u) x).
  - intros [= <-]. exists v. split; [reflexivity|]. split; assumption.
  - exact IH.
Qed.

Lemma frame_is_window qs qs' x :
  frame E b s qs qs' -> is_Some (get_window qs x) ->
  is_Some (get_window qs' x).
Proof.
  intros Hf [w Hw]. destruct (frame_get_window _ _ _ _ Hf Hw) as (w' & Hw' & _).
  exists w'. exact Hw'.
Qed.

Lemma frame_check_buffer qs qs' slot :
  frame E b s qs qs' -> is_Some (deref qs slot) ->
  check_buffer qs' slot = slot.
Proof.
  intros Hf [r Hr]. destruct slot as [a|]; [|discriminate]. simpl in Hr.
  destruct (frame_find_buffer _ _ _ _ Hf Hr) as (r' & Hr' & _).
  simpl. rewrite Hr'. reflexivity.
Qed.

Lemma with_buffer_some qs a (f : EditBuffer -> EditBuffer) :
  is_Some (find_buffer qs a) -> with_buffer qs a f = Some (upd_buffer qs a f).
Proof. intros [r Hr]. unfold with_buffer. rewrite Hr. reflexivity. Qed.

Lemma with_window_some qs x (f : EditState -> EditState) :
  is_Some (get_window qs x) -> with_window qs x f = Some (upd_window qs x f).
Proof. intros [w Hw]. unfold with_window. rewrite Hw. reflexivity. Qed.

(** A store through the display buffer pointer that keeps the identity of
    the buffer and at most sets its read-only flag stays in the frame. *)
Lemma frame_upd_buffer qs (f : EditBuffer -> EditBuffer) :
  (forall r, b_addr (f r) = b_addr r) ->
  (forall r, b_flags (f r) = b_flags r \/
             b_flags (f r) = Z.lor (b_flags r) (BF_READONLY E)) ->
  frame E b s qs (upd_buffer qs b f).
Proof.
  intros Haddr Hflags. constructor; simpl; try reflexivity.
  - apply Forall2_map_r. intros x.
    destruct (Pos.eqb_spec (b_addr x) b) as [Heq|Hne].
    + repeat split; auto. intros Hne. contradiction.
    + apply buffer_kept_refl.
  - apply Forall2_diag, window_kept_refl.
Qed.

Lemma frame_upd_window qs (f : EditState -> EditState) :
  (forall w, s_id (f w) = s_id w) ->
  (forall w, s_b (f w) = s_b w) ->
  frame E b s qs (upd_window qs s f).
Proof.
  intros Hid Hb. constructor; simpl; try reflexivity.
  - apply Forall2_diag, buffer_kept_refl.
  - apply Forall2_map_r. intros x.
    destruct (Pos.eqb_spec (s_id x) s) as [Heq|Hne].
    + repeat split; auto. intros Hne. contradiction.
    + apply window_kept_refl.
Qed.

Lemma frame_step_buffer qs0 qs (f : EditBuffer -> EditBuffer) :
  (forall r, b_addr (f r) = b_addr r) ->
  (forall r, b_flags (f r) = b_flags r \/
             b_flags (f r) = Z.lor (b_flags r) (BF_READONLY E)) ->
  frame E b s qs0 qs -> frame E b s qs0 (upd_buffer qs b f).
Proof.
  intros Ha Hfl Hf. eapply frame_trans; [exact Hf|].
  apply frame_upd_buffer; assumption.
Qed.

Lemma frame_step_window qs0 qs (f : EditState -> EditState) :
  (forall w, s_id (f w) = s_id w) ->
  (forall w, s_b (f w) = s_b w) ->
  frame E b s qs0 qs -> frame E b s qs0 (upd_window qs s f).
Proof.
  intros Hid Hb Hf. eapply frame_trans; [exact Hf|].
  apply frame_upd_window; assumption.
Qed.

End Frame.

(** ** The render loop *)

Ltac in_frame :=
  repeat first
    [ assumption
    | apply frame_refl
    | apply frame_step_buffer;
      [ intros; reflexivity | intros; simpl; auto | ]
    | apply frame_step_window;
      [ intros; reflexivity | intros; reflexivity | ] ].

Ltac live_buffer E b s qs0 :=
  apply (frame_is_buffer E b s qs0); [ in_frame | assumption ].

Ltac live_window E b s qs0 :=
  apply (frame_is_window E b s qs0); [ in_frame | assumption ].

(** Runs the stores and loads of a computation that starts in the frame of
    [qs0], turning each into its total counterpart. *)
Ltac run E b s qs0 :=
  repeat
    (cbn [mbind option_bind];
     match goal with
     | |- context [with_buffer ?X ?a ?f] =>
         rewrite (with_buffer_some X a f) by (live_buffer E b s qs0)
     | |- context [with_window ?X ?a ?f] =>
         rewrite (with_window_some X a f) by (live_window E b s qs0)
     | |- context [find_buffer ?X ?a ≫= _] =>
         let r := fresh "r" in
         let H := fresh "Hr" in
         assert (H : is_Some (find_buffer X a)) by (live_buffer E b s qs0);
         destruct H as [r H]; rewrite H
     end).

Section Render.
Variable E : Env.
Variable b : addr.
Variable s : wid.

Lemma set_opaque_same item : set_opaque item (it_opaque item) = item.
Proof. destruct item; reflexivity. Qed.

Lemma frame_is_deref qs qs' p :
  frame E b s qs qs' -> is_Some (deref qs p) -> is_Some (deref qs' p).
Proof.
  destruct p as [a|]; simpl; [|intros _ [? [=]]].
  apply frame_is_buffer.
Qed.

(** A row whose reference resolves is rendered without fault, and the
    rendering stays within the frame; the item is left as it was. *)
Lemma render_row_ok bs i item line qs :
  is_Some (get_window qs s) -> is_Some (find_buffer qs b) ->
  is_Some (deref qs (it_opaque item)) ->
  exists line' qs',
    render_row E bs s b i item line qs = Some (item, line', qs')
    /\ frame E b s qs qs'.
Proof.
  intros Hs Hb Ha. unfold render_row.
  destruct (it_opaque item) as [a|] eqn:Hop; [|destruct Ha as [? [=]]].
  simpl in Ha.
  assert (Hck : check_buffer qs (Some a) = Some a).
  { simpl. destruct Ha as [r ->]. reflexivity. }
  rewrite Hck, <- Hop, set_opaque_same, Hop.
  unfold deref, render_details, eb_puts, set_cur_style.
  destruct ((bs_last_index bs =? -1) && bool_decide (Some a = bs_cur_buffer bs)
            || (i <=? bs_last_index bs));
    run E b s qs; do 2 eexists; (split; [reflexivity | in_frame]).
Qed.

Lemma render_rows_ok bs items : forall i line qs,
  is_Some (get_window qs s) -> is_Some (find_buffer qs b) ->
  Forall (fun it => is_Some (deref qs (it_opaque it))) items ->
  exists line' qs',
    render_rows E bs s b i items line qs = Some (items, line', qs')
    /\ frame E b s qs qs'.
Proof.
  induction items as [|item rest IH]; intros i line qs Hs Hb Hall.
  - simpl. do 2 eexists. split; [reflexivity | apply frame_refl].
  - apply Forall_cons_1 in Hall as [Hitem Hrest].
    destruct (render_row_ok bs i item line qs Hs Hb Hitem)
      as (line1 & qs1 & Hrow & Hf1).
    destruct (IH (i + 1) line1 qs1) as (line2 & qs2 & Hrows & Hf2).
    + eapply frame_is_window; eassumption.
    + eapply frame_is_buffer; eassumption.
    + eapply Forall_impl; [exact Hrest|]. intros it.
      apply frame_is_deref. exact Hf1.
    + exists line2, qs2. split; [|eapply frame_trans; eassumption].
      simpl. rewrite Hrow. cbn [mbind option_bind]. rewrite Hrows.
      reflexivity.
Qed.

(** The tests of lines 164 and 188 are not what keeps the loop from a row
    whose reference does not resolve: handed such a row, the loop faults
    at the style lookup of line 157, which reads the flags through the
    result of the liveness check before that result is tested.  The
    rebuild never hands the loop such a row
    ([rebuild_meets_no_unresolved_row]). *)
Lemma unresolved_row_faults bs i item rest line qs :
  check_buffer qs (it_opaque item) = None ->
  render_row E bs s b i item line qs = None /\
  render_rows E bs s b i (item :: rest) line qs = None.
Proof.
  intros Hdead.
  assert (Hrow : render_row E bs s b i item line qs = None).
  { unfold render_row. rewrite Hdead. reflexivity. }
  split; [exact Hrow|]. simpl. rewrite Hrow. reflexivity.
Qed.

End Render.

(** ** The rebuild *)

Section Rebuild.
Variable E : Env.

Lemma collect_items_acc bs bufs : forall cs,
  collect_items E bs bufs cs
  = cs ++ List.map (fun b1 => (fresh_item b1, b1))
                   (List.filter (listed E bs) bufs).
Proof.
  induction bufs as [|b1 rest IH]; intros cs; simpl.
  - rewrite app_nil_r. reflexivity.
  - destruct (listed E bs b1); [|apply IH].
    rewrite IH, <- app_assoc. reflexivity.
Qed.

Lemma build_items_perm qs bs :
  qsort_permutes E -> Permutation (build_items E qs bs) (listed_rows E qs bs).
Proof.
  intros Hperm. unfold build_items, listed_rows.
  rewrite collect_items_acc. simpl.
  destruct (negb (bufed_sort_order qs =? 0)); [apply Hperm | reflexivity].
Qed.

Lemma build_items_unsorted qs bs :
  bufed_sort_order qs = 0 -> build_items E qs bs = listed_rows E qs bs.
Proof.
  intros H0. unfold build_items, listed_rows.
  rewrite collect_items_acc, H0. reflexivity.
Qed.

Lemma build_items_sorted qs bs :
  bufed_sort_order qs <> 0 ->
  build_items E qs bs
  = sort_items E (bufed_sort_order qs) (listed_rows E qs bs).
Proof.
  intros H0. unfold build_items, listed_rows.
  rewrite collect_items_acc. apply Z.eqb_neq in H0. rewrite H0. reflexivity.
Qed.

Lemma In_find_buffer qs r :
  In r (first_buffer qs) -> is_Some (find_buffer qs (b_addr r)).
Proof.
  unfold find_buffer. induction (first_buffer qs) as [|x l IH]; simpl.
  - intros [].
  - intros [->|Hin].
    + rewrite Pos.eqb_refl. eexists; reflexivity.
    + destruct (Pos.eqb (b_addr x) (b_addr r)); [eexists; reflexivity|].
      apply IH, Hin.
Qed.

Lemma listed_rows_In qs bs it r :
  In (it, r) (listed_rows E qs bs) ->
  it = fresh_item r /\ In r (first_buffer qs) /\ listed E bs r = true.
Proof.
  unfold listed_rows. rewrite in_map_iff. intros (r' & [= <- <-] & Hin).
  apply filter_In in Hin. tauto.
Qed.

Lemma build_items_In qs bs it r :
  qsort_permutes E -> In (it, r) (build_items E qs bs) ->
  it = fresh_item r /\ In r (first_buffer qs) /\ listed E bs r = true.
Proof.
  intros Hperm Hin. apply listed_rows_In.
  eapply Permutation_in; [apply build_items_perm, Hperm | exact Hin].
Qed.

(** Every row of a new collection refers to a buffer of the registry. *)
Lemma build_items_live qs bs :
  qsort_permutes E ->
  Forall (fun it => is_Some (deref qs (it_opaque it)))
         (List.map fst (build_items E qs bs)).
Proof.
  intros Hperm. apply List.Forall_forall. intros it Hin.
  apply in_map_iff in Hin as ([it' r] & <- & Hin).
  apply build_items_In in Hin as (-> & Hr & _); [|exact Hperm].
  simpl. apply In_find_buffer, Hr.
Qed.

(** The rebuild returns: it does not fault when its window and the buffer
    the window shows exist, and it leaves the mode data [rebuilt] and an
    editor within the frame. *)
Lemma build_bufed_list_ok qs bs s w :
  qsort_permutes E ->
  get_window qs s = Some w ->
  is_Some (find_buffer qs (s_b w)) ->
  exists qs',
    build_bufed_list E qs bs s = Some (qs', rebuilt E qs bs)
    /\ frame E (s_b w) s qs qs'.
Proof.
  intros Hperm Hw Hb. unfold build_bufed_list. rewrite Hw.
  cbn [mbind option_bind].
  assert (Hs : is_Some (get_window qs s)) by (eexists; exact Hw).
  unfold eb_clear. run E (s_b w) s qs.
  set (qs1 := upd_buffer qs (s_b w) _).
  assert (Hf1 : frame E (s_b w) s qs qs1) by (subst qs1; in_frame).
  destruct (render_rows_ok E (s_b w) s
              (set_bs_items (set_bs_sort_mode bs (bufed_sort_order qs))
                 (List.map fst (build_items E qs bs)))
              (List.map fst (build_items E qs bs)) 0 0 qs1)
    as (line & qs2 & Hrows & Hf2).
  - eapply frame_is_window; eassumption.
  - eapply frame_is_buffer; eassumption.
  - eapply Forall_impl; [apply build_items_live, Hperm|].
    intros it. eapply frame_is_deref. exact Hf1.
  - simpl bs_items. rewrite Hrows. cbn [mbind option_bind].
    assert (Hf02 : frame E (s_b w) s qs qs2) by (eapply frame_trans; eassumption).
    destruct ((0 <=? _) && (_ <? line)); run E (s_b w) s qs;
      eexists; (split; [reflexivity | in_frame]).
Qed.

End Rebuild.

(** ** The filter *)

Lemma NoDup_map_In_inj {A B : Type} (f : A -> B) (l : list A) x y :
  List.NoDup (List.map f l) -> In x l -> In y l -> f x = f y -> x = y.
Proof.
  induction l as [|z l IH]; simpl; [intros _ []|].
  intros Hnd Hx Hy Hf. apply List.NoDup_cons_iff in Hnd as [Hz Hnd].
  destruct Hx as [->|Hx], Hy as [->|Hy]; auto.
  - exfalso. apply Hz. rewrite Hf. apply in_map, Hy.
  - exfalso. apply Hz. rewrite <- Hf. apply in_map, Hx.
Qed.

Lemma land_1_bit f : Z.land f 1 = Z.b2z (Z.testbit f 0).
Proof.
  apply Z.bits_inj'. intros n Hn. rewrite Z.land_spec.
  destruct (Z.eq_dec n 0) as [->|Hne].
  - destruct (Z.testbit f 0); reflexivity.
  - replace (Z.testbit 1 n) with false
      by (symmetry; apply (Z.bits_above_log2 1 n); simpl; lia).
    rewrite andb_false_r. destruct (Z.testbit f 0); simpl.
    + symmetry. apply (Z.bits_above_log2 1 n); simpl; lia.
    + symmetry. apply Z.bits_0.
Qed.

Lemma all_visible_toggle f :
  mask_set (Z.lxor f BUFED_ALL_VISIBLE) BUFED_ALL_VISIBLE
  = negb (mask_set f BUFED_ALL_VISIBLE).
Proof.
  unfold mask_set, BUFED_ALL_VISIBLE. rewrite !land_1_bit, Z.lxor_spec.
  destruct (Z.testbit f 0); reflexivity.
Qed.

Lemma all_visible_toggle_twice f :
  Z.lxor (Z.lxor f BUFED_ALL_VISIBLE) BUFED_ALL_VISIBLE = f.
Proof. rewrite Z.lxor_assoc, Z.lxor_nilpotent, Z.lxor_0_r. reflexivity. Qed.

Section Filter.
Variable E : Env.

Lemma listed_all_visible bs r :
  mask_set (bs_flags bs) BUFED_ALL_VISIBLE = true -> listed E bs r = true.
Proof. unfold listed. intros ->. apply orb_true_r. Qed.

Lemma listed_hide_system bs r :
  mask_set (bs_flags bs) BUFED_ALL_VISIBLE = false ->
  listed E bs r = negb (mask_set (b_flags r) (BF_SYSTEM E)).
Proof. unfold listed. intros ->. apply orb_false_r. Qed.

Lemma filter_all {A : Type} (f : A -> bool) (l : list A) :
  (forall x, f x = true) -> List.filter f l = l.
Proof.
  intros Hf. induction l as [|x l IH]; simpl; [reflexivity|].
  rewrite Hf, IH. reflexivity.
Qed.

(** Setting the read-only flag leaves the system flag alone. *)
Lemma kept_system_flag b r r' :
  Z.land (BF_READONLY E) (BF_SYSTEM E) = 0 ->
  buffer_kept E b r r' ->
  mask_set (b_flags r') (BF_SYSTEM E) = mask_set (b_flags r) (BF_SYSTEM E).
Proof.
  intros Hbits (_ & _ & [->| ->]); [reflexivity|].
  unfold mask_set. rewrite Z.land_lor_distr_l, Hbits, Z.lor_0_r. reflexivity.
Qed.

Lemma kept_listed_count b bs l l' :
  Z.land (BF_READONLY E) (BF_SYSTEM E) = 0 ->
  Forall2 (buffer_kept E b) l l' ->
  length (List.filter (listed E bs) l')
  = length (List.filter (listed E bs) l).
Proof.
  intros Hbits. induction 1 as [|r r' l l' Hr Hl IH]; simpl; [reflexivity|].
  assert (Hsame : listed E bs r' = listed E bs r).
  { unfold listed. rewrite (kept_system_flag b r r' Hbits Hr). reflexivity. }
  rewrite Hsame. destruct (listed E bs r); simpl; rewrite IH; reflexivity.
Qed.

Lemma rebuilt_length qs bs :
  qsort_permutes E ->
  length (bs_items (rebuilt E qs bs))
  = length (List.filter (listed E bs) (first_buffer qs)).
Proof.
  intros Hperm. unfold rebuilt. simpl.
  rewrite length_map, (Permutation_length (build_items_perm E qs bs Hperm)).
  unfold listed_rows. apply length_map.
Qed.

(** A refresh returns, and stores the rebuilt mode data. *)
Lemma bufed_refresh_ok qs s w bs toggle :
  qsort_permutes E ->
  get_window qs s = Some w -> is_Some (find_buffer qs (s_b w)) ->
  bufed_get_state qs w = Some bs ->
  let bs1 := if negb (toggle =? 0)
             then set_bs_flags bs (Z.lxor (bs_flags bs) BUFED_ALL_VISIBLE)
             else bs in
  exists qs',
    bufed_refresh E qs s toggle
    = Some (put_state qs' (s_b w) (rebuilt E qs bs1))
    /\ frame E (s_b w) s qs qs'.
Proof.
  intros Hperm Hw Hb Hbs bs1. unfold bufed_refresh. rewrite Hw.
  cbn [mbind option_bind]. rewrite Hbs.
  destruct (build_bufed_list_ok E qs bs1 s w Hperm Hw Hb) as (qs' & Hbuild & Hf).
  fold bs1. rewrite Hbuild. cbn [mbind option_bind].
  exists qs'. split; [reflexivity | exact Hf].
Qed.

Lemma state_at_put qs a bs : state_at (put_state qs a bs) a = Some bs.
Proof. unfold state_at, put_state. simpl. rewrite Pos.eqb_refl. reflexivity. Qed.

(** C4.  After a rebuild a buffer of the registry has a row exactly when it
    is not a system buffer or the filter shows all buffers.  With three
    ordinary and two system buffers and the filter hiding system buffers,
    toggling the filter gives five rows, and toggling again gives three. *)
Theorem rebuild_lists_the_filtered_buffers :
  qsort_permutes E ->
  Z.land (BF_READONLY E) (BF_SYSTEM E) = 0 ->
  (forall qs bs s w,
     List.NoDup (List.map b_addr (first_buffer qs)) ->
     get_window qs s = Some w -> is_Some (find_buffer qs (s_b w)) ->
     exists qs' bs',
       build_bufed_list E qs bs s = Some (qs', bs') /\
       forall h, In h (first_buffer qs) ->
         (exists item,
            In item (bs_items bs') /\ it_opaque item = Some (b_addr h))
         <-> (mask_set (b_flags h) (BF_SYSTEM E) = false \/
              mask_set (bs_flags bs) BUFED_ALL_VISIBLE = true)) /\
  (forall qs bs s w,
     get_window qs s = Some w -> is_Some (find_buffer qs (s_b w)) ->
     bufed_get_state qs w = Some bs ->
     mask_set (bs_flags bs) BUFED_ALL_VISIBLE = false ->
     length (first_buffer qs) = 5%nat ->
     length (List.filter
               (fun r => negb (mask_set (b_flags r) (BF_SYSTEM E)))
               (first_buffer qs)) = 3%nat ->
     exists qs1 bs1 qs2 bs2,
       bufed_refresh E qs s 1 = Some qs1 /\
       state_at qs1 (s_b w) = Some bs1 /\
       length (bs_items bs1) = 5%nat /\
       bufed_refresh E qs1 s 1 = Some qs2 /\
       state_at qs2 (s_b w) = Some bs2 /\
       length (bs_items bs2) = 3%nat).
Proof.
  intros Hperm Hbits. split.
  - intros qs bs s w Hnd Hw Hb.
    destruct (build_bufed_list_ok E qs bs s w Hperm Hw Hb) as (qs' & Hbuild & _).
    exists qs', (rebuilt E qs bs). split; [exact Hbuild|].
    intros h Hh. unfold rebuilt. simpl. split.
    + intros (item & Hin & Hop).
      apply in_map_iff in Hin as ([it r] & <- & Hin).
      apply build_items_In in Hin as (-> & Hr & Hl); [|exact Hperm].
      simpl in Hop. injection Hop as Hop.
      assert (r = h) as -> by (eapply NoDup_map_In_inj; eauto).
      unfold listed in Hl. apply orb_true_iff in Hl as [Hl|Hl]; [left|right; exact Hl].
      apply negb_true_iff, Hl.
    + intros Hl. exists (fresh_item h). split; [|reflexivity].
      apply in_map_iff. exists (fresh_item h, h). split; [reflexivity|].
      eapply Permutation_in;
        [symmetry; apply build_items_perm, Hperm|].
      unfold listed_rows. apply (in_map (fun b1 => (fresh_item b1, b1))).
      apply filter_In. split; [exact Hh|].
      unfold listed. destruct Hl as [-> | ->];
        [reflexivity | apply orb_true_r].
  - intros qs bs s w Hw Hb Hbs Hhide Hlen Hord.
    destruct (bufed_refresh_ok qs s w bs 1 Hperm Hw Hb Hbs)
      as (qs1 & Hr1 & Hf1).
    simpl in Hr1.
    set (bs0 := set_bs_flags bs (Z.lxor (bs_flags bs) BUFED_ALL_VISIBLE)) in *.
    set (bs1 := rebuilt E qs bs0) in *.
    destruct (frame_get_window _ _ _ _ _ _ _ Hf1 Hw) as (w1 & Hw1 & _ & Hb1 & _).
    assert (Hw1' : get_window (put_state qs1 (s_b w) bs1) s = Some w1)
      by exact Hw1.
    assert (Hbuf1 : is_Some (find_buffer (put_state qs1 (s_b w) bs1) (s_b w1))).
    { rewrite Hb1. change (is_Some (find_buffer qs1 (s_b w))).
      eapply (frame_is_buffer E); eassumption. }
    assert (Hbs1 : bufed_get_state (put_state qs1 (s_b w) bs1) w1 = Some bs1).
    { unfold bufed_get_state. rewrite Hb1. apply state_at_put. }
    destruct (bufed_refresh_ok _ s w1 bs1 1 Hperm Hw1' Hbuf1 Hbs1)
      as (qs2 & Hr2 & Hf2).
    simpl in Hr2. rewrite Hb1 in Hr2.
    eexists _, bs1, _, _. repeat split.
    + exact Hr1.
    + apply state_at_put.
    + subst bs1. rewrite rebuilt_length by exact Hperm.
      rewrite filter_all; [exact Hlen|]. intros r.
      apply listed_all_visible. subst bs0. simpl.
      rewrite all_visible_toggle, Hhide. reflexivity.
    + exact Hr2.
    + apply state_at_put.
    + rewrite rebuilt_length by exact Hperm. simpl first_buffer.
      rewrite (kept_listed_count (s_b w) _ _ _ Hbits (frame_buffers _ _ _ _ _ Hf1)).
      rewrite <- Hord. f_equal. apply filter_ext. intros r.
      apply listed_hide_system. simpl. subst bs0. simpl.
      rewrite all_visible_toggle_twice. exact Hhide.
Qed.

End Filter.

(** ** The selection iterator *)

Lemma insert_middle {A : Type} (l1 l2 : list A) (x y : A) :
  <[length l1 := x]> (l1 ++ y :: l2) = l1 ++ x :: l2.
Proof.
  rewrite insert_app_r_alt by reflexivity.
  rewrite Nat.sub_diag. reflexivity.
Qed.

Section IterateFacts.
Context {O : Type}.
Variable func_item : O -> StringItem -> Z -> option (O * StringItem).

Lemma selection_loop_rows items : forall pre count o,
  apply_to_rows func_item (flagged_from (length pre) items) (pre ++ items) o
  = (fun '(items', _, o') => (pre ++ items', o'))
      <$> selection_loop func_item (Z.of_nat (length pre)) items count o.
Proof.
  induction items as [|item rest IH]; intros pre count o; simpl.
  - reflexivity.
  - assert (Hnext : forall item1 : StringItem,
              Z.of_nat (length (pre ++ [item1])) = Z.of_nat (length pre) + 1)
      by (intros; rewrite length_app; simpl; lia).
    assert (Hlen : forall item1 : StringItem,
              S (length pre) = length (pre ++ [item1]))
      by (intros; rewrite length_app; simpl; lia).
    destruct (it_selected item); simpl.
    + rewrite list_lookup_middle by reflexivity. simpl.
      destruct (func_item o item (Z.of_nat (length pre))) as [[o1 item1]|];
        simpl; [|reflexivity].
      rewrite insert_middle.
      rewrite (Hlen item1), <- (Hnext item1).
      change (pre ++ item1 :: rest) with (pre ++ [item1] ++ rest).
      rewrite app_assoc, (IH (pre ++ [item1]) (count + 1) o1).
      destruct (selection_loop _ _ rest (count + 1) o1) as [[[rest' c'] o']|];
        simpl; [|reflexivity].
      rewrite <- app_assoc. reflexivity.
    + rewrite (Hlen item), <- (Hnext item).
      change (pre ++ item :: rest) with (pre ++ [item] ++ rest).
      rewrite app_assoc, (IH (pre ++ [item]) count o).
      destruct (selection_loop _ _ rest count o) as [[[rest' c'] o']|];
        simpl; [|reflexivity].
      rewrite <- app_assoc. reflexivity.
Qed.

Lemma selection_loop_count items : forall i count o items' count' o',
  selection_loop func_item i items count o = Some (items', count', o') ->
  count' = count + Z.of_nat (length (flagged_from 0 items))
  /\ length items' = length items.
Proof.
  assert (Hshift : forall cs n m,
            length (flagged_from n cs) = length (flagged_from m cs)).
  { induction cs as [|c cs IHcs]; intros n m; simpl; [reflexivity|].
    destruct (it_selected c); simpl; rewrite (IHcs (S n) (S m)); reflexivity. }
  induction items as [|item rest IH]; intros i count o items' count' o'; simpl.
  - intros [= <- <- <-]. split; [lia | reflexivity].
  - destruct (it_selected item); simpl.
    + destruct (func_item o item i) as [[o1 item1]|]; simpl; [|discriminate].
      destruct (selection_loop _ (i + 1) rest (count + 1) o1)
        as [[[rest' c'] o2]|] eqn:Hloop; simpl; [|discriminate].
      intros [= <- <- <-]. apply IH in Hloop as [-> Hlen].
      rewrite (Hshift rest 1%nat 0%nat). simpl. split; lia.
    + destruct (selection_loop _ (i + 1) rest count o)
        as [[[rest' c'] o2]|] eqn:Hloop; simpl; [|discriminate].
      intros [= <- <- <-]. apply IH in Hloop as [-> Hlen].
      rewrite (Hshift rest 1%nat 0%nat). simpl. split; lia.
Qed.

(** C7, first part.  The iterator applies the action to the rows flagged
    selected, in ascending index order, when a row is flagged; to the
    current row alone when none is and the index is in bounds; and to no
    row otherwise. *)
Lemma string_selection_iterate_targets cs current_index o :
  string_selection_iterate func_item cs current_index o
  = apply_to_rows func_item (target_rows cs current_index) cs o.
Proof.
  unfold string_selection_iterate, target_rows.
  pose proof (selection_loop_rows cs [] 0 o) as Hrows. simpl in Hrows.
  change (Z.of_nat 0) with 0 in Hrows.
  destruct (selection_loop func_item 0 cs 0 o) as [[[cs' count] o']|] eqn:Hloop;
    simpl in *.
  - apply selection_loop_count in Hloop as [-> Hlen].
    destruct (flagged_from 0 cs) as [|i rows] eqn:Hflag.
    + simpl in Hrows. injection Hrows as <- <-. simpl.
      destruct ((0 <=? current_index)
                && (current_index <? Z.of_nat (length cs))) eqn:Hin;
        [|reflexivity].
      simpl. apply andb_true_iff in Hin as [Hlo _]. apply Z.leb_le in Hlo.
      rewrite Z2Nat.id by exact Hlo. reflexivity.
    + replace (0 + Z.of_nat (length (i :: rows)) =? 0) with false
        by (symmetry; apply Z.eqb_neq; simpl length; lia).
      simpl. symmetry. exact Hrows.
  - destruct (flagged_from 0 cs) as [|i rows]; [discriminate|].
    symmetry. exact Hrows.
Qed.

End IterateFacts.

(** ** The commands *)

Lemma put_state_same qs a bs : state_at qs a = Some bs -> put_state qs a bs = qs.
Proof.
  unfold state_at, put_state. destruct qs as [bufs ws act ord data cr kr].
  simpl. destruct data as [[a' bs']|]; [|discriminate].
  destruct (Pos.eqb_spec a' a) as [->|]; [|discriminate].
  intros [= ->]. reflexivity.
Qed.

Lemma set_bs_items_same bs : set_bs_items bs (bs_items bs) = bs.
Proof. destruct bs; reflexivity. Qed.

Lemma flagged_from_none cs : forall i,
  Forall (fun it => it_selected it = false) cs -> flagged_from i cs = [].
Proof.
  induction cs as [|c cs IH]; intros i Hall; simpl; [reflexivity|].
  apply Forall_cons_1 in Hall as [-> Hall]. apply IH, Hall.
Qed.

Lemma out_of_range_no_target bs index :
  index_in_range bs index = false ->
  (0 <=? index) && (index <? Z.of_nat (length (bs_items bs))) = false.
Proof.
  unfold index_in_range. rewrite negb_false_iff, orb_true_iff.
  rewrite Z.ltb_lt, Z.leb_le. intros Hout.
  apply andb_false_iff. rewrite Z.leb_gt, Z.ltb_ge. lia.
Qed.

Section CommandFacts.
Variable E : Env.

(** C6.  A kill action on a row that resolves to the buffer of the list
    itself changes nothing: the editor (registry, kill requests, mode
    data) and the item, with its reference, are as before.  So is the
    whole iteration when that row is the current row and no row is
    flagged. *)
Theorem kill_spares_the_panel_buffer qs s w item index :
  get_window qs s = Some w ->
  check_buffer qs (it_opaque item) = Some (s_b w) ->
  bufed_kill_item E s qs item index = Some (qs, item) /\
  (forall cs,
     Forall (fun it => it_selected it = false) cs ->
     0 <= index -> cs !! Z.to_nat index = Some item ->
     string_selection_iterate (bufed_kill_item E s) cs index qs
     = Some (cs, qs)).
Proof.
  intros Hw Hck.
  assert (Hitem : bufed_kill_item E s qs item index = Some (qs, item)).
  { unfold bufed_kill_item. rewrite Hck, Hw. cbn [mbind option_bind].
    assert (Hop : it_opaque item = Some (s_b w)).
    { destruct (it_opaque item) as [a|]; [|discriminate]. simpl in Hck.
      destruct (find_buffer qs a); [exact Hck | discriminate]. }
    rewrite <- Hop, set_opaque_same.
    destruct (bufed_get_state qs w); [|reflexivity].
    rewrite Pos.eqb_refl. reflexivity. }
  split; [exact Hitem|].
  intros cs Hnone Hpos Hrow.
  rewrite string_selection_iterate_targets. unfold target_rows.
  rewrite flagged_from_none by exact Hnone.
  assert (Hin : (0 <=? index) && (index <? Z.of_nat (length cs)) = true).
  { apply andb_true_iff. rewrite Z.leb_le, Z.ltb_lt. split; [exact Hpos|].
    apply lookup_lt_Some in Hrow. lia. }
  rewrite Hin. simpl. rewrite Hrow. cbn [mbind option_bind].
  rewrite Z2Nat.id by exact Hpos. rewrite Hitem. cbn [mbind option_bind].
  rewrite list_insert_id by exact Hrow. reflexivity.
Qed.

(** C9, as amended.  When the row index is out of range, select and
    preview, clear-modified and toggle-read-only return the editor as it
    was.  Kill, when no row is flagged either, asks for no destruction and
    clears no reference, but still ends in the rebuild: it does what a
    refresh does. *)
Theorem out_of_range_row_commands qs s w bs index :
  get_window qs s = Some w ->
  bufed_get_state qs w = Some bs ->
  list_get_pos E qs w = Some index ->
  index_in_range bs index = false ->
  (forall temp, 0 <= temp -> bufed_select E qs s temp = Some qs) /\
  bufed_clear_modified E qs s = Some qs /\
  bufed_toggle_read_only E qs s = Some qs /\
  (Forall (fun it => it_selected it = false) (bs_items bs) ->
   bufed_kill_buffer E qs s = bufed_refresh E qs s 0).
Proof.
  intros Hw Hbs Hidx Hout.
  assert (Hsel : forall temp, 0 <= temp -> bufed_select E qs s temp = Some qs).
  { intros temp Htemp. unfold bufed_select. rewrite Hw.
    cbn [mbind option_bind]. rewrite Hbs. unfold select_target.
    replace (temp <? 0) with false by (symmetry; apply Z.ltb_ge; exact Htemp).
    rewrite Hidx. cbn [mbind option_bind]. rewrite Hout. reflexivity. }
  assert (Hget : bufed_get_buffer E qs bs w = Some (None, bs)).
  { unfold bufed_get_buffer. rewrite Hidx. cbn [mbind option_bind].
    rewrite Hout. reflexivity. }
  split; [exact Hsel|]. split; [|split].
  - unfold bufed_clear_modified. rewrite Hw. cbn [mbind option_bind].
    rewrite Hbs, Hget. cbn [mbind option_bind].
    rewrite put_state_same by exact Hbs. reflexivity.
  - unfold bufed_toggle_read_only. rewrite Hw. cbn [mbind option_bind].
    rewrite Hbs, Hget. cbn [mbind option_bind].
    rewrite put_state_same by exact Hbs. reflexivity.
  - intros Hnone. unfold bufed_kill_buffer, bufed_refresh. rewrite Hw.
    cbn [mbind option_bind]. rewrite Hbs, Hidx. cbn [mbind option_bind].
    rewrite string_selection_iterate_targets. unfold target_rows.
    rewrite flagged_from_none by exact Hnone.
    rewrite out_of_range_no_target by exact Hout.
    simpl apply_to_rows. cbn [mbind option_bind].
    unfold bufed_get_state in Hbs. rewrite Hbs. cbn [mbind option_bind].
    rewrite set_bs_items_same, put_state_same by exact Hbs.
    rewrite (Hsel 1) by lia. cbn [mbind option_bind].
    rewrite Hbs. reflexivity.
Qed.

End CommandFacts.

(** C7.  The iterator applies the action to the flagged rows in ascending
    order, or to the current row when none is flagged and the index is in
    bounds.  In the sample editor, with rows 0 and 1 flagged and the cursor
    on the unflagged row 2, the kill command asks for the two flagged
    buffers, which leave the registry, and the buffer of the current row
    stays. *)
Theorem selection_iterator_targets :
  (forall (O : Type)
          (func_item : O -> StringItem -> Z -> option (O * StringItem))
          (cs : list StringItem) (current_index : Z) (o : O),
     string_selection_iterate func_item cs current_index o
     = apply_to_rows func_item (target_rows cs current_index) cs o) /\
  (registry_summary <$> two_marked_cursor_on_third
   = Some (["*messages*"; "a.txt"; "b.txt"; "c.txt"; "*bufed*"]%string, [])) /\
  ((qs ← two_marked_cursor_on_third;
    w ← get_window qs 1%positive;
    bs ← bufed_get_state qs w;
    index ← list_get_pos ref_env qs w;
    Some (target_rows (bs_items bs) index, index))
   = Some ([0%nat; 1%nat], 2)) /\
  (registry_summary
     <$> (two_marked_cursor_on_third
          ≫= fun qs => bufed_kill_buffer ref_env qs 1%positive)
   = Some (["*messages*"; "c.txt"; "*bufed*"]%string,
           ["a.txt"; "b.txt"]%string)).
Proof.
  split; [intros; apply string_selection_iterate_targets|].
  repeat split; vm_compute; reflexivity.
Qed.

(** Witness of C6: the row of the list's own buffer in the sample
    editor. *)
Lemma kill_spares_the_panel_buffer_witness :
  bufed_kill_item ref_env 1%positive sample_editor (fresh_item panel_buffer) 4
  = Some (sample_editor, fresh_item panel_buffer).
Proof.
  apply (kill_spares_the_panel_buffer ref_env sample_editor 1%positive
           panel_window
           (fresh_item panel_buffer) 4); reflexivity.
Defined.

(** Witness of the amended C9: the stale editor, whose list has no row. *)
Lemma out_of_range_row_commands_witness :
  bufed_clear_modified ref_env stale_editor 1%positive = Some stale_editor.
Proof.
  apply (out_of_range_row_commands ref_env stale_editor 1%positive
           panel_window
           blank_state 0); reflexivity.
Defined.

(** Counterexample to C9 as stated: in the stale editor the list has no
    row, so the row index 0 is out of range and no row is flagged; the
    kill command still rebuilds the list, which then has the row of the
    file. *)
Lemma out_of_range_kill_counterexample :
  (w ← get_window stale_editor 1%positive; list_get_pos ref_env stale_editor w)
  = Some 0 /\
  (bs_items <$> state_at stale_editor 4%positive) = Some [] /\
  index_in_range blank_state 0 = false /\
  (qs ← bufed_kill_buffer ref_env stale_editor 1%positive;
   bs ← state_at qs 4%positive;
   Some (List.map it_str (bs_items bs)))
  = Some ["a.txt"%string] /\
  bufed_kill_buffer ref_env stale_editor 1%positive <> Some stale_editor.
Proof.
  repeat split; try (vm_compute; reflexivity).
  vm_compute. discriminate.
Qed.

(** ** Comparators as orders *)

Section CmpOrder.
Context {A : Type}.

Lemma co_refl (c : A -> A -> Z) x : cmp_order c -> c x x = 0.
Proof. intros Hc. pose proof (co_anti c Hc x x). lia. Qed.

Lemma co_zero_sym (c : A -> A -> Z) x y : cmp_order c -> c x y = 0 -> c y x = 0.
Proof.
  intros Hc. pose proof (co_anti c Hc x y). pose proof (co_anti c Hc y x). lia.
Qed.

Lemma cmp_order_ext (c c' : A -> A -> Z) :
  (forall x y, c x y = c' x y) -> cmp_order c -> cmp_order c'.
Proof.
  intros Hext [Ha Hll Hee Hel Hle].
  constructor; intros; rewrite <- !Hext in *; eauto.
Qed.

Lemma by_key_order (f : A -> Z) : cmp_order (by_key f).
Proof.
  constructor; unfold by_key; intros;
    repeat match goal with
           | H : context [?a =? ?b] |- _ => destruct (Z.eqb_spec a b)
           | H : context [?a <? ?b] |- _ => destruct (Z.ltb_spec a b)
           | |- context [?a =? ?b] => destruct (Z.eqb_spec a b)
           | |- context [?a <? ?b] => destruct (Z.ltb_spec a b)
           end; lia.
Qed.

Lemma lex_order (c1 c2 : A -> A -> Z) :
  cmp_order c1 -> cmp_order c2 -> cmp_order (lex c1 c2).
Proof.
  intros H1 H2. constructor; unfold lex.
  - intros x y.
    pose proof (co_anti c1 H1 x y). pose proof (co_anti c1 H1 y x).
    pose proof (co_anti c2 H2 x y).
    destruct (Z.eqb_spec (c1 x y) 0), (Z.eqb_spec (c1 y x) 0); lia.
  - intros x y z.
    pose proof (co_lt_lt c1 H1 x y z). pose proof (co_eq_eq c1 H1 x y z).
    pose proof (co_eq_lt c1 H1 x y z). pose proof (co_lt_eq c1 H1 x y z).
    pose proof (co_lt_lt c2 H2 x y z).
    destruct (Z.eqb_spec (c1 x y) 0), (Z.eqb_spec (c1 y z) 0),
      (Z.eqb_spec (c1 x z) 0); lia.
  - intros x y z.
    pose proof (co_eq_eq c1 H1 x y z). pose proof (co_eq_eq c2 H2 x y z).
    destruct (Z.eqb_spec (c1 x y) 0), (Z.eqb_spec (c1 y z) 0),
      (Z.eqb_spec (c1 x z) 0); lia.
  - intros x y z.
    pose proof (co_eq_eq c1 H1 x y z). pose proof (co_eq_lt c1 H1 x y z).
    pose proof (co_eq_lt c2 H2 x y z).
    destruct (Z.eqb_spec (c1 x y) 0), (Z.eqb_spec (c1 y z) 0),
      (Z.eqb_spec (c1 x z) 0); lia.
  - intros x y z.
    pose proof (co_eq_eq c1 H1 x y z). pose proof (co_lt_eq c1 H1 x y z).
    pose proof (co_lt_eq c2 H2 x y z).
    destruct (Z.eqb_spec (c1 x y) 0), (Z.eqb_spec (c1 y z) 0),
      (Z.eqb_spec (c1 x z) 0); lia.
Qed.

Lemma on_key_order {B : Type} (g : A -> B) (c : B -> B -> Z) :
  cmp_order c -> cmp_order (fun x y => c (g x) (g y)).
Proof. intros [Ha Hll Hee Hel Hle]. constructor; intros; eauto. Qed.

(** A difference of small keys. *)
Lemma diff_order (f : A -> Z) :
  (forall x, - 2 ^ 16 <= f x <= 2 ^ 16) ->
  cmp_order (fun x y => int_sub (f x) (f y)).
Proof.
  intros Hf.
  assert (Hsub : forall x y, int_sub (f x) (f y) = f x - f y).
  { intros x y. pose proof (Hf x). pose proof (Hf y).
    apply to_int_small. unfold int_min, int_max. lia. }
  constructor; intros; rewrite !Hsub in *; lia.
Qed.

(** What a sorting routine needs follows from the order. *)
Lemma order_consistent (c : A -> A -> Z) (l : list A) :
  cmp_order c -> consistent_on c l.
Proof.
  intros Hc. split.
  - intros x y _ _. pose proof (co_anti c Hc x y). lia.
  - intros x y z _ _ _ Hxy Hyz.
    pose proof (co_lt_lt c Hc x y z). pose proof (co_eq_eq c Hc x y z).
    pose proof (co_eq_lt c Hc x y z). pose proof (co_lt_eq c Hc x y z). lia.
Qed.

End CmpOrder.

(** ** The loop of keys is an order *)

Lemma int_neg_small v : int_min < v <= int_max -> int_neg v = - v.
Proof.
  intros Hv. unfold int_neg. apply to_int_small.
  unfold int_min, int_max in *. lia.
Qed.

Lemma lex_zero {A : Type} (c1 c2 : A -> A -> Z) x y :
  lex c1 c2 x y = 0 -> c2 x y = 0.
Proof. unfold lex. destruct (Z.eqb_spec (c1 x y) 0); [auto | contradiction]. Qed.

Lemma lex_range {A : Type} (P : Z -> Prop) (c1 c2 : A -> A -> Z) x y :
  P (c1 x y) -> P (c2 x y) -> P (lex c1 c2 x y).
Proof. unfold lex. destruct (c1 x y =? 0); auto. Qed.

Section KeysOrder.
Variable E : Env.
Hypothesis Hcoll : collation_order E.

Lemma char_val_range c : -128 <= char_val E c <= 255.
Proof.
  unfold char_val. pose proof (N_ascii_bounded c).
  destruct (char_signed E); simpl;
    [destruct (Z.leb_spec 128 (Z.of_N (N_of_ascii c)))|]; lia.
Qed.

Lemma first_char_range str : -128 <= first_char E str <= 255.
Proof. destruct str; simpl; [lia | apply char_val_range]. Qed.

Lemma sort_by_name_lex b1 b2 : sort_by_name E b1 b2 = name_order E b1 b2.
Proof.
  unfold sort_by_name, name_order, lex.
  destruct (int_sub _ _ =? 0); reflexivity.
Qed.

Lemma sort_keys_lex sort_mode b1 b2 :
  sort_keys E sort_mode b1 b2 = keys_order E sort_mode b1 b2.
Proof.
  assert (Hfc : int_sub (- first_char E (b_filename b1))
                        (- first_char E (b_filename b2))
                = int_sub (first_char E (b_filename b2))
                          (first_char E (b_filename b1)))
    by (unfold int_sub; f_equal; lia).
  unfold sort_keys, keys_order, lex_if. rewrite sort_by_name_lex.
  destruct (mask_set sort_mode BUFED_SORT_TIME),
    (mask_set sort_mode BUFED_SORT_SIZE),
    (mask_set sort_mode BUFED_SORT_FILENAME);
    unfold filename_order, sort_by_filename, lex, by_key; cbv beta;
    rewrite ?Hfc; simpl;
    repeat match goal with
           | |- context [?a =? ?b] => destruct (Z.eqb_spec a b); simpl
           | |- context [?a <? ?b] => destruct (Z.ltb_spec a b); simpl
           end; try reflexivity; try lia.
Qed.

Lemma name_order_order : cmp_order (name_order E).
Proof.
  destruct Hcoll as (Hc & _ & _). apply lex_order.
  - apply (diff_order (fun b => c_bool (starred (b_name b)))).
    intros b. destruct (starred (b_name b)); simpl; lia.
  - apply (on_key_order b_name), Hc.
Qed.

Lemma keys_order_order sort_mode : cmp_order (keys_order E sort_mode).
Proof.
  destruct Hcoll as (Hc & _ & _).
  assert (Hfile : cmp_order (filename_order E (name_order E))).
  { apply lex_order.
    - apply (diff_order (fun b => - first_char E (b_filename b))).
      intros b. pose proof (first_char_range (b_filename b)). lia.
    - apply lex_order; [apply (on_key_order b_filename), Hc|].
      apply name_order_order. }
  unfold keys_order, lex_if.
  destruct (mask_set sort_mode BUFED_SORT_TIME),
    (mask_set sort_mode BUFED_SORT_SIZE),
    (mask_set sort_mode BUFED_SORT_FILENAME); cbv iota;
    repeat first [ exact Hfile | apply name_order_order
                 | apply by_key_order | apply lex_order ].
Qed.

Lemma sort_keys_order sort_mode : cmp_order (sort_keys E sort_mode).
Proof.
  apply (cmp_order_ext (keys_order E sort_mode)).
  - intros. symmetry. apply sort_keys_lex.
  - apply keys_order_order.
Qed.

(** A tie of the loop of keys is a tie of the names. *)
Lemma sort_keys_zero_name sort_mode b1 b2 :
  sort_keys E sort_mode b1 b2 = 0 -> b_name b1 = b_name b2.
Proof.
  destruct Hcoll as (_ & Heq & _). rewrite sort_keys_lex.
  unfold keys_order, lex_if. intros Hz.
  assert (Hname : name_order E b1 b2 = 0).
  { destruct (mask_set sort_mode BUFED_SORT_TIME),
      (mask_set sort_mode BUFED_SORT_SIZE),
      (mask_set sort_mode BUFED_SORT_FILENAME); cbv iota in Hz;
      unfold filename_order in Hz;
      repeat match type of Hz with
             | lex _ _ _ _ = 0 => apply lex_zero in Hz
             end; exact Hz. }
  apply lex_zero in Hname. apply Heq, Hname.
Qed.

(** The result of the loop of keys can be negated. *)
Lemma sort_keys_range sort_mode b1 b2 :
  int_min < sort_keys E sort_mode b1 b2 <= int_max.
Proof.
  destruct Hcoll as (_ & _ & Hrange). rewrite sort_keys_lex.
  set (P := fun v : Z => int_min < v <= int_max).
  assert (Hname : P (name_order E b1 b2)).
  { unfold name_order. apply (lex_range P); [|apply Hrange].
    subst P. cbv beta. unfold int_sub. rewrite to_int_small;
      destruct (starred (b_name b1)), (starred (b_name b2));
      unfold int_min, int_max; simpl; lia. }
  assert (Hfile : P (filename_order E (name_order E) b1 b2)).
  { unfold filename_order.
    apply (lex_range P); [|apply (lex_range P); [apply Hrange | exact Hname]].
    pose proof (first_char_range (b_filename b1)).
    pose proof (first_char_range (b_filename b2)).
    subst P. cbv beta. unfold int_sub.
    rewrite to_int_small; unfold int_min, int_max; lia. }
  assert (Hkey : forall f : EditBuffer -> Z, P (by_key f b1 b2)).
  { intros f. subst P. unfold by_key, int_min, int_max. cbv beta.
    destruct (f b1 =? f b2); [lia|]. destruct (f b1 <? f b2); lia. }
  change (P (keys_order E sort_mode b1 b2)).
  unfold keys_order, lex_if.
  destruct (mask_set sort_mode BUFED_SORT_TIME),
    (mask_set sort_mode BUFED_SORT_SIZE),
    (mask_set sort_mode BUFED_SORT_FILENAME); cbv iota;
    repeat first [ exact Hfile | exact Hname | apply Hkey
                 | apply (lex_range P) ].
Qed.

End KeysOrder.

(** ** Ascending and descending sorts *)

Lemma single_sort_key_facts key :
  single_sort_key key ->
  key <> 0 /\ int_mul key 3 <> 0 /\ int_mul key 3 <> key /\
  mask_set key BUFED_SORT_DESCENDING = false /\
  mask_set (int_mul key 3) BUFED_SORT_DESCENDING = true /\
  mask_set (int_mul key 3) BUFED_SORT_MODIFIED
  = mask_set key BUFED_SORT_MODIFIED /\
  mask_set (int_mul key 3) BUFED_SORT_TIME = mask_set key BUFED_SORT_TIME /\
  mask_set (int_mul key 3) BUFED_SORT_SIZE = mask_set key BUFED_SORT_SIZE /\
  mask_set (int_mul key 3) BUFED_SORT_FILENAME
  = mask_set key BUFED_SORT_FILENAME /\
  (key <> BUFED_SORT_MODIFIED -> mask_set key BUFED_SORT_MODIFIED = false).
Proof.
  unfold single_sort_key. simpl.
  intros [<-|[<-|[<-|[<-|[<-|[]]]]]]; vm_compute;
    repeat split; try discriminate; try reflexivity;
    intros H; try reflexivity; exfalso; apply H; reflexivity.
Qed.

Lemma sort_keys_mask_ext E m m' b1 b2 :
  mask_set m BUFED_SORT_TIME = mask_set m' BUFED_SORT_TIME ->
  mask_set m BUFED_SORT_SIZE = mask_set m' BUFED_SORT_SIZE ->
  mask_set m BUFED_SORT_FILENAME = mask_set m' BUFED_SORT_FILENAME ->
  sort_keys E m b1 b2 = sort_keys E m' b1 b2.
Proof. unfold sort_keys. intros -> -> ->. reflexivity. Qed.

Lemma StronglySorted_weaken {A : Type} (R1 R2 : A -> A -> Prop) (l : list A) :
  (forall x y, In x l -> In y l -> R1 x y -> R2 x y) ->
  StronglySorted R1 l -> StronglySorted R2 l.
Proof.
  intros Himpl Hs. induction Hs as [|x l Hs IH Hall]; constructor.
  - apply IH. intros u v Hu Hv. apply Himpl; right; assumption.
  - rewrite List.Forall_forall in *. intros y Hy.
    apply Himpl; [left; reflexivity | right; exact Hy | apply Hall, Hy].
Qed.

Lemma StronglySorted_rev {A : Type} (R : A -> A -> Prop) (l : list A) :
  StronglySorted (fun x y => R y x) l -> StronglySorted R (rev l).
Proof.
  induction 1 as [|x l Hs IH Hall]; simpl; [constructor|].
  apply StronglySorted_app_2; [|exact IH|repeat constructor].
  intros x1 x2 Hx1 Hx2. apply list_elem_of_singleton in Hx2 as ->.
  rewrite List.Forall_forall in Hall. apply Hall.
  apply list_elem_of_In in Hx1. apply in_rev, Hx1.
Qed.

Section Reversal.
Variable E : Env.
Hypothesis Hperm : qsort_permutes E.
Hypothesis Hsorts : qsort_sorts E.
Hypothesis Hcoll : collation_order E.
Variable key : Z.
Hypothesis Hkey : single_sort_key key.

(** Rows that the system rule and the modified-first rule do not
    separate, with distinct buffer names. *)
Variable rows : list (StringItem * EditBuffer).
Hypothesis Hordinary :
  forall p, In p rows -> mask_set (b_flags (snd p)) (BF_SYSTEM E) = false.
Hypothesis Hmodified :
  forall p q, In p rows -> In q rows ->
    modified_rule_decides key (snd p) (snd q) = false.
Hypothesis Hnames :
  forall p q, In p rows -> In q rows ->
    b_name (snd p) = b_name (snd q) -> p = q.

Lemma ascending_on_rows p q :
  In p rows -> In q rows ->
  bufed_sort_func E key (snd p) (snd q) = sort_keys E key (snd p) (snd q).
Proof.
  intros Hp Hq. unfold bufed_sort_func.
  pose proof (Hordinary p Hp) as H1. pose proof (Hordinary q Hq) as H2.
  apply mask_set_false in H1, H2. rewrite H1, H2.
  pose proof (Hmodified p q Hp Hq) as Hm. unfold modified_rule_decides in Hm.
  rewrite Hm.
  destruct (single_sort_key_facts key Hkey) as (_ & _ & _ & -> & _).
  reflexivity.
Qed.

Lemma descending_on_rows p q :
  In p rows -> In q rows ->
  bufed_sort_func E (int_mul key 3) (snd p) (snd q)
  = - sort_keys E key (snd p) (snd q).
Proof.
  intros Hp Hq. unfold bufed_sort_func.
  pose proof (Hordinary p Hp) as H1. pose proof (Hordinary q Hq) as H2.
  apply mask_set_false in H1, H2. rewrite H1, H2.
  pose proof (Hmodified p q Hp Hq) as Hm. unfold modified_rule_decides in Hm.
  destruct (single_sort_key_facts key Hkey)
    as (_ & _ & _ & _ & Hd & Hmod & Ht & Hs & Hf & _).
  rewrite Hmod, Hm, Hd. simpl.
  rewrite (sort_keys_mask_ext E (int_mul key 3) key) by assumption.
  apply int_neg_small, sort_keys_range, Hcoll.
Qed.

Lemma ascending_consistent :
  consistent_on (fun p q => bufed_sort_func E key (snd p) (snd q)) rows.
Proof.
  pose proof (sort_keys_order E Hcoll key) as Hc.
  destruct (order_consistent (fun p q : StringItem * EditBuffer =>
              sort_keys E key (snd p) (snd q)) rows) as [Htot Htrans].
  { apply (on_key_order snd), Hc. }
  split.
  - intros p q Hp Hq. rewrite !ascending_on_rows by assumption.
    apply Htot; assumption.
  - intros p q r Hp Hq Hr. rewrite !ascending_on_rows by assumption.
    apply Htrans; assumption.
Qed.

Lemma descending_consistent :
  consistent_on
    (fun p q => bufed_sort_func E (int_mul key 3) (snd p) (snd q)) rows.
Proof.
  pose proof (sort_keys_order E Hcoll key) as Hc.
  split.
  - intros p q Hp Hq. rewrite !descending_on_rows by assumption.
    pose proof (co_anti _ Hc (snd p) (snd q)). lia.
  - intros p q r Hp Hq Hr. rewrite !descending_on_rows by assumption.
    pose proof (co_anti _ Hc (snd p) (snd q)).
    pose proof (co_anti _ Hc (snd q) (snd r)).
    pose proof (co_anti _ Hc (snd p) (snd r)).
    pose proof (co_anti _ Hc (snd r) (snd p)).
    pose proof (co_lt_lt _ Hc (snd r) (snd q) (snd p)).
    pose proof (co_eq_eq _ Hc (snd r) (snd q) (snd p)).
    pose proof (co_eq_lt _ Hc (snd r) (snd q) (snd p)).
    pose proof (co_lt_eq _ Hc (snd r) (snd q) (snd p)).
    pose proof (co_anti _ Hc (snd q) (snd p)).
    pose proof (co_anti _ Hc (snd r) (snd q)).
    lia.
Qed.

(** The descending sort of such rows is the ascending sort, reversed. *)
Lemma descending_sort_reverses :
  sort_items E key rows = rev (sort_items E (int_mul key 3) rows).
Proof.
  pose proof (sort_keys_order E Hcoll key) as Hc.
  set (asc := fun p q : StringItem * EditBuffer =>
                bufed_sort_func E key (snd p) (snd q)).
  set (desc := fun p q : StringItem * EditBuffer =>
                 bufed_sort_func E (int_mul key 3) (snd p) (snd q)).
  assert (HA : Permutation (sort_items E key rows) rows) by apply Hperm.
  assert (HD : Permutation (sort_items E (int_mul key 3) rows) rows)
    by apply Hperm.
  assert (HinA : forall p, In p (sort_items E key rows) -> In p rows)
    by (intros p; apply Permutation_in, HA).
  assert (HinD : forall p, In p (sort_items E (int_mul key 3) rows) ->
                           In p rows)
    by (intros p; apply Permutation_in, HD).
  apply (StronglySorted_unique_strong (cmp_le asc)).
  - intros p q Hp Hq Hpq Hqp.
    apply list_elem_of_In in Hp, Hq. apply HinA in Hp.
    apply in_rev, HinD in Hq.
    unfold cmp_le, asc in Hpq, Hqp.
    rewrite ascending_on_rows in Hpq, Hqp by assumption.
    apply Hnames; [assumption..|].
    apply (sort_keys_zero_name E Hcoll key).
    pose proof (co_anti _ Hc (snd p) (snd q)). lia.
  - apply Hsorts, ascending_consistent.
  - apply StronglySorted_rev.
    apply (StronglySorted_weaken (cmp_le desc)); [|apply Hsorts, descending_consistent].
    intros p q Hp Hq. apply HinD in Hp, Hq. unfold cmp_le, desc, asc.
    rewrite descending_on_rows, ascending_on_rows by assumption.
    pose proof (co_anti _ Hc (snd p) (snd q)).
    pose proof (co_anti _ Hc (snd q) (snd p)). lia.
  - eapply Permutation_trans; [exact HA|].
    eapply Permutation_trans; [symmetry; exact HD | apply Permutation_rev].
Qed.

End Reversal.

(** ** The sort command, repeated *)

Section SortToggle.
Variable E : Env.
Hypothesis Hperm : qsort_permutes E.
Hypothesis Hbits : Z.land (BF_READONLY E) (BF_SYSTEM E) = 0.

Variable qs0 : QEmacsState.
Variable s : wid.
Variable w0 : EditState.
Variable bs0 : BufedState.
Variable rb : EditBuffer.
Variable key : Z.

Hypothesis Hkey : single_sort_key key.
Hypothesis Hw0 : get_window qs0 s = Some w0.
Hypothesis Hbs0 : bufed_get_state qs0 w0 = Some bs0.
Hypothesis Hrb : find_buffer qs0 (s_b w0) = Some rb.
Hypothesis Hsys : mask_set (b_flags rb) (BF_SYSTEM E) = true.
Hypothesis Hhide : mask_set (bs_flags bs0) BUFED_ALL_VISIBLE = false.
Hypothesis Hnd : List.NoDup (List.map b_addr (first_buffer qs0)).

Lemma own_buffer_not_listed r :
  In r (first_buffer qs0) -> b_addr r = s_b w0 -> listed E bs0 r = false.
Proof.
  intros Hr Ha.
  assert (r = rb) as ->.
  { eapply NoDup_map_In_inj; [exact Hnd | exact Hr | |].
    - eapply find_buffer_In, Hrb.
    - rewrite Ha. symmetry. eapply find_buffer_addr, Hrb. }
  rewrite listed_hide_system by exact Hhide. rewrite Hsys. reflexivity.
Qed.

Lemma listed_same_filter bs r :
  bs_flags bs = bs_flags bs0 -> listed E bs r = listed E bs0 r.
Proof. unfold listed. intros ->. reflexivity. Qed.

Lemma kept_filter (l l' : list EditBuffer) :
  Forall2 (buffer_kept E (s_b w0)) l l' ->
  (forall r, In r l -> b_addr r = s_b w0 -> listed E bs0 r = false) ->
  List.filter (listed E bs0) l' = List.filter (listed E bs0) l.
Proof.
  induction 1 as [|r r' l l' Hr Hl IH]; intros Hown; simpl; [reflexivity|].
  assert (Hrest : List.filter (listed E bs0) l' = List.filter (listed E bs0) l)
    by (apply IH; intros; apply Hown; [right|]; assumption).
  destruct (Pos.eq_dec (b_addr r) (s_b w0)) as [Heq|Hne].
  - assert (Hsame : listed E bs0 r' = listed E bs0 r).
    { unfold listed. rewrite (kept_system_flag E _ r r' Hbits Hr). reflexivity. }
    rewrite Hsame, (Hown r (or_introl eq_refl) Heq). exact Hrest.
  - destruct Hr as (_ & Hother & _). rewrite (Hother Hne), Hrest. reflexivity.
Qed.

(** The rows of every editor that lists what [qs0] listed. *)
Lemma same_listing_rows qs bs order :
  same_listing E (s_b w0) s qs0 bs0 qs ->
  bs_flags bs = bs_flags bs0 ->
  listed_rows E (set_bufed_sort_order qs order) bs = listed_rows E qs0 bs0.
Proof.
  intros (_ & _ & Hkept) Hflags. unfold listed_rows. simpl first_buffer.
  rewrite (filter_ext (listed E bs) (listed E bs0))
    by (intros; apply listed_same_filter, Hflags).
  rewrite (kept_filter _ _ Hkept); [reflexivity|].
  apply own_buffer_not_listed.
Qed.

Lemma rows_ordinary p :
  In p (listed_rows E qs0 bs0) ->
  mask_set (b_flags (snd p)) (BF_SYSTEM E) = false.
Proof.
  destruct p as [it r]. intros Hin.
  apply listed_rows_In in Hin as (_ & _ & Hl).
  rewrite listed_hide_system in Hl by exact Hhide.
  apply negb_true_iff in Hl. exact Hl.
Qed.

Lemma rows_modified p q :
  (key = BUFED_SORT_MODIFIED ->
   forall r1 r2, In r1 (first_buffer qs0) -> In r2 (first_buffer qs0) ->
     listed E bs0 r1 = true -> listed E bs0 r2 = true ->
     b_modified r1 = b_modified r2) ->
  In p (listed_rows E qs0 bs0) -> In q (listed_rows E qs0 bs0) ->
  modified_rule_decides key (snd p) (snd q) = false.
Proof.
  destruct p as [it1 r1], q as [it2 r2]. intros Hsame_modified Hp Hq.
  apply listed_rows_In in Hp as (_ & Hr1 & Hl1).
  apply listed_rows_In in Hq as (_ & Hr2 & Hl2).
  unfold modified_rule_decides. simpl.
  destruct (Z.eq_dec key BUFED_SORT_MODIFIED) as [Heq|Hne].
  - rewrite (Hsame_modified Heq r1 r2) by assumption.
    rewrite int_sub_diag. apply andb_false_r.
  - destruct (single_sort_key_facts key Hkey)
      as (_ & _ & _ & _ & _ & _ & _ & _ & _ & Hoff).
    rewrite (Hoff Hne). reflexivity.
Qed.

Lemma rows_names p q :
  (forall r1 r2, In r1 (first_buffer qs0) -> In r2 (first_buffer qs0) ->
     listed E bs0 r1 = true -> listed E bs0 r2 = true ->
     b_name r1 = b_name r2 -> r1 = r2) ->
  In p (listed_rows E qs0 bs0) -> In q (listed_rows E qs0 bs0) ->
  b_name (snd p) = b_name (snd q) -> p = q.
Proof.
  destruct p as [it1 r1], q as [it2 r2]. intros Hdistinct Hp Hq Hn.
  apply listed_rows_In in Hp as (-> & Hr1 & Hl1).
  apply listed_rows_In in Hq as (-> & Hr2 & Hl2).
  simpl in Hn. rewrite (Hdistinct r1 r2) by assumption. reflexivity.
Qed.

Lemma same_listing_start : same_listing E (s_b w0) s qs0 bs0 qs0.
Proof.
  split; [|split].
  - exists w0. auto.
  - exists bs0. auto.
  - apply Forall2_diag, buffer_kept_refl.
Qed.

(** One sort command on an editor that lists what [qs0] listed. *)
Lemma bufed_set_sort_step qs :
  same_listing E (s_b w0) s qs0 bs0 qs ->
  let m := next_sort_order (bufed_sort_order qs) key in
  exists qs' bs',
    bufed_set_sort E qs s key = Some qs' /\
    state_at qs' (s_b w0) = Some bs' /\
    same_listing E (s_b w0) s qs0 bs0 qs' /\
    bufed_sort_order qs' = m /\
    bs_items bs' = List.map fst (sort_items E m (listed_rows E qs0 bs0)).
Proof.
  intros Hsame m. pose proof Hsame as ((w & Hw & Hb) & (bs & Hbs & Hfl) & Hkept).
  destruct (single_sort_key_facts key Hkey) as (Hk0 & Hk3 & _).
  assert (Hm0 : m <> 0).
  { subst m. unfold next_sort_order.
    destruct (bufed_sort_order qs =? key); assumption. }
  set (qsm := set_bufed_sort_order qs m).
  assert (Hwm : get_window qsm s = Some w) by exact Hw.
  assert (Hlive : is_Some (find_buffer qsm (s_b w))).
  { rewrite Hb. change (is_Some (find_buffer qs (s_b w0))).
    destruct (find_kept E (s_b w0) _ _ (s_b w0) rb Hkept Hrb) as (r' & Hr' & _).
    exists r'. exact Hr'. }
  destruct (build_bufed_list_ok E qsm (set_bs_last_index bs (-1)) s w
              Hperm Hwm Hlive) as (qs' & Hbuild & Hf).
  exists (put_state qs' (s_b w) (rebuilt E qsm (set_bs_last_index bs (-1)))),
    (rebuilt E qsm (set_bs_last_index bs (-1))).
  rewrite Hb in *. repeat split.
  - unfold bufed_set_sort. rewrite Hw. cbn [mbind option_bind].
    unfold bufed_get_state. rewrite Hb, Hbs.
    replace (if bufed_sort_order qs =? key
             then set_bufed_sort_order qs (int_mul key 3)
             else set_bufed_sort_order qs key) with qsm
      by (subst qsm m; unfold next_sort_order;
          destruct (bufed_sort_order qs =? key); reflexivity).
    rewrite Hbuild. reflexivity.
  - apply state_at_put.
  - destruct (frame_get_window _ _ _ _ _ _ _ Hf Hwm) as (w' & Hw' & _ & Hb' & _).
    exists w'. split; [exact Hw' | congruence].
  - eexists. split; [apply state_at_put | exact Hfl].
  - eapply Forall2_trans; [apply buffer_kept_trans | exact Hkept |].
    exact (frame_buffers _ _ _ _ _ Hf).
  - simpl. exact (frame_order _ _ _ _ _ Hf).
  - unfold rebuilt. simpl bs_items. f_equal.
    rewrite build_items_sorted by exact Hm0. simpl bufed_sort_order.
    subst qsm. rewrite same_listing_rows; [reflexivity | exact Hsame | exact Hfl].
Qed.


End SortToggle.

(** ** The reference environment meets the hypotheses *)

Lemma insert_by_perm {A : Type} (c : A -> A -> Z) x l :
  Permutation (insert_by c x l) (x :: l).
Proof.
  induction l as [|y l IH]; simpl; [reflexivity|].
  destruct (c x y <=? 0); [reflexivity|].
  rewrite IH. apply perm_swap.
Qed.

Lemma insertion_sort_perm {A : Type} (c : A -> A -> Z) l :
  Permutation (insertion_sort c l) l.
Proof.
  induction l as [|x l IH]; simpl; [reflexivity|].
  rewrite insert_by_perm, IH. reflexivity.
Qed.

Lemma insert_by_sorted {A : Type} (c : A -> A -> Z) x l :
  StronglySorted (cmp_le c) l -> consistent_on c (x :: l) ->
  StronglySorted (cmp_le c) (insert_by c x l).
Proof.
  induction 1 as [|y l Hs IH Hall]; intros [Htot Htrans]; simpl.
  - repeat constructor.
  - rewrite List.Forall_forall in Hall.
    destruct (Z.leb_spec (c x y) 0) as [Hle|Hgt].
    + constructor; [constructor; [exact Hs | apply List.Forall_forall, Hall]|].
      apply List.Forall_forall. intros z [<-|Hz]; [exact Hle|].
      apply (Htrans x y z); simpl; auto. apply Hall, Hz.
    + constructor.
      * apply IH. split.
        -- intros u v Hu Hv. apply Htot; simpl in *; tauto.
        -- intros u v t Hu Hv Ht. apply Htrans; simpl in *; tauto.
      * apply List.Forall_forall. intros z Hz.
        apply (Permutation_in _ (insert_by_perm c x l)) in Hz.
        destruct Hz as [<-|Hz]; [|apply Hall, Hz].
        destruct (Htot x y); simpl; auto. unfold cmp_le in *. lia.
Qed.

Lemma insertion_sort_sorted {A : Type} (c : A -> A -> Z) l :
  consistent_on c l -> StronglySorted (cmp_le c) (insertion_sort c l).
Proof.
  induction l as [|x l IH]; intros [Htot Htrans]; simpl; [constructor|].
  apply insert_by_sorted.
  2:{ split.
    + intros u v Hu Hv. apply Htot.
      * destruct Hu as [<-|Hu]; [left; reflexivity|right].
        eapply Permutation_in; [apply insertion_sort_perm | exact Hu].
      * destruct Hv as [<-|Hv]; [left; reflexivity|right].
        eapply Permutation_in; [apply insertion_sort_perm | exact Hv].
    + intros u v t Hu Hv Ht. apply Htrans.
      * destruct Hu as [<-|Hu]; [left; reflexivity|right].
        eapply Permutation_in; [apply insertion_sort_perm | exact Hu].
      * destruct Hv as [<-|Hv]; [left; reflexivity|right].
        eapply Permutation_in; [apply insertion_sort_perm | exact Hv].
      * destruct Ht as [<-|Ht]; [left; reflexivity|right].
        eapply Permutation_in; [apply insertion_sort_perm | exact Ht]. }
  apply IH. split.
  - intros u v Hu Hv. apply Htot; right; assumption.
  - intros u v t Hu Hv Ht. apply Htrans; right; assumption.
Qed.

Lemma ref_env_qsort_permutes : qsort_permutes ref_env.
Proof. intros A c l. apply insertion_sort_perm. Qed.

Lemma ref_env_qsort_sorts : qsort_sorts ref_env.
Proof. intros A c l. apply insertion_sort_sorted. Qed.

Lemma string_compare_refl x : String.compare x x = Eq.
Proof. apply OrderedTypeEx.String_as_OT.cmp_eq. reflexivity. Qed.

Lemma string_compare_trans x y z :
  String.compare x y = Lt -> String.compare y z = Lt ->
  String.compare x z = Lt.
Proof.
  intros Hxy Hyz. apply OrderedTypeEx.String_as_OT.cmp_lt.
  apply OrderedTypeEx.String_as_OT.cmp_lt in Hxy, Hyz.
  eapply OrderedTypeEx.String_as_OT.lt_trans; eassumption.
Qed.

Lemma byte_collate_order : cmp_order byte_collate.
Proof.
  assert (Hlt : forall x y, byte_collate x y < 0 <-> String.compare x y = Lt).
  { intros x y. unfold byte_collate.
    destruct (String.compare x y); split; (lia || discriminate || reflexivity). }
  assert (Heq : forall x y, byte_collate x y = 0 -> x = y).
  { intros x y. unfold byte_collate.
    destruct (String.compare x y) eqn:Hc; try discriminate.
    intros _. apply String.compare_eq_iff, Hc. }
  constructor.
  - intros x y. unfold byte_collate. rewrite (String.compare_antisym x y).
    destruct (String.compare y x); simpl; lia.
  - intros x y z. rewrite !Hlt. apply string_compare_trans.
  - intros x y z Hxy Hyz. apply Heq in Hxy, Hyz. subst.
    unfold byte_collate. rewrite string_compare_refl. reflexivity.
  - intros x y z Hxy. apply Heq in Hxy. subst. auto.
  - intros x y z Hxy Hyz. apply Heq in Hyz. subst. auto.
Qed.

Lemma ref_env_collation_order : collation_order ref_env.
Proof.
  split; [exact byte_collate_order|]. split.
  - intros a b. simpl. unfold byte_collate.
    destruct (String.compare a b) eqn:Hc; try discriminate.
    intros _. apply String.compare_eq_iff, Hc.
  - intros a b. simpl. unfold byte_collate, int_min, int_max.
    destruct (String.compare a b); lia.
Qed.

(** ** The sample editor *)

Lemma sample_editor_addresses :
  List.NoDup (List.map b_addr (first_buffer sample_editor)).
Proof.
  simpl. repeat (apply List.NoDup_cons; [simpl; intuition discriminate|]).
  apply List.NoDup_nil.
Qed.

Lemma sample_editor_names r1 r2 :
  In r1 (first_buffer sample_editor) -> In r2 (first_buffer sample_editor) ->
  b_name r1 = b_name r2 -> r1 = r2.
Proof.
  simpl. intros H1 H2 Hn.
  repeat match goal with
         | H : _ \/ _ |- _ => destruct H as [<-|H]
         | H : False |- _ => destruct H
         end; first [reflexivity | discriminate Hn].
Qed.

(** Witness of C4: the sample editor has three files and two system
    buffers, and its filter hides the system buffers. *)
Lemma rebuild_lists_the_filtered_buffers_witness :
  exists qs1 bs1 qs2 bs2,
    bufed_refresh ref_env sample_editor 1%positive 1 = Some qs1 /\
    state_at qs1 4%positive = Some bs1 /\
    length (bs_items bs1) = 5%nat /\
    bufed_refresh ref_env qs1 1%positive 1 = Some qs2 /\
    state_at qs2 4%positive = Some bs2 /\
    length (bs_items bs2) = 3%nat.
Proof.
  apply (proj2 (rebuild_lists_the_filtered_buffers ref_env
                  ref_env_qsort_permutes eq_refl)
           sample_editor blank_state 1%positive panel_window);
    try reflexivity.
  eexists; reflexivity.
Defined.



(** ** No unresolved row in a rebuild *)

Section NoUnresolvedRow.
Variable E : Env.


End NoUnresolvedRow.


(** ** Windows and stores *)

Lemma get_window_upd_same qs x (f : EditState -> EditState) :
  (forall w, s_id (f w) = s_id w) ->
  get_window (upd_window qs x f) x = f <$> get_window qs x.
Proof.
  intros Hf. unfold get_window, upd_window. simpl.
  induction (windows qs) as [|u l IH]; simpl; [reflexivity|].
  destruct (Pos.eqb_spec (s_id u) x) as [Heq|Hne].
  - rewrite Hf, Heq, Pos.eqb_refl. reflexivity.
  - destruct (Pos.eqb_spec (s_id u) x); [contradiction | exact IH].
Qed.

Lemma get_window_upd_other qs x y (f : EditState -> EditState) :
  (forall w, s_id (f w) = s_id w) -> y <> x ->
  get_window (upd_window qs x f) y = get_window qs y.
Proof.
  intros Hf Hne. unfold get_window, upd_window. simpl.
  induction (windows qs) as [|u l IH]; simpl; [reflexivity|].
  destruct (Pos.eqb_spec (s_id u) x) as [Heq|Hneq].
  - rewrite Hf. destruct (Pos.eqb_spec (s_id u) y); [congruence | exact IH].
  - destruct (Pos.eqb (s_id u) y); [reflexivity | exact IH].
Qed.

Lemma get_window_deleted qs x : get_window (do_delete_window qs x) x = None.
Proof.
  unfold get_window, do_delete_window. simpl.
  induction (windows qs) as [|u l IH]; simpl; [reflexivity|].
  destruct (Pos.eqb_spec (s_id u) x) as [Heq|Hne]; simpl; [exact IH|].
  destruct (Pos.eqb_spec (s_id u) x); [contradiction | exact IH].
Qed.

Lemma get_window_delete_other qs x y :
  y <> x -> get_window (do_delete_window qs x) y = get_window qs y.
Proof.
  intros Hne. unfold get_window, do_delete_window. simpl.
  induction (windows qs) as [|u l IH]; simpl; [reflexivity|].
  destruct (Pos.eqb_spec (s_id u) x) as [Heq|Hneq]; simpl.
  - destruct (Pos.eqb_spec (s_id u) y); [congruence | exact IH].
  - destruct (Pos.eqb (s_id u) y); [reflexivity | exact IH].
Qed.

Lemma find_buffer_upd_other qs b a (f : EditBuffer -> EditBuffer) :
  (forall r, b_addr (f r) = b_addr r) -> a <> b ->
  find_buffer (upd_buffer qs b f) a = find_buffer qs a.
Proof.
  intros Hf Hne. unfold find_buffer, upd_buffer. simpl.
  induction (first_buffer qs) as [|x l IH]; simpl; [reflexivity|].
  destruct (Pos.eqb_spec (b_addr x) b) as [Heq|Hneq].
  - rewrite Hf. destruct (Pos.eqb_spec (b_addr x) a); [congruence | exact IH].
  - destruct (Pos.eqb (b_addr x) a); [reflexivity | exact IH].
Qed.

Lemma check_buffer_Some qs slot a :
  check_buffer qs slot = Some a ->
  slot = Some a /\ is_Some (find_buffer qs a).
Proof.
  destruct slot as [a'|]; simpl; [|discriminate].
  destruct (find_buffer qs a') eqn:Hf; [|discriminate].
  intros [= <-]. split; [reflexivity | eexists; exact Hf].
Qed.

Lemma check_window_Some qs slot e :
  check_window qs slot = Some e ->
  slot = Some e /\ is_Some (get_window qs e).
Proof.
  destruct slot as [e'|]; simpl; [|discriminate].
  destruct (get_window qs e') eqn:Hf; [|discriminate].
  intros [= <-]. split; [reflexivity | eexists; exact Hf].
Qed.

(** ** The commands that end in a rebuild *)

(** An action that keeps an invariant of the threaded state, on items that
    meet its precondition, can be iterated: the iterator returns and keeps
    the invariant. *)
Section IterateInvariant.
Context {O : Type}.
Variable func_item : O -> StringItem -> Z -> option (O * StringItem).
Variable I : O -> Prop.
Variable P : StringItem -> Prop.
Hypothesis Hstep : forall o item i, I o -> P item ->
  exists o' item', func_item o item i = Some (o', item') /\ I o'.

Lemma selection_loop_inv items : forall i count o,
  Forall P items -> I o ->
  exists items' count' o',
    selection_loop func_item i items count o = Some (items', count', o') /\
    I o' /\ length items' = length items /\ count <= count' /\
    (count' = count -> items' = items).
Proof.
  induction items as [|item rest IH]; intros i count o HP HI; simpl.
  - eexists _, _, _. split; [reflexivity|]. split; [exact HI|].
    split; [reflexivity|]. split; [lia | reflexivity].
  - inversion HP as [|? ? Hitem Hrest]; subst.
    destruct (it_selected item).
    + destruct (Hstep o item i HI Hitem) as (o1 & item1 & Hf & HI1).
      rewrite Hf. cbn [mbind option_bind].
      destruct (IH (i + 1) (count + 1) o1 Hrest HI1)
        as (rest' & c' & o2 & Hl & HI2 & Hlen & Hle & _).
      rewrite Hl. cbn [mbind option_bind].
      eexists _, _, _. split; [reflexivity|]. split; [exact HI2|].
      split; [simpl; lia|]. split; [lia|]. intros; lia.
    + cbn [mbind option_bind].
      destruct (IH (i + 1) count o Hrest HI)
        as (rest' & c' & o2 & Hl & HI2 & Hlen & Hle & Hsame).
      rewrite Hl. cbn [mbind option_bind].
      eexists _, _, _. split; [reflexivity|]. split; [exact HI2|].
      split; [simpl; lia|]. split; [lia|].
      intros Hc. rewrite (Hsame Hc). reflexivity.
Qed.

Lemma string_selection_iterate_inv cs current_index o :
  Forall P cs -> I o ->
  exists cs' o',
    string_selection_iterate func_item cs current_index o = Some (cs', o') /\
    I o' /\ length cs' = length cs.
Proof.
  intros HP HI. unfold string_selection_iterate.
  destruct (selection_loop_inv cs 0 0 o HP HI)
    as (cs1 & count & o1 & Hl & HI1 & Hlen & Hle & Hsame).
  rewrite Hl. cbn [mbind option_bind].
  destruct ((count =? 0) && (0 <=? current_index)
            && (current_index <? Z.of_nat (length cs1))) eqn:Hc.
  - apply andb_prop in Hc as [Hc Hhi]. apply andb_prop in Hc as [Hz Hlo].
    apply Z.eqb_eq in Hz. apply Z.leb_le in Hlo. apply Z.ltb_lt in Hhi.
    rewrite (Hsame Hz) in *.
    destruct (lookup_lt_is_Some_2 cs (Z.to_nat current_index)) as [item Hitem];
      [lia|].
    rewrite Hitem. cbn [mbind option_bind].
    assert (HPi : P item) by (eapply Forall_lookup_1; eassumption).
    destruct (Hstep o1 item current_index HI1 HPi) as (o2 & item2 & Hf & HI2).
    rewrite Hf. cbn [mbind option_bind].
    eexists _, _. split; [reflexivity|]. split; [exact HI2|].
    apply length_insert.
  - eexists _, _. split; [reflexivity|]. auto.
Qed.

End IterateInvariant.

(** Removing buffers other than the one at [a] does not change what [a]
    resolves to. *)
Lemma find_buffer_filter qs (keep : EditBuffer -> bool) a :
  (forall r, In r (first_buffer qs) -> b_addr r = a -> keep r = true) ->
  find_buffer (set_first_buffer qs (List.filter keep (first_buffer qs))) a
  = find_buffer qs a.
Proof.
  unfold find_buffer. simpl.
  induction (first_buffer qs) as [|x l IH]; intros Hkeep; simpl;
    [reflexivity|].
  assert (Hrest : List.find (fun b => Pos.eqb (b_addr b) a)
                            (List.filter keep l)
                  = List.find (fun b => Pos.eqb (b_addr b) a) l)
    by (apply IH; intros; apply Hkeep; [right|]; assumption).
  destruct (Pos.eqb_spec (b_addr x) a) as [Heq|Hne].
  - rewrite (Hkeep x (or_introl eq_refl) Heq). simpl.
    rewrite Heq, Pos.eqb_refl. reflexivity.
  - destruct (keep x); simpl; [|exact Hrest].
    destruct (Pos.eqb_spec (b_addr x) a); [contradiction | exact Hrest].
Qed.

Section KillReturns.
Variable E : Env.
Variable s : wid.
Variable w : EditState.
Variable qs0 : QEmacsState.

Lemma do_kill_buffer_in_place qs item a :
  list_in_place s w qs0 qs ->
  label_spares_the_list w qs0 item ->
  it_opaque item = Some a -> a <> s_b w ->
  list_in_place s w qs0 (do_kill_buffer E qs (it_str item)).
Proof.
  intros (Hw & Hst & Hb & Hin) Hlabel Hop Hne. unfold do_kill_buffer.
  destruct (kill_granted E (it_str item));
    [|repeat split; assumption].
  destruct (List.find _ _) as [victim|] eqn:Hfind;
    [|repeat split; assumption].
  apply List.find_some in Hfind as [Hv Hname]. simpl in Hv.
  apply String.eqb_eq in Hname.
  assert (Hva : b_addr victim <> s_b w).
  { intros Heq. specialize (Hlabel victim (Hin victim Hv) Heq (eq_sym Hname)).
    congruence. }
  split; [exact Hw|]. split; [exact Hst|]. split.
  - change (first_buffer (log_kill_request qs (it_str item)))
      with (first_buffer qs).
    set (keep := fun b => negb (Pos.eqb (b_addr b) (b_addr victim))).
    assert (Hk : find_buffer
                   (set_first_buffer qs (List.filter keep (first_buffer qs)))
                   (s_b w) = find_buffer qs (s_b w)).
    { apply find_buffer_filter. intros r _ Hr. unfold keep.
      apply negb_true_iff, Pos.eqb_neq. congruence. }
    unfold find_buffer in *. simpl in *. rewrite Hk. exact Hb.
  - simpl. intros r Hr. apply filter_In in Hr as [Hr _]. apply Hin, Hr.
Qed.

Lemma bufed_kill_item_in_place qs item i :
  list_in_place s w qs0 qs ->
  label_spares_the_list w qs0 item ->
  exists qs' item',
    bufed_kill_item E s qs item i = Some (qs', item') /\
    list_in_place s w qs0 qs'.
Proof.
  intros Hready Hlabel. pose proof Hready as (Hw & [bs Hst] & Hb & Hin).
  unfold bufed_kill_item. rewrite Hw. cbn [mbind option_bind].
  unfold bufed_get_state. rewrite Hst.
  destruct (check_buffer qs (it_opaque item)) as [a|] eqn:Hck;
    [|eexists _, _; split; [reflexivity | exact Hready]].
  destruct (Pos.eqb_spec a (s_b w)) as [Heq|Hne]; simpl negb; cbv iota;
    [eexists _, _; split; [reflexivity | exact Hready]|].
  apply check_buffer_Some in Hck as [Hop _].
  pose proof (do_kill_buffer_in_place qs item a Hready Hlabel Hop Hne)
    as (Hw' & Hst' & Hb' & Hin').
  change (it_str (set_opaque item (Some a))) with (it_str item).
  eexists _, _. split; [reflexivity|].
  destruct (bool_decide (bs_cur_buffer bs = Some a)).
  - split; [exact Hw'|]. split; [rewrite state_at_put; eexists; reflexivity|].
    split; [exact Hb' | exact Hin'].
  - repeat split; assumption.
Qed.

End KillReturns.

Lemma index_in_range_lookup bs index :
  index_in_range bs index = true ->
  is_Some (bs_items bs !! Z.to_nat index).
Proof.
  unfold index_in_range. intros H. apply negb_true_iff, orb_false_iff in H.
  destruct H as [Hlo Hhi]. apply Z.ltb_ge in Hlo. apply Z.leb_gt in Hhi.
  apply lookup_lt_is_Some_2. lia.
Qed.

Section PreviewReturns.
Variable E : Env.

(** A preview returns, and leaves the window of the list on a buffer that
    exists. *)
Lemma bufed_select_preview_ok qs s w :
  get_window qs s = Some w ->
  is_Some (state_at qs (s_b w)) ->
  is_Some (find_buffer qs (s_b w)) ->
  exists qs' w',
    bufed_select E qs s 1 = Some qs' /\
    get_window qs' s = Some w' /\
    is_Some (find_buffer qs' (s_b w')) /\
    is_Some (state_at qs' (s_b w)) /\
    first_buffer qs' = first_buffer qs.
Proof.
  intros Hw [bs Hst] Hb.
  assert (Hidle : exists qs' w',
            Some qs = Some qs' /\ get_window qs' s = Some w' /\
            is_Some (find_buffer qs' (s_b w')) /\
            is_Some (state_at qs' (s_b w)) /\
            first_buffer qs' = first_buffer qs).
  { exists qs, w. repeat split; try assumption. eexists; exact Hst. }
  unfold bufed_select. rewrite Hw. cbn [mbind option_bind].
  unfold bufed_get_state. rewrite Hst.
  unfold select_target. change (1 <? 0) with false. cbv iota.
  unfold list_get_pos. destruct Hb as [rb Hrb]. rewrite Hrb.
  cbn [mbind option_bind].
  set (index := fst (eb_get_pos E (b_text rb) (s_offset w))).
  destruct (index_in_range bs index) eqn:Hin; simpl negb; cbv iota;
    [|exact Hidle].
  destruct ((0 <? 1) && (index =? bs_last_index bs)); [exact Hidle|].
  destruct (index_in_range_lookup bs index Hin) as [item Hitem].
  rewrite Hitem. cbn [mbind option_bind].
  change (1 <=? 0) with false. cbv iota.
  set (bs1 := set_bs_items bs _).
  change (bs_cur_window bs1) with (bs_cur_window bs).
  destruct (check_window qs (bs_cur_window bs)) as [e|] eqn:He.
  - destruct (check_buffer qs (it_opaque item)) as [b|] eqn:Hck.
    + apply check_window_Some in He as [_ [we Hwe]].
      apply check_buffer_Some in Hck as [_ Hlive].
      unfold switch_to_buffer.
      set (f1 := fun w0 : EditState => set_s_buffer w0 b (s_last_buffer w0)).
      set (f2 := fun w' : EditState =>
                   set_s_buffer w' (s_b w') (bs_cur_buffer bs1)).
      rewrite (with_window_some qs e f1) by (eexists; exact Hwe).
      cbn [mbind option_bind].
      assert (Hwe1 : get_window (upd_window qs e f1) e = Some (f1 we))
        by (rewrite get_window_upd_same, Hwe; reflexivity).
      rewrite (with_window_some _ e f2) by (eexists; exact Hwe1).
      cbn [mbind option_bind].
      destruct (Pos.eq_dec e s) as [->|Hne].
      * assert (we = w) as -> by congruence.
        exists (put_state (do_refresh_complete
                             (upd_window (upd_window qs s f1) s f2))
                  (s_b w) (set_bs_last_index
                             (set_bs_refs bs1 (Some s) (bs_cur_buffer bs1)
                                (bs_last_buffer bs1)) index)),
          (f2 (f1 w)).
        split; [reflexivity|]. split.
        { change (get_window (upd_window (upd_window qs s f1) s f2) s
                  = Some (f2 (f1 w))).
          rewrite get_window_upd_same, Hwe1; reflexivity. }
        split; [exact Hlive|]. split; [|reflexivity].
        rewrite state_at_put. eexists; reflexivity.
      * eexists _, w. split; [reflexivity|]. split.
        { change (get_window (upd_window (upd_window qs e f1) e f2) s
                  = Some w).
          rewrite !get_window_upd_other by (auto || reflexivity). exact Hw. }
        split; [eexists; exact Hrb|]. split; [|reflexivity].
        rewrite state_at_put. eexists; reflexivity.
    + eexists _, w. split; [reflexivity|]. split; [exact Hw|].
      split; [eexists; exact Hrb|]. split; [|reflexivity].
      rewrite state_at_put. eexists; reflexivity.
  - destruct (check_buffer qs (it_opaque item));
      (eexists _, w; split; [reflexivity|]; split; [exact Hw|];
       split; [eexists; exact Hrb|]; split; [|reflexivity];
       rewrite state_at_put; eexists; reflexivity).
Qed.

End PreviewReturns.

Section SelectionMarks.
Variable E : Env.
Hypothesis Hperm : qsort_permutes E.
Hypothesis Hbits : Z.land (BF_READONLY E) (BF_SYSTEM E) = 0.

Lemma rebuilt_rows_of_the_registry qs bs b s qs' a :
  frame E b s qs qs' ->
  rows_of_the_registry E (put_state qs' a (rebuilt E qs bs)) (rebuilt E qs bs).
Proof.
  intros Hf. split.
  - unfold rebuilt. simpl. apply List.Forall_forall.
    intros it Hin. apply in_map_iff in Hin as ([it' r] & <- & Hin).
    apply build_items_In in Hin as (-> & _ & _); [reflexivity | exact Hperm].
  - rewrite (rebuilt_length E qs bs Hperm).
    change (first_buffer (put_state qs' a (rebuilt E qs bs)))
      with (first_buffer qs').
    symmetry. apply (kept_listed_count E b bs _ _ Hbits).
    exact (frame_buffers _ _ _ _ _ Hf).
Qed.

Lemma build_bufed_list_marks qs bs s w :
  get_window qs s = Some w -> is_Some (find_buffer qs (s_b w)) ->
  exists qs' bs',
    build_bufed_list E qs bs s = Some (qs', bs') /\
    rows_of_the_registry E (put_state qs' (s_b w) bs') bs'.
Proof.
  intros Hw Hb.
  destruct (build_bufed_list_ok E qs bs s w Hperm Hw Hb) as (qs' & Hbuild & Hf).
  exists qs', (rebuilt E qs bs). split; [exact Hbuild|].
  eapply rebuilt_rows_of_the_registry. exact Hf.
Qed.

(** C10.  After a rebuild no row carries a selection mark, and there is a
    row for each listed buffer of the registry; the rebuild does not read
    the rows it replaces, so it leaves the same whatever they were and
    whatever marks they carried.  The same holds after a refresh (with or
    without the filter toggle), after a change of the sort order and
    after a kill, which all return and end in a rebuild.  (For the kill:
    a row that carries the name of the buffer of the list is a row of
    that buffer, so that no kill request names it.) *)
Theorem rebuild_clears_selection qs bs s w :
  get_window qs s = Some w -> is_Some (find_buffer qs (s_b w)) ->
  (exists qs' bs',
     build_bufed_list E qs bs s = Some (qs', bs') /\
     rows_of_the_registry E qs' bs' /\
     forall old,
       build_bufed_list E qs (set_bs_items bs old) s = Some (qs', bs')) /\
  (bufed_get_state qs w = Some bs ->
   (forall toggle, exists qs' bs',
      bufed_refresh E qs s toggle = Some qs' /\
      state_at qs' (s_b w) = Some bs' /\
      rows_of_the_registry E qs' bs') /\
   (forall order, exists qs' bs',
      bufed_set_sort E qs s order = Some qs' /\
      state_at qs' (s_b w) = Some bs' /\
      rows_of_the_registry E qs' bs') /\
   (Forall (label_spares_the_list w qs) (bs_items bs) ->
    exists qs' bs',
      bufed_kill_buffer E qs s = Some qs' /\
      state_at qs' (s_b w) = Some bs' /\
      rows_of_the_registry E qs' bs')).
Proof.
  intros Hw Hb. split; [|intros Hbs; split; [|split]].
  - destruct (build_bufed_list_ok E qs bs s w Hperm Hw Hb)
      as (qs' & Hbuild & Hf).
    exists qs', (rebuilt E qs bs). split; [exact Hbuild|]. split.
    + exact (rebuilt_rows_of_the_registry qs bs _ _ qs' (s_b w) Hf).
    + intros old. exact Hbuild.
  - intros toggle. unfold bufed_refresh. rewrite Hw.
    cbn [mbind option_bind]. rewrite Hbs.
    set (bs1 := if negb (toggle =? 0) then _ else _).
    destruct (build_bufed_list_marks qs bs1 s w Hw Hb)
      as (qs' & bs' & Hbuild & Hrows).
    rewrite Hbuild. cbn [mbind option_bind].
    eexists _, _. split; [reflexivity|].
    split; [apply state_at_put | exact Hrows].
  - intros order. unfold bufed_set_sort. rewrite Hw.
    cbn [mbind option_bind]. rewrite Hbs.
    set (qs0 := if bufed_sort_order qs =? order then _ else _).
    assert (Hw0 : get_window qs0 s = Some w)
      by (subst qs0; destruct (bufed_sort_order qs =? order); exact Hw).
    assert (Hb0 : is_Some (find_buffer qs0 (s_b w)))
      by (subst qs0; destruct (bufed_sort_order qs =? order); exact Hb).
    destruct (build_bufed_list_marks qs0 (set_bs_last_index bs (-1)) s w
                Hw0 Hb0) as (qs' & bs' & Hbuild & Hrows).
    rewrite Hbuild. cbn [mbind option_bind].
    eexists _, _. split; [reflexivity|].
    split; [apply state_at_put | exact Hrows].
  - intros Hlabels. unfold bufed_kill_buffer. rewrite Hw.
    cbn [mbind option_bind]. rewrite Hbs.
    unfold list_get_pos. destruct Hb as [rb Hrb]. rewrite Hrb.
    cbn [mbind option_bind].
    assert (Hready : list_in_place s w qs qs).
    { split; [exact Hw|]. split; [eexists; exact Hbs|].
      split; [eexists; exact Hrb | auto]. }
    destruct (string_selection_iterate_inv (bufed_kill_item E s)
                (list_in_place s w qs) (label_spares_the_list w qs)
                (fun o item i => bufed_kill_item_in_place E s w qs o item i)
                (bs_items bs)
                (fst (eb_get_pos E (b_text rb) (s_offset w))) qs
                Hlabels Hready)
      as (items & qs1 & Hiter & (Hw1 & [bs1 Hst1] & Hb1 & _) & _).
    rewrite Hiter. cbn [mbind option_bind]. rewrite Hst1.
    cbn [mbind option_bind].
    set (qs2 := put_state qs1 (s_b w) (set_bs_items bs1 items)).
    destruct (bufed_select_preview_ok E qs2 s w Hw1)
      as (qs3 & w3 & Hsel & Hw3 & Hb3 & [bs3 Hst3] & _).
    { subst qs2. rewrite state_at_put. eexists; reflexivity. }
    { exact Hb1. }
    rewrite Hsel. cbn [mbind option_bind]. rewrite Hst3.
    cbn [mbind option_bind].
    destruct (build_bufed_list_ok E qs3 bs3 s w3 Hperm Hw3 Hb3)
      as (qs4 & Hbuild & Hf).
    rewrite Hbuild. cbn [mbind option_bind].
    eexists _, _. split; [reflexivity|].
    split; [apply state_at_put|].
    eapply rebuilt_rows_of_the_registry. exact Hf.
Qed.

End SelectionMarks.

(** Witness of C10: the sample editor with its first two rows marked; the
    kill command leaves no mark. *)
Lemma rebuild_clears_selection_witness :
  List.map it_selected (bs_items marked_state) = [true; true; false] /\
  exists qs' bs',
    bufed_kill_buffer ref_env marked_editor 1%positive = Some qs' /\
    state_at qs' 4%positive = Some bs' /\
    rows_of_the_registry ref_env qs' bs'.
Proof.
  split; [vm_compute; reflexivity|].
  destruct (rebuild_clears_selection ref_env ref_env_qsort_permutes eq_refl
              marked_editor marked_state 1%positive marked_window)
    as (_ & Hcommands).
  - vm_compute. reflexivity.
  - eexists. vm_compute. reflexivity.
  - destruct Hcommands as (_ & _ & Hkill); [vm_compute; reflexivity|].
    apply Hkill.
    repeat constructor; intros r Hr Ha Hn; vm_compute in Hr;
      repeat (destruct Hr as [<-|Hr]; [first [discriminate Ha | discriminate Hn]|]);
      destruct Hr.
Defined.

(** * Part III: further properties of the code *)

(** ** The comparator is a consistent order *)

Lemma diff_order_wide {A : Type} (f : A -> Z) :
  (forall x y, int_min <= f x - f y <= int_max) ->
  cmp_order (fun x y => int_sub (f x) (f y)).
Proof.
  intros Hf.
  assert (Hsub : forall x y, int_sub (f x) (f y) = f x - f y)
    by (intros x y; apply to_int_small, Hf).
  constructor; intros; rewrite !Hsub in *; lia.
Qed.

Lemma neg_order {A : Type} (c : A -> A -> Z) :
  cmp_order c -> cmp_order (fun x y => - c x y).
Proof.
  intros Hc. constructor.
  - intros x y. pose proof (co_anti c Hc y x). lia.
  - intros x y z.
    pose proof (co_anti c Hc y x). pose proof (co_anti c Hc z y).
    pose proof (co_anti c Hc z x). pose proof (co_lt_lt c Hc z y x). lia.
  - intros x y z. pose proof (co_eq_eq c Hc x y z). lia.
  - intros x y z.
    pose proof (co_anti c Hc z y). pose proof (co_anti c Hc z x).
    pose proof (co_zero_sym c x y Hc).
    pose proof (co_lt_eq c Hc z y x). lia.
  - intros x y z.
    pose proof (co_anti c Hc y x). pose proof (co_anti c Hc z x).
    pose proof (co_zero_sym c y z Hc).
    pose proof (co_eq_lt c Hc z y x). lia.
Qed.

Section FullOrder.
Variable E : Env.
Hypothesis Hcoll : collation_order E.
Hypothesis Hsys : 0 <= BF_SYSTEM E <= int_max.

Lemma modified_key_range b : - 2 ^ 30 < modified_key b < 2 ^ 30.
Proof.
  unfold modified_key.
  destruct (Z.ltb_spec (- 2 ^ 30) (b_modified b)),
    (Z.ltb_spec (b_modified b) (2 ^ 30)); simpl; lia.
Qed.

Lemma modified_key_in_range b :
  modified_in_range b -> modified_key b = b_modified b.
Proof.
  unfold modified_in_range, modified_key. intros [Hlo Hhi].
  apply Z.ltb_lt in Hlo, Hhi. rewrite Hlo, Hhi. reflexivity.
Qed.

Lemma full_order_order sort_mode : cmp_order (full_order E sort_mode).
Proof.
  unfold full_order. apply lex_order.
  - apply (diff_order_wide (fun b => Z.land (b_flags b) (BF_SYSTEM E))).
    intros x y.
    pose proof (land_mask_range (b_flags x) (BF_SYSTEM E) (proj1 Hsys)).
    pose proof (land_mask_range (b_flags y) (BF_SYSTEM E) (proj1 Hsys)).
    unfold int_min, int_max in *. lia.
  - assert (Hrest : cmp_order
                      (if mask_set sort_mode BUFED_SORT_DESCENDING
                       then (fun b1 b2 => - keys_order E sort_mode b1 b2)
                       else keys_order E sort_mode)).
    { destruct (mask_set sort_mode BUFED_SORT_DESCENDING);
        [apply neg_order|]; apply keys_order_order, Hcoll. }
    unfold lex_if. destruct (mask_set sort_mode BUFED_SORT_MODIFIED);
      [|exact Hrest].
    apply lex_order; [|exact Hrest].
    apply (diff_order_wide (fun b => - modified_key b)). intros x y.
    pose proof (modified_key_range x). pose proof (modified_key_range y).
    unfold int_min, int_max. lia.
Qed.

(** On buffers whose modification marks are in range the comparator is
    that order. *)
Lemma bufed_sort_func_full sort_mode b1 b2 :
  modified_in_range b1 -> modified_in_range b2 ->
  bufed_sort_func E sort_mode b1 b2 = full_order E sort_mode b1 b2.
Proof.
  intros H1 H2.
  assert (Hmod : int_sub (- modified_key b1) (- modified_key b2)
                 = int_sub (b_modified b2) (b_modified b1)).
  { rewrite !modified_key_in_range by assumption.
    unfold int_sub. f_equal. lia. }
  pose proof (int_neg_small (sort_keys E sort_mode b1 b2)
                (sort_keys_range E Hcoll sort_mode b1 b2)) as Hneg.
  rewrite sort_keys_lex in Hneg.
  unfold bufed_sort_func, full_order, lex_if. rewrite sort_keys_lex.
  destruct (mask_set sort_mode BUFED_SORT_MODIFIED),
    (mask_set sort_mode BUFED_SORT_DESCENDING);
    unfold lex; cbv beta; rewrite ?Hmod, ?Hneg; simpl;
    repeat match goal with
           | |- context [?a =? 0] => destruct (a =? 0); simpl
           end; reflexivity.
Qed.

(** The two facts a sorting routine needs of the comparator. *)
Lemma bufed_sort_func_consistent sort_mode b1 b2 b3 :
  modified_in_range b1 -> modified_in_range b2 -> modified_in_range b3 ->
  (bufed_sort_func E sort_mode b1 b2 < 0
   <-> 0 < bufed_sort_func E sort_mode b2 b1) /\
  (bufed_sort_func E sort_mode b1 b2 <= 0 ->
   bufed_sort_func E sort_mode b2 b3 <= 0 ->
   bufed_sort_func E sort_mode b1 b3 <= 0).
Proof.
  intros H1 H2 H3. rewrite !bufed_sort_func_full by assumption.
  pose proof (full_order_order sort_mode) as Hc.
  split; [apply (co_anti _ Hc)|].
  pose proof (co_lt_lt _ Hc b1 b2 b3). pose proof (co_eq_eq _ Hc b1 b2 b3).
  pose proof (co_eq_lt _ Hc b1 b2 b3). pose proof (co_lt_eq _ Hc b1 b2 b3).
  lia.
Qed.

(** X1.  Under every sort mask the comparator is consistent, as a sorting
    routine needs it: a buffer ties with itself, exchanging the arguments
    exchanges the sign, "before or tied" is transitive, and only buffers
    of the same name tie. *)
Theorem bufed_sort_func_is_an_order sort_mode b1 b2 b3 :
  modified_in_range b1 -> modified_in_range b2 -> modified_in_range b3 ->
  bufed_sort_func E sort_mode b1 b1 = 0 /\
  (bufed_sort_func E sort_mode b1 b2 < 0
   <-> 0 < bufed_sort_func E sort_mode b2 b1) /\
  (bufed_sort_func E sort_mode b1 b2 <= 0 ->
   bufed_sort_func E sort_mode b2 b3 <= 0 ->
   bufed_sort_func E sort_mode b1 b3 <= 0) /\
  (bufed_sort_func E sort_mode b1 b2 = 0 -> b_name b1 = b_name b2).
Proof.
  intros H1 H2 H3. rewrite !bufed_sort_func_full by assumption.
  pose proof (full_order_order sort_mode) as Hc.
  split; [apply co_refl, Hc|]. split; [apply (co_anti _ Hc)|]. split.
  - pose proof (co_lt_lt _ Hc b1 b2 b3). pose proof (co_eq_eq _ Hc b1 b2 b3).
    pose proof (co_eq_lt _ Hc b1 b2 b3). pose proof (co_lt_eq _ Hc b1 b2 b3).
    lia.
  - unfold full_order. intros Hz. apply lex_zero in Hz.
    assert (Hk : keys_order E sort_mode b1 b2 = 0).
    { unfold lex_if in Hz.
      destruct (mask_set sort_mode BUFED_SORT_MODIFIED);
        [apply lex_zero in Hz|];
        destruct (mask_set sort_mode BUFED_SORT_DESCENDING); lia. }
    apply (sort_keys_zero_name E Hcoll sort_mode). rewrite sort_keys_lex.
    exact Hk.
Qed.

End FullOrder.

(** ** What a rebuild leaves *)

Lemma find_buffer_upd_same qs b (f : EditBuffer -> EditBuffer) :
  (forall r, b_addr (f r) = b_addr r) ->
  find_buffer (upd_buffer qs b f) b = f <$> find_buffer qs b.
Proof.
  intros Hf. unfold find_buffer, upd_buffer. simpl.
  induction (first_buffer qs) as [|x l IH]; simpl; [reflexivity|].
  destruct (Pos.eqb_spec (b_addr x) b) as [Heq|Hne].
  - rewrite Hf, Heq, Pos.eqb_refl. reflexivity.
  - destruct (Pos.eqb_spec (b_addr x) b); [contradiction | exact IH].
Qed.

Lemma frame_find_other E b s qs qs' a :
  frame E b s qs qs' -> a <> b -> find_buffer qs' a = find_buffer qs a.
Proof.
  intros [Hb _ _ _ _ _ _] Hne. unfold find_buffer. revert Hb.
  generalize (first_buffer qs) (first_buffer qs').
  induction 1 as [|x y l l' Hxy Hl IH]; simpl; [reflexivity|].
  destruct Hxy as (Ha & Hother & _). rewrite Ha.
  destruct (Pos.eqb_spec (b_addr x) a) as [Heq|Hneq]; [|exact IH].
  rewrite Hother by congruence. reflexivity.
Qed.

Lemma frame_window_other E b s qs qs' x :
  frame E b s qs qs' -> x <> s -> get_window qs' x = get_window qs x.
Proof.
  intros [_ Hw _ _ _ _ _] Hne. unfold get_window. revert Hw.
  generalize (windows qs) (windows qs').
  induction 1 as [|u v l l' Huv Hl IH]; simpl; [reflexivity|].
  destruct Huv as (Hi & _ & Hother). rewrite Hi.
  destruct (Pos.eqb_spec (s_id u) x) as [Heq|Hneq]; [|exact IH].
  rewrite Hother by congruence. reflexivity.
Qed.

Section RebuildResult.
Variable E : Env.

(** The rebuild returns whenever the rows it made refer to buffers of the
    registry; it then leaves the buffer of the list unmodified and
    read-only. *)
Lemma build_bufed_list_display qs bs s w rb :
  Forall (fun it => is_Some (deref qs (it_opaque it)))
         (List.map fst (build_items E qs bs)) ->
  get_window qs s = Some w ->
  find_buffer qs (s_b w) = Some rb ->
  exists qs' r',
    build_bufed_list E qs bs s = Some (qs', rebuilt E qs bs)
    /\ frame E (s_b w) s qs qs'
    /\ find_buffer qs' (s_b w) = Some r'
    /\ b_modified r' = 0
    /\ b_flags r' = Z.lor (b_flags rb) (BF_READONLY E).
Proof.
  intros Hlive Hw Hrb. unfold build_bufed_list. rewrite Hw.
  cbn [mbind option_bind].
  assert (Hs : is_Some (get_window qs s)) by (eexists; exact Hw).
  assert (Hb : is_Some (find_buffer qs (s_b w))) by (eexists; exact Hrb).
  unfold eb_clear. run E (s_b w) s qs.
  set (qs1 := upd_buffer qs (s_b w) _).
  assert (Hf1 : frame E (s_b w) s qs qs1) by (subst qs1; in_frame).
  destruct (render_rows_ok E (s_b w) s
              (set_bs_items (set_bs_sort_mode bs (bufed_sort_order qs))
                 (List.map fst (build_items E qs bs)))
              (List.map fst (build_items E qs bs)) 0 0 qs1)
    as (line & qs2 & Hrows & Hf2).
  - eapply frame_is_window; eassumption.
  - eapply frame_is_buffer; eassumption.
  - eapply Forall_impl; [exact Hlive|].
    intros it. eapply frame_is_deref. exact Hf1.
  - simpl bs_items. rewrite Hrows. cbn [mbind option_bind].
    assert (Hf02 : frame E (s_b w) s qs qs2) by (eapply frame_trans; eassumption).
    destruct (frame_find_buffer _ _ _ _ _ _ _ Hf02 Hrb)
      as (r2 & Hr2 & _ & _ & Hfl2).
    set (f := fun r1 : EditBuffer =>
                set_b_status r1 (Z.lor (b_flags r1) (BF_READONLY E)) 0).
    assert (Hfinal : find_buffer (upd_buffer qs2 (s_b w) f) (s_b w)
                     = Some (f r2))
      by (rewrite find_buffer_upd_same, Hr2; [reflexivity | reflexivity]).
    assert (Hflags : b_flags (f r2) = Z.lor (b_flags rb) (BF_READONLY E)).
    { subst f. simpl. destruct Hfl2 as [->| ->]; [reflexivity|].
      rewrite <- Z.lor_assoc, Z.lor_diag. reflexivity. }
    destruct ((0 <=? _) && (_ <? line)); run E (s_b w) s qs;
      eexists _, (f r2);
      (split; [reflexivity|]); (split; [in_frame|]);
      (split; [exact Hfinal|]); (split; [reflexivity | exact Hflags]).
Qed.

End RebuildResult.

Section RebuildFacts.
Variable E : Env.

(** X2.  What a rebuild leaves besides the rows: the remembered row index
    is reset, the state has the global sort order and keeps its filter and
    its references, the buffer of the list is unmodified and read-only,
    every other buffer and every other window is as before, and nothing
    was asked of the registry. *)
Theorem rebuild_postconditions qs bs s w rb :
  qsort_permutes E ->
  get_window qs s = Some w ->
  find_buffer qs (s_b w) = Some rb ->
  exists qs' bs' r',
    build_bufed_list E qs bs s = Some (qs', bs') /\
    bs_last_index bs' = -1 /\
    bs_sort_mode bs' = bufed_sort_order qs /\
    bs_flags bs' = bs_flags bs /\
    bs_cur_buffer bs' = bs_cur_buffer bs /\
    bs_cur_window bs' = bs_cur_window bs /\
    find_buffer qs' (s_b w) = Some r' /\
    b_modified r' = 0 /\
    b_flags r' = Z.lor (b_flags rb) (BF_READONLY E) /\
    (forall a, a <> s_b w -> find_buffer qs' a = find_buffer qs a) /\
    (forall x, x <> s -> get_window qs' x = get_window qs x) /\
    kill_requests qs' = kill_requests qs /\
    bufed_sort_order qs' = bufed_sort_order qs.
Proof.
  intros Hperm Hw Hrb.
  destruct (build_bufed_list_display E qs bs s w rb
              (build_items_live E qs bs Hperm) Hw Hrb)
    as (qs' & r' & Hbuild & Hf & Hr' & Hmod & Hfl).
  exists qs', (rebuilt E qs bs), r'.
  split; [exact Hbuild|]. do 5 (split; [reflexivity|]).
  do 3 (split; [assumption|]).
  split; [intros a Ha; eapply frame_find_other; eassumption|].
  split; [intros x Hx; eapply frame_window_other; eassumption|].
  split; [exact (frame_kills _ _ _ _ _ Hf) | exact (frame_order _ _ _ _ _ Hf)].
Qed.

(** X3.  With a sort order set, the rows a rebuild leaves are the listed
    buffers rearranged, in the order of the comparator: no row goes after
    a row it should precede. *)
Theorem rebuild_sorts_the_rows qs bs s w :
  qsort_permutes E -> qsort_sorts E -> collation_order E ->
  0 <= BF_SYSTEM E <= int_max ->
  Forall modified_in_range (first_buffer qs) ->
  bufed_sort_order qs <> 0 ->
  get_window qs s = Some w -> is_Some (find_buffer qs (s_b w)) ->
  exists qs' bs',
    build_bufed_list E qs bs s = Some (qs', bs') /\
    bs_items bs' = List.map fst (build_items E qs bs) /\
    Permutation (build_items E qs bs) (listed_rows E qs bs) /\
    StronglySorted (cmp_le (row_cmp E (bufed_sort_order qs)))
                   (build_items E qs bs).
Proof.
  intros Hperm Hsorts Hcoll Hsys Hmod Horder Hw Hb.
  destruct (build_bufed_list_ok E qs bs s w Hperm Hw Hb) as (qs' & Hbuild & _).
  exists qs', (rebuilt E qs bs). split; [exact Hbuild|].
  split; [reflexivity|]. split; [apply build_items_perm, Hperm|].
  rewrite build_items_sorted by exact Horder.
  apply (Hsorts _ (row_cmp E (bufed_sort_order qs))).
  assert (Hrange : forall p, In p (listed_rows E qs bs) ->
                             modified_in_range (snd p)).
  { intros [it r] Hin. apply listed_rows_In in Hin as (_ & Hr & _).
    rewrite List.Forall_forall in Hmod. apply Hmod, Hr. }
  split.
  - intros p q Hp Hq.
    destruct (bufed_sort_func_consistent E Hcoll Hsys (bufed_sort_order qs)
                (snd p) (snd q) (snd p)) as (Hanti & _); auto.
    unfold row_cmp. lia.
  - intros p q r Hp Hq Hr.
    destruct (bufed_sort_func_consistent E Hcoll Hsys (bufed_sort_order qs)
                (snd p) (snd q) (snd r)) as (_ & Htrans); auto.
Qed.

(** X4.  The unsorted command clears the sort order whatever it was, and
    the rows it leaves are the listed buffers in the order of the registry,
    each labelled with the name of its buffer and referring to it. *)
Theorem unsorted_lists_in_registry_order qs s w bs :
  get_window qs s = Some w -> is_Some (find_buffer qs (s_b w)) ->
  bufed_get_state qs w = Some bs ->
  exists qs' bs',
    bufed_set_sort E qs s 0 = Some qs' /\
    state_at qs' (s_b w) = Some bs' /\
    bufed_sort_order qs' = 0 /\
    bs_items bs'
    = List.map fresh_item (List.filter (listed E bs) (first_buffer qs)).
Proof.
  intros Hw [rb Hrb] Hbs. unfold bufed_set_sort. rewrite Hw.
  cbn [mbind option_bind]. rewrite Hbs.
  set (qs0 := if bufed_sort_order qs =? 0 then _ else _).
  assert (Hqs0 : qs0 = set_bufed_sort_order qs 0)
    by (subst qs0; destruct (bufed_sort_order qs =? 0); reflexivity).
  rewrite Hqs0.
  assert (Hitems : build_items E (set_bufed_sort_order qs 0)
                     (set_bs_last_index bs (-1))
                   = listed_rows E qs bs)
    by (rewrite build_items_unsorted by reflexivity; reflexivity).
  destruct (build_bufed_list_display E (set_bufed_sort_order qs 0)
              (set_bs_last_index bs (-1)) s w rb)
    as (qs' & r' & Hbuild & Hf & _); [|exact Hw|exact Hrb|].
  - rewrite Hitems. apply List.Forall_forall. intros it Hin.
    apply in_map_iff in Hin as ([it' r] & <- & Hin).
    apply listed_rows_In in Hin as (-> & Hr & _).
    simpl. apply (In_find_buffer qs r), Hr.
  - rewrite Hbuild. cbn [mbind option_bind].
    eexists _, _. split; [reflexivity|]. split; [apply state_at_put|].
    split; [exact (frame_order _ _ _ _ _ Hf)|].
    unfold rebuilt. simpl bs_items. rewrite Hitems. unfold listed_rows.
    rewrite List.map_map. reflexivity.
Qed.

End RebuildFacts.

(** ** The columns of a row *)

Lemma length_append s1 s2 :
  String.length (String.append s1 s2)
  = (String.length s1 + String.length s2)%nat.
Proof. induction s1 as [|c s1 IH]; simpl; [reflexivity | rewrite IH; reflexivity]. Qed.

Lemma length_spaces n : String.length (spaces n) = n.
Proof. unfold spaces. induction n as [|n IH]; simpl; [reflexivity | rewrite IH; reflexivity]. Qed.

Lemma length_substring s : forall n m,
  (n + m <= String.length s)%nat -> String.length (substring n m s) = m.
Proof.
  induction s as [|c s IH]; intros n m Hle; simpl in *.
  - destruct n, m; simpl; lia.
  - destruct n as [|n].
    + destruct m as [|m]; simpl; [reflexivity|].
      rewrite (IH 0%nat m) by lia. reflexivity.
    + apply IH. lia.
Qed.

Lemma length_pad_right s width :
  String.length (pad_right s width) = Nat.max (String.length s) width.
Proof. unfold pad_right. rewrite length_append, length_spaces. lia. Qed.

Lemma prefix_append s1 s2 : String.prefix s1 (String.append s1 s2) = true.
Proof.
  induction s1 as [|c s1 IH]; simpl; [destruct s2; reflexivity|].
  destruct (ascii_dec c c); [exact IH | contradiction].
Qed.

(** X5.  The flag and name columns have a fixed width, whatever the
    buffer and its name: three bytes for the flag field and [COLWIDTH]
    bytes for the name, so the columns that follow are aligned.  A name of
    at most [COLWIDTH] bytes is shown whole; a longer one is cut to its
    first 12 bytes, three dots and its last 5 bytes. *)
Theorem row_columns_have_fixed_width (E : Env) (r : EditBuffer)
  (str : string) :
  String.length (String.append " " (pad_right (row_flags E r) 2)) = 3%nat /\
  Z.of_nat (String.length (name_field str)) = COLWIDTH /\
  (Z.of_nat (String.length str) <= COLWIDTH ->
   String.prefix str (name_field str) = true) /\
  (COLWIDTH < Z.of_nat (String.length str) ->
   name_field str
   = String.append (substring 0 12 str)
       (String.append "..." (substring (String.length str - 5) 5 str))).
Proof.
  split; [|split; [|split]].
  - rewrite length_append, length_pad_right. unfold row_flags.
    destruct (mask_set (b_flags r) (BF_SYSTEM E)); [reflexivity|].
    destruct (negb (b_modified r =? 0)); [reflexivity|].
    destruct (mask_set (b_flags r) (BF_READONLY E)); reflexivity.
  - unfold name_field, COLWIDTH.
    destruct (Z.ltb_spec 20 (Z.of_nat (String.length str))) as [Hlong|Hshort].
    + rewrite !length_append, !length_substring by (simpl Z.to_nat; lia).
      reflexivity.
    + rewrite length_pad_right. change (Z.to_nat 20) with 20%nat. lia.
  - intros Hshort. unfold name_field.
    replace (COLWIDTH <? Z.of_nat (String.length str)) with false
      by (symmetry; apply Z.ltb_ge; exact Hshort).
    apply prefix_append.
  - intros Hlong. unfold name_field.
    replace (COLWIDTH <? Z.of_nat (String.length str)) with true
      by (symmetry; apply Z.ltb_lt; exact Hlong).
    reflexivity.
Qed.

(** ** More on the comparator *)

Section ComparatorMore.
Variable E : Env.

(** X6.  When no earlier rule decides, a name that starts with a star
    compares after a name that does not, whatever the collation says; and
    unlike the system rule this one follows the direction: under a
    descending mask the starred name compares first. *)
Theorem starred_names_last_until_reversed sort_mode b1 b2 :
  same_system_flag E b1 b2 ->
  modified_rule_decides sort_mode b1 b2 = false ->
  mask_set sort_mode BUFED_SORT_TIME = false ->
  mask_set sort_mode BUFED_SORT_SIZE = false ->
  mask_set sort_mode BUFED_SORT_FILENAME = false ->
  starred (b_name b1) = true -> starred (b_name b2) = false ->
  bufed_sort_func E sort_mode b1 b2
  = (if mask_set sort_mode BUFED_SORT_DESCENDING then -1 else 1) /\
  bufed_sort_func E sort_mode b2 b1
  = (if mask_set sort_mode BUFED_SORT_DESCENDING then 1 else -1).
Proof.
  intros Htie Hmod Ht Hs Hf Hs1 Hs2. unfold same_system_flag in Htie.
  unfold modified_rule_decides in Hmod.
  assert (Hmod' : mask_set sort_mode BUFED_SORT_MODIFIED
                  && negb (int_sub (b_modified b1) (b_modified b2) =? 0)
                  = false).
  { apply andb_false_iff in Hmod as [Hm|Hm]; [rewrite Hm; reflexivity|].
    apply andb_false_iff. right. apply negb_false_iff in Hm.
    apply Z.eqb_eq in Hm. apply negb_false_iff, Z.eqb_eq.
    unfold int_sub, to_int in *.
    assert (Hd : (b_modified b2 - b_modified b1) mod 2 ^ 32 = 0).
    { pose proof (Z.mod_pos_bound (b_modified b2 - b_modified b1 + 2 ^ 31)
                    (2 ^ 32) ltac:(lia)).
      rewrite <- (Z.sub_add (2 ^ 31) (b_modified b2 - b_modified b1)).
      rewrite <- Zplus_mod_idemp_l.
      replace (b_modified b2 - b_modified b1 - 2 ^ 31)
        with (b_modified b2 - b_modified b1 + 2 ^ 31 + -1 * 2 ^ 32) by lia.
      rewrite Z.mod_add by lia.
      replace ((b_modified b2 - b_modified b1 + 2 ^ 31) mod 2 ^ 32)
        with (2 ^ 31) by lia.
      reflexivity. }
    apply Z.mod_divide in Hd; [|lia]. destruct Hd as [k Hk].
    replace (b_modified b1 - b_modified b2 + 2 ^ 31)
      with (2 ^ 31 + (- k) * 2 ^ 32) by lia.
    rewrite Z.mod_add by lia. reflexivity. }
  unfold bufed_sort_func. rewrite Htie, int_sub_diag, Hmod, Hmod'.
  unfold sort_keys. rewrite Ht, Hs, Hf. unfold sort_by_name.
  rewrite Hs1, Hs2. simpl.
  destruct (mask_set sort_mode BUFED_SORT_DESCENDING); split; reflexivity.
Qed.

(** X7.  With the filename key deciding, a buffer without a file name
    against one with a file name gets the first byte of that name, as a
    [char], for result: it compares last when that byte is an ASCII
    character, and first when [char] is signed and the byte is 128 or
    more. *)
Theorem empty_filename_against_first_byte sort_mode b1 b2 c rest :
  same_system_flag E b1 b2 ->
  modified_rule_decides sort_mode b1 b2 = false ->
  mask_set sort_mode BUFED_SORT_TIME = false ->
  mask_set sort_mode BUFED_SORT_SIZE = false ->
  mask_set sort_mode BUFED_SORT_FILENAME = true ->
  mask_set sort_mode BUFED_SORT_DESCENDING = false ->
  b_filename b1 = EmptyString -> b_filename b2 = String c rest ->
  c <> zero ->
  bufed_sort_func E sort_mode b1 b2 = char_val E c /\
  ((N_of_ascii c < 128)%N -> 0 < bufed_sort_func E sort_mode b1 b2) /\
  (char_signed E = true -> (128 <= N_of_ascii c)%N ->
   bufed_sort_func E sort_mode b1 b2 < 0).
Proof.
  intros Htie Hmod Ht Hs Hf Hd Hf1 Hf2 Hc. unfold same_system_flag in Htie.
  unfold modified_rule_decides in Hmod.
  assert (Hval : char_val E c <> 0 /\ -128 <= char_val E c <= 255).
  { split; [|apply char_val_range]. unfold char_val.
    pose proof (N_ascii_bounded c).
    assert (N_of_ascii c <> 0%N).
    { intros H0. apply Hc. rewrite <- (ascii_N_embedding c), H0. reflexivity. }
    destruct (char_signed E); simpl;
      [destruct (Z.leb_spec 128 (Z.of_N (N_of_ascii c)))|]; lia. }
  assert (Hres : bufed_sort_func E sort_mode b1 b2 = char_val E c).
  { unfold bufed_sort_func. rewrite Htie, int_sub_diag, Hmod.
    unfold sort_keys. rewrite Ht, Hs, Hf, Hd. unfold sort_by_filename.
    rewrite Hf1, Hf2. simpl first_char. unfold int_sub.
    rewrite Z.sub_0_r, to_int_small by (unfold int_min, int_max; lia).
    destruct (Z.eqb_spec (char_val E c) 0); [lia | reflexivity]. }
  split; [exact Hres|]. rewrite Hres. unfold char_val.
  pose proof (N_ascii_bounded c).
  assert (N_of_ascii c <> 0%N).
  { intros H0. apply Hc. rewrite <- (ascii_N_embedding c), H0. reflexivity. }
  split.
  - intros Hascii.
    replace (128 <=? Z.of_N (N_of_ascii c)) with false
      by (symmetry; apply Z.leb_gt; lia).
    rewrite andb_false_r. lia.
  - intros -> Hhigh.
    replace (128 <=? Z.of_N (N_of_ascii c)) with true
      by (symmetry; apply Z.leb_le; lia).
    simpl. lia.
Qed.

(** X8.  The time key comes first in the loop of keys: when it is active
    and the modification times differ, the older buffer compares first
    under an ascending mask and last under a descending one, whatever the
    other keys and the names. *)
Theorem time_key_decides_first sort_mode b1 b2 :
  same_system_flag E b1 b2 ->
  modified_rule_decides sort_mode b1 b2 = false ->
  mask_set sort_mode BUFED_SORT_TIME = true ->
  b_mtime b1 < b_mtime b2 ->
  bufed_sort_func E sort_mode b1 b2
  = (if mask_set sort_mode BUFED_SORT_DESCENDING then 1 else -1).
Proof.
  intros Htie Hmod Ht Hlt. unfold same_system_flag in Htie.
  unfold modified_rule_decides in Hmod.
  unfold bufed_sort_func. rewrite Htie, int_sub_diag, Hmod.
  unfold sort_keys. rewrite Ht.
  replace (b_mtime b1 =? b_mtime b2) with false
    by (symmetry; apply Z.eqb_neq; lia).
  replace (b_mtime b1 <? b_mtime b2) with true
    by (symmetry; apply Z.ltb_lt; lia).
  simpl. destruct (mask_set sort_mode BUFED_SORT_DESCENDING); reflexivity.
Qed.

End ComparatorMore.

Section KillItem.
Variable E : Env.

(** X9.  A kill action on a row that resolves to a buffer other than the
    one of the list asks [do_kill_buffer] for the buffer named by the
    label of the row, then clears the reference of the row, and the
    current-buffer reference of the list if it was that buffer, without
    looking at what the registry did.  Besides the call, the action
    changes nothing but that reference of the list. *)
Theorem kill_item_on_a_live_row qs s w bs item index a :
  get_window qs s = Some w ->
  bufed_get_state qs w = Some bs ->
  check_buffer qs (it_opaque item) = Some a ->
  a <> s_b w ->
  let killed := do_kill_buffer E qs (it_str item) in
  exists qs',
    bufed_kill_item E s qs item index = Some (qs', set_opaque item None) /\
    kill_requests qs' = kill_requests qs ++ [it_str item] /\
    first_buffer qs' = first_buffer killed /\
    windows qs' = windows killed /\
    (bs_cur_buffer bs = Some a ->
     state_at qs' (s_b w)
     = Some (set_bs_refs bs (bs_cur_window bs) None (bs_last_buffer bs))) /\
    (bs_cur_buffer bs <> Some a -> qs' = killed).
Proof.
  intros Hw Hbs Hck Hne killed. unfold bufed_kill_item. rewrite Hck, Hw.
  cbn [mbind option_bind]. rewrite Hbs.
  replace (Pos.eqb a (s_b w)) with false
    by (symmetry; apply Pos.eqb_neq; exact Hne).
  simpl negb. cbv iota.
  change (it_str (set_opaque item (Some a))) with (it_str item).
  fold killed.
  assert (Hreq : kill_requests killed = kill_requests qs ++ [it_str item]).
  { unfold killed, do_kill_buffer.
    destruct (kill_granted E (it_str item)); [|reflexivity].
    destruct (List.find _ _); reflexivity. }
  eexists. split; [reflexivity|].
  destruct (bool_decide_reflect (bs_cur_buffer bs = Some a)) as [Hcur|Hcur].
  - split; [exact Hreq|]. do 2 (split; [reflexivity|]).
    split; [intros _; apply state_at_put | intros Hno; contradiction].
  - split; [exact Hreq|]. do 2 (split; [reflexivity|]).
    split; [intros Hyes; contradiction | reflexivity].
Qed.

End KillItem.

(** ** Select, preview and abort *)

Lemma set_bs_refs_same bs :
  set_bs_refs bs (bs_cur_window bs) (bs_cur_buffer bs) (bs_last_buffer bs)
  = bs.
Proof. destruct bs; reflexivity. Qed.

Section Select.
Variable E : Env.

(** X10.  Select and preview on a row whose buffer is alive, from a list
    whose opening window is still there: the opening window then shows
    that buffer and remembers the buffer the list was opened from as its
    last buffer; no buffer is created, killed or changed.  Select closes
    the window of the list and makes the opening window the active one;
    preview keeps the list open, remembers the row and asks for a full
    redisplay. *)
Theorem select_switches_the_opening_window qs s w bs index item b e temp :
  get_window qs s = Some w ->
  bufed_get_state qs w = Some bs ->
  list_get_pos E qs w = Some index ->
  index_in_range bs index = true ->
  bs_items bs !! Z.to_nat index = Some item ->
  check_buffer qs (it_opaque item) = Some b ->
  check_window qs (bs_cur_window bs) = Some e ->
  e <> s ->
  0 <= temp -> (0 < temp -> index <> bs_last_index bs) ->
  exists qs' we',
    bufed_select E qs s temp = Some qs' /\
    get_window qs' e = Some we' /\
    s_b we' = b /\ s_last_buffer we' = bs_cur_buffer bs /\
    first_buffer qs' = first_buffer qs /\
    kill_requests qs' = kill_requests qs /\
    (temp = 0 ->
     get_window qs' s = None /\ active_window qs' = Some e /\
     state_at qs' (s_b w) = Some bs) /\
    (0 < temp ->
     get_window qs' s = Some w /\ complete_refresh qs' = true /\
     state_at qs' (s_b w) = Some (set_bs_last_index bs index)).
Proof.
  intros Hw Hbs Hidx Hin Hitem Hck Hcw Hne Htemp Hnew.
  apply check_buffer_Some in Hck as [Hop Hlive].
  apply check_window_Some in Hcw as [Hcur [we Hwe]].
  assert (Hck : check_buffer qs (it_opaque item) = Some b).
  { rewrite Hop. simpl. destruct Hlive as [r ->]. reflexivity. }
  assert (Hcw : check_window qs (Some e) = Some e)
    by (simpl; rewrite Hwe; reflexivity).
  assert (Hsame : set_bs_items bs
                    (<[Z.to_nat index := set_opaque item (Some b)]> (bs_items bs))
                  = bs).
  { rewrite <- Hop, set_opaque_same, list_insert_id by exact Hitem.
    apply set_bs_items_same. }
  set (f1 := fun w0 : EditState => set_s_buffer w0 b (s_last_buffer w0)).
  set (f2 := fun w' : EditState => set_s_buffer w' (s_b w') (bs_cur_buffer bs)).
  assert (Hwe1 : get_window (upd_window qs e f1) e = Some (f1 we))
    by (rewrite get_window_upd_same, Hwe; reflexivity).
  assert (Hwe2 : get_window (upd_window (upd_window qs e f1) e f2) e
                 = Some (f2 (f1 we)))
    by (rewrite get_window_upd_same, Hwe1; reflexivity).
  assert (Hs2 : get_window (upd_window (upd_window qs e f1) e f2) s = Some w).
  { rewrite !get_window_upd_other by (auto || reflexivity). exact Hw. }
  assert (Hrun : select_target E qs bs w temp
                 = if (0 <? temp) && (index =? bs_last_index bs)
                   then Some None
                   else Some (Some (bs, Some b, bs_cur_buffer bs, index))).
  { unfold select_target.
    replace (temp <? 0) with false by (symmetry; apply Z.ltb_ge; exact Htemp).
    rewrite Hidx. cbn [mbind option_bind]. rewrite Hin. simpl negb. cbv iota.
    destruct ((0 <? temp) && (index =? bs_last_index bs)); [reflexivity|].
    rewrite Hitem. cbn [mbind option_bind]. rewrite Hck, Hsame. reflexivity. }
  assert (Hfresh : (0 <? temp) && (index =? bs_last_index bs) = false).
  { destruct (Z.ltb_spec 0 temp) as [Hpos|]; [|reflexivity].
    simpl. apply Z.eqb_neq, Hnew, Hpos. }
  unfold bufed_select. rewrite Hw. cbn [mbind option_bind].
  rewrite Hbs, Hrun, Hfresh. cbn [mbind option_bind].
  assert (Hrefs : set_bs_refs bs (Some e) (bs_cur_buffer bs)
                    (bs_last_buffer bs) = bs)
    by (rewrite <- Hcur; apply set_bs_refs_same).
  rewrite Hcur, Hcw, Hrefs.
  unfold switch_to_buffer. fold f1.
  rewrite (with_window_some qs e f1) by (eexists; exact Hwe).
  cbn [mbind option_bind]. fold f2.
  rewrite (with_window_some _ e f2) by (eexists; exact Hwe1).
  cbn [mbind option_bind].
  destruct (Z.leb_spec temp 0) as [Hz|Hpos].
  - eexists _, (f2 (f1 we)). split; [reflexivity|].
    split.
    { change (get_window (do_delete_window
                            (upd_window (upd_window qs e f1) e f2) s) e
              = Some (f2 (f1 we))).
      rewrite get_window_delete_other by exact Hne. exact Hwe2. }
    do 4 (split; [reflexivity|]). split.
    + intros _. split; [|split; [reflexivity | apply state_at_put]].
      change (get_window (do_delete_window
                            (upd_window (upd_window qs e f1) e f2) s) s
              = None).
      apply get_window_deleted.
    + intros Hpos. lia.
  - eexists _, (f2 (f1 we)). split; [reflexivity|].
    split; [exact Hwe2|].
    do 4 (split; [reflexivity|]). split.
    + intros ->. lia.
    + intros _. split; [exact Hs2|]. split; [reflexivity | apply state_at_put].
Qed.

(** X11.  Previewing the row that was previewed last changes nothing:
    this is what keeps the display hook of a popup, which previews at
    every redisplay, from switching buffers again and again. *)
Theorem preview_of_the_same_row_is_idle qs s w bs index temp :
  get_window qs s = Some w ->
  bufed_get_state qs w = Some bs ->
  list_get_pos E qs w = Some index ->
  index_in_range bs index = true ->
  0 < temp -> index = bs_last_index bs ->
  bufed_select E qs s temp = Some qs.
Proof.
  intros Hw Hbs Hidx Hin Htemp Hsame. unfold bufed_select. rewrite Hw.
  cbn [mbind option_bind]. rewrite Hbs. unfold select_target.
  replace (temp <? 0) with false by (symmetry; apply Z.ltb_ge; lia).
  rewrite Hidx. cbn [mbind option_bind]. rewrite Hin. simpl negb. cbv iota.
  replace (0 <? temp) with true by (symmetry; apply Z.ltb_lt; exact Htemp).
  rewrite <- Hsame, Z.eqb_refl. reflexivity.
Qed.

(** X12.  Select on a row whose buffer is dead does not switch any window
    to another buffer, but it still closes the window of the list; the
    dead reference of the row is cleared. *)
Theorem select_on_a_dead_row_still_closes qs s w bs index item :
  get_window qs s = Some w ->
  bufed_get_state qs w = Some bs ->
  list_get_pos E qs w = Some index ->
  index_in_range bs index = true ->
  bs_items bs !! Z.to_nat index = Some item ->
  check_buffer qs (it_opaque item) = None ->
  exists qs' bs',
    bufed_select E qs s 0 = Some qs' /\
    get_window qs' s = None /\
    (forall x, x <> s -> get_window qs' x = get_window qs x) /\
    first_buffer qs' = first_buffer qs /\
    state_at qs' (s_b w) = Some bs' /\
    bs_items bs'
    = <[Z.to_nat index := set_opaque item None]> (bs_items bs).
Proof.
  intros Hw Hbs Hidx Hin Hitem Hck. unfold bufed_select. rewrite Hw.
  cbn [mbind option_bind]. rewrite Hbs. unfold select_target.
  change (0 <? 0) with false. rewrite Hidx. cbn [mbind option_bind].
  rewrite Hin. simpl negb. cbv iota. simpl andb. cbv iota.
  rewrite Hitem. cbn [mbind option_bind]. rewrite Hck.
  cbn [mbind option_bind].
  assert (Hnoswitch :
            forall (e : option wid),
              match e, @None addr with
              | Some e', Some b' =>
                  qs0 ← switch_to_buffer qs e' b';
                  with_window qs0 e'
                    (fun w' => set_s_buffer w' (s_b w') (bs_cur_buffer bs))
              | _, _ => Some qs
              end = Some qs)
    by (intros [e|]; reflexivity).
  destruct (check_window qs _) as [e|]; cbn [mbind option_bind];
    change (0 <=? 0) with true; cbv iota;
    eexists _, _; (split; [reflexivity|]);
    (split; [apply get_window_deleted|]);
    (split; [intros x Hx; apply get_window_delete_other, Hx|]);
    (split; [reflexivity|]); (split; [apply state_at_put | reflexivity]).
Qed.

(** X13.  Abort does not look at the rows and returns whenever its window
    exists: it closes the window of the list, leaves the registry alone,
    and puts the buffer the list was opened from back into the opening
    window when both are still alive. *)
Theorem abort_closes_and_restores qs s w bs temp :
  get_window qs s = Some w ->
  bufed_get_state qs w = Some bs ->
  temp < 0 ->
  exists qs',
    bufed_select E qs s temp = Some qs' /\
    get_window qs' s = None /\
    first_buffer qs' = first_buffer qs /\
    kill_requests qs' = kill_requests qs /\
    (forall e b, check_window qs (bs_cur_window bs) = Some e -> e <> s ->
       check_buffer qs (bs_cur_buffer bs) = Some b ->
       active_window qs' = Some e /\
       exists we', get_window qs' e = Some we' /\ s_b we' = b /\
                   s_last_buffer we'
                   = check_buffer qs (bs_last_buffer bs)) /\
    (check_window qs (bs_cur_window bs) = None \/
     check_buffer qs (bs_cur_buffer bs) = None ->
     forall x, x <> s -> get_window qs' x = get_window qs x).
Proof.
  intros Hw Hbs Htemp. unfold bufed_select. rewrite Hw.
  cbn [mbind option_bind]. rewrite Hbs. unfold select_target.
  replace (temp <? 0) with true by (symmetry; apply Z.ltb_lt; exact Htemp).
  cbn [mbind option_bind].
  replace (temp <=? 0) with true by (symmetry; apply Z.leb_le; lia).
  simpl bs_cur_window. simpl bs_cur_buffer. simpl bs_last_buffer.
  destruct (check_window qs (bs_cur_window bs)) as [e|] eqn:Hcw;
    destruct (check_buffer qs (bs_cur_buffer bs)) as [b|] eqn:Hcb;
    cbn [mbind option_bind].
  - apply check_window_Some in Hcw as [_ [we Hwe]].
    set (f1 := fun w0 : EditState => set_s_buffer w0 b (s_last_buffer w0)).
    set (f2 := fun w' : EditState =>
                 set_s_buffer w' (s_b w')
                   (check_buffer qs (bs_last_buffer bs))).
    assert (Hwe1 : get_window (upd_window qs e f1) e = Some (f1 we))
      by (rewrite get_window_upd_same, Hwe; reflexivity).
    assert (Hwe2 : get_window (upd_window (upd_window qs e f1) e f2) e
                   = Some (f2 (f1 we)))
      by (rewrite get_window_upd_same, Hwe1; reflexivity).
    unfold switch_to_buffer. fold f1.
    rewrite (with_window_some qs e f1) by (eexists; exact Hwe).
    cbn [mbind option_bind]. fold f2.
    rewrite (with_window_some _ e f2) by (eexists; exact Hwe1).
    cbn [mbind option_bind]. cbv iota.
    eexists. split; [reflexivity|].
    split; [apply get_window_deleted|]. do 2 (split; [reflexivity|]).
    split.
    + intros e0 b0 [= <-] Hne [= <-]. split; [reflexivity|].
      exists (f2 (f1 we)). split; [|split; reflexivity].
      change (get_window (do_delete_window
                            (upd_window (upd_window qs e f1) e f2) s) e
              = Some (f2 (f1 we))).
      rewrite get_window_delete_other by exact Hne. exact Hwe2.
    + intros [H|H]; discriminate H.
  - cbv iota. eexists. split; [reflexivity|].
    split; [apply get_window_deleted|]. do 2 (split; [reflexivity|]).
    split; [intros e0 b0 _ _ H; discriminate H|].
    intros _ x Hx. apply get_window_delete_other, Hx.
  - cbv iota. eexists. split; [reflexivity|].
    split; [apply get_window_deleted|]. do 2 (split; [reflexivity|]).
    split; [intros e0 b0 H; discriminate H|].
    intros _ x Hx. apply get_window_delete_other, Hx.
  - cbv iota. eexists. split; [reflexivity|].
    split; [apply get_window_deleted|]. do 2 (split; [reflexivity|]).
    split; [intros e0 b0 H; discriminate H|].
    intros _ x Hx. apply get_window_delete_other, Hx.
Qed.

End Select.

(** ** Clear-modified and toggle-read-only *)

Lemma lor_covers_mask x mask : Z.land (Z.lor x mask) mask = mask.
Proof.
  apply Z.bits_inj'. intros n Hn. rewrite Z.land_spec, Z.lor_spec.
  destruct (Z.testbit x n), (Z.testbit mask n); reflexivity.
Qed.

Section FlagCommands.
Variable E : Env.
Hypothesis Hperm : qsort_permutes E.

Variable qs : QEmacsState.
Variable s : wid.
Variable w : EditState.
Variable bs : BufedState.
Variable index : Z.
Variable item : StringItem.
Hypothesis Hw : get_window qs s = Some w.
Hypothesis Hbs : bufed_get_state qs w = Some bs.
Hypothesis Hidx : list_get_pos E qs w = Some index.
Hypothesis Hin : index_in_range bs index = true.
Hypothesis Hitem : bs_items bs !! Z.to_nat index = Some item.

Lemma bufed_get_buffer_live a :
  check_buffer qs (it_opaque item) = Some a ->
  bufed_get_buffer E qs bs w = Some (Some a, bs).
Proof.
  intros Hck. unfold bufed_get_buffer. rewrite Hidx.
  cbn [mbind option_bind]. rewrite Hin. simpl negb. cbv iota.
  rewrite Hitem. cbn [mbind option_bind]. rewrite Hck.
  apply check_buffer_Some in Hck as [Hop _].
  rewrite <- Hop, set_opaque_same, list_insert_id by exact Hitem.
  rewrite set_bs_items_same. reflexivity.
Qed.

(** A flag command: the store [f] into the buffer of the row, then the
    rebuild. *)
Lemma flag_command_runs (f : EditBuffer -> EditBuffer) a r :
  (forall x, b_addr (f x) = b_addr x) ->
  find_buffer qs a = Some r ->
  is_Some (find_buffer qs (s_b w)) ->
  exists qs' r',
    (qs1 ← with_buffer qs a f;
     '(qs2, bs2) ← build_bufed_list E qs1 bs s;
     Some (put_state qs2 (s_b w) bs2)) = Some qs' /\
    find_buffer qs' (s_b w) = Some r' /\
    Z.land (b_flags r') (BF_READONLY E) = BF_READONLY E /\
    (a <> s_b w -> find_buffer qs' a = Some (f r)) /\
    (forall a', a' <> a -> a' <> s_b w ->
                find_buffer qs' a' = find_buffer qs a') /\
    kill_requests qs' = kill_requests qs.
Proof.
  intros Hf Hr [rb Hrb].
  rewrite (with_buffer_some qs a f) by (eexists; exact Hr).
  cbn [mbind option_bind].
  assert (Hw1 : get_window (upd_buffer qs a f) s = Some w) by exact Hw.
  assert (Hrb1 : exists rb1, find_buffer (upd_buffer qs a f) (s_b w) = Some rb1).
  { destruct (Pos.eq_dec (s_b w) a) as [Heq|Hne].
    - exists (f rb). rewrite Heq in *. rewrite find_buffer_upd_same, Hrb by exact Hf.
      reflexivity.
    - exists rb. rewrite find_buffer_upd_other by assumption. exact Hrb. }
  destruct Hrb1 as [rb1 Hrb1].
  destruct (build_bufed_list_display E (upd_buffer qs a f) bs s w rb1
              (build_items_live E _ bs Hperm) Hw1 Hrb1)
    as (qs' & r' & Hbuild & Hf' & Hr' & _ & Hfl).
  rewrite Hbuild. cbn [mbind option_bind].
  exists (put_state qs' (s_b w) (rebuilt E (upd_buffer qs a f) bs)), r'.
  split; [reflexivity|]. split; [exact Hr'|].
  split; [rewrite Hfl; apply lor_covers_mask|]. split; [|split].
  - intros Hne.
    change (find_buffer qs' a = Some (f r)).
    rewrite (frame_find_other _ _ _ _ _ _ Hf' Hne).
    rewrite find_buffer_upd_same, Hr by exact Hf. reflexivity.
  - intros a' Ha Hb.
    change (find_buffer qs' a' = find_buffer qs a').
    rewrite (frame_find_other _ _ _ _ _ _ Hf' Hb).
    apply find_buffer_upd_other; assumption.
  - exact (frame_kills _ _ _ _ _ Hf').
Qed.

(** X14.  On a row whose buffer is alive, clear-modified clears the
    modification mark of that buffer and toggle-read-only flips its
    read-only flag; nothing else of that buffer changes, the other buffers
    (the one of the list apart, which the rebuild rewrites) are as before,
    nothing is asked of the registry, and the buffer of the list ends
    read-only, also when it is itself the buffer of the row. *)
Theorem flag_commands_change_one_buffer a r :
  check_buffer qs (it_opaque item) = Some a ->
  find_buffer qs a = Some r ->
  is_Some (find_buffer qs (s_b w)) ->
  (exists qs' r',
     bufed_clear_modified E qs s = Some qs' /\
     find_buffer qs' (s_b w) = Some r' /\
     Z.land (b_flags r') (BF_READONLY E) = BF_READONLY E /\
     (a <> s_b w ->
      find_buffer qs' a = Some (set_b_status r (b_flags r) 0)) /\
     (forall a', a' <> a -> a' <> s_b w ->
                 find_buffer qs' a' = find_buffer qs a') /\
     kill_requests qs' = kill_requests qs) /\
  (exists qs' r',
     bufed_toggle_read_only E qs s = Some qs' /\
     find_buffer qs' (s_b w) = Some r' /\
     Z.land (b_flags r') (BF_READONLY E) = BF_READONLY E /\
     (a <> s_b w ->
      find_buffer qs' a
      = Some (set_b_status r (Z.lxor (b_flags r) (BF_READONLY E))
                           (b_modified r))) /\
     (forall a', a' <> a -> a' <> s_b w ->
                 find_buffer qs' a' = find_buffer qs a') /\
     kill_requests qs' = kill_requests qs).
Proof.
  intros Hck Hr Hb. split.
  - unfold bufed_clear_modified. rewrite Hw. cbn [mbind option_bind].
    rewrite Hbs, (bufed_get_buffer_live a Hck). cbn [mbind option_bind].
    apply (flag_command_runs (fun r0 => set_b_status r0 (b_flags r0) 0) a r);
      auto.
  - unfold bufed_toggle_read_only. rewrite Hw. cbn [mbind option_bind].
    rewrite Hbs, (bufed_get_buffer_live a Hck). cbn [mbind option_bind].
    apply (flag_command_runs
             (fun r0 => set_b_status r0 (Z.lxor (b_flags r0) (BF_READONLY E))
                                     (b_modified r0)) a r); auto.
Qed.

(** X15.  On a row whose buffer is dead, clear-modified and
    toggle-read-only clear the reference of the row and do nothing else:
    no buffer changes and the list is not rebuilt. *)
Theorem flag_commands_on_a_dead_row :
  check_buffer qs (it_opaque item) = None ->
  let cleared :=
    put_state qs (s_b w)
      (set_bs_items bs
         (<[Z.to_nat index := set_opaque item None]> (bs_items bs))) in
  bufed_clear_modified E qs s = Some cleared /\
  bufed_toggle_read_only E qs s = Some cleared.
Proof.
  intros Hck cleared.
  assert (Hget : bufed_get_buffer E qs bs w
                 = Some (None,
                         set_bs_items bs
                           (<[Z.to_nat index := set_opaque item None]>
                              (bs_items bs)))).
  { unfold bufed_get_buffer. rewrite Hidx. cbn [mbind option_bind].
    rewrite Hin. simpl negb. cbv iota. rewrite Hitem.
    cbn [mbind option_bind]. rewrite Hck. reflexivity. }
  split.
  - unfold bufed_clear_modified. rewrite Hw. cbn [mbind option_bind].
    rewrite Hbs, Hget. reflexivity.
  - unfold bufed_toggle_read_only. rewrite Hw. cbn [mbind option_bind].
    rewrite Hbs, Hget. reflexivity.
Qed.

End FlagCommands.

(** ** Refreshing again *)

Lemma build_items_of_rows E qs bs qs' bs' :
  bufed_sort_order qs' = bufed_sort_order qs ->
  listed_rows E qs' bs' = listed_rows E qs bs ->
  build_items E qs' bs' = build_items E qs bs.
Proof.
  intros Horder Hrows.
  destruct (Z.eq_dec (bufed_sort_order qs) 0) as [H0|Hn0].
  - rewrite !build_items_unsorted by congruence. exact Hrows.
  - rewrite !build_items_sorted by congruence. rewrite Horder, Hrows.
    reflexivity.
Qed.

(** X16.  With the filter hiding system buffers, the buffer of the list
    being one, a refresh right after a refresh lists the same rows in the
    same order: what the rebuild writes into the buffer of the list does
    not feed back into the list. *)
Theorem refresh_twice_lists_the_same E qs s w bs rb :
  qsort_permutes E ->
  Z.land (BF_READONLY E) (BF_SYSTEM E) = 0 ->
  get_window qs s = Some w ->
  bufed_get_state qs w = Some bs ->
  find_buffer qs (s_b w) = Some rb ->
  mask_set (b_flags rb) (BF_SYSTEM E) = true ->
  mask_set (bs_flags bs) BUFED_ALL_VISIBLE = false ->
  List.NoDup (List.map b_addr (first_buffer qs)) ->
  exists qs1 bs1 qs2 bs2,
    bufed_refresh E qs s 0 = Some qs1 /\
    state_at qs1 (s_b w) = Some bs1 /\
    bufed_refresh E qs1 s 0 = Some qs2 /\
    state_at qs2 (s_b w) = Some bs2 /\
    bs_items bs2 = bs_items bs1.
Proof.
  intros Hperm Hbits Hw Hbs Hrb Hsys Hhide Hnd.
  assert (Hb : is_Some (find_buffer qs (s_b w))) by (eexists; exact Hrb).
  destruct (bufed_refresh_ok E qs s w bs 0 Hperm Hw Hb Hbs)
    as (qs1 & Hr1 & Hf1).
  simpl in Hr1. set (bs1 := rebuilt E qs bs) in *.
  destruct (frame_get_window _ _ _ _ _ _ _ Hf1 Hw) as (w1 & Hw1 & _ & Hb1 & _).
  assert (Hw1' : get_window (put_state qs1 (s_b w) bs1) s = Some w1)
    by exact Hw1.
  assert (Hbuf1 : is_Some (find_buffer (put_state qs1 (s_b w) bs1) (s_b w1))).
  { rewrite Hb1. change (is_Some (find_buffer qs1 (s_b w))).
    eapply (frame_is_buffer E); eassumption. }
  assert (Hbs1 : bufed_get_state (put_state qs1 (s_b w) bs1) w1 = Some bs1).
  { unfold bufed_get_state. rewrite Hb1. apply state_at_put. }
  destruct (bufed_refresh_ok E _ s w1 bs1 0 Hperm Hw1' Hbuf1 Hbs1)
    as (qs2 & Hr2 & Hf2).
  simpl in Hr2. rewrite Hb1 in Hr2.
  eexists _, bs1, _, _. split; [exact Hr1|]. split; [apply state_at_put|].
  split; [exact Hr2|]. split; [apply state_at_put|].
  unfold rebuilt at 1. subst bs1. unfold rebuilt at 2. simpl bs_items.
  f_equal. apply build_items_of_rows.
  - exact (frame_order _ _ _ _ _ Hf1).
  - change (listed_rows E (set_bufed_sort_order qs1 0) (rebuilt E qs bs)
            = listed_rows E qs bs).
    apply (same_listing_rows E Hbits qs s w bs rb Hrb Hsys Hhide Hnd);
      [|reflexivity].
    split; [|split].
    + exists w1. auto.
    + exists bs. split; [|reflexivity].
      unfold bufed_get_state in Hbs.
      revert Hbs. unfold state_at. rewrite (frame_data _ _ _ _ _ Hf1). auto.
    + exact (frame_buffers _ _ _ _ _ Hf1).
Qed.


Lemma flip_all_visible x :
  mask_set x BUFED_ALL_VISIBLE = false ->
  mask_set (Z.lxor x BUFED_ALL_VISIBLE) BUFED_ALL_VISIBLE = true.
Proof.
  unfold mask_set, BUFED_ALL_VISIBLE. intros H.
  apply negb_false_iff, Z.eqb_eq in H.
  apply negb_true_iff, Z.eqb_neq.
  assert (Hb : Z.testbit x 0 = false).
  { pose proof (Z.land_spec x 1 0) as Hs. rewrite H in Hs. simpl in Hs.
    rewrite Bool.andb_true_r in Hs. symmetry. exact Hs. }
  intros Hc.
  pose proof (Z.land_spec (Z.lxor x 1) 1 0) as Hs. rewrite Hc in Hs.
  rewrite Z.lxor_spec, Hb in Hs. simpl in Hs. discriminate.
Qed.

(** X17.  Toggling the filter twice gives back the filter and the rows of
    a plain refresh: with the filter hiding system buffers at the start
    and the buffer of the list being one, the rows shown in between,
    the list's own among them, leave no trace. *)
Theorem toggle_twice_restores_the_listing E qs s w bs rb :
  qsort_permutes E ->
  Z.land (BF_READONLY E) (BF_SYSTEM E) = 0 ->
  get_window qs s = Some w ->
  bufed_get_state qs w = Some bs ->
  find_buffer qs (s_b w) = Some rb ->
  mask_set (b_flags rb) (BF_SYSTEM E) = true ->
  mask_set (bs_flags bs) BUFED_ALL_VISIBLE = false ->
  List.NoDup (List.map b_addr (first_buffer qs)) ->
  exists qs1 bs1 qs2 bs2,
    bufed_refresh E qs s 1 = Some qs1 /\
    state_at qs1 (s_b w) = Some bs1 /\
    mask_set (bs_flags bs1) BUFED_ALL_VISIBLE = true /\
    bufed_refresh E qs1 s 1 = Some qs2 /\
    state_at qs2 (s_b w) = Some bs2 /\
    bs_flags bs2 = bs_flags bs /\
    bs_items bs2 = List.map fst (build_items E qs bs).
Proof.
  intros Hperm Hbits Hw Hbs Hrb Hsys Hhide Hnd.
  assert (Hb : is_Some (find_buffer qs (s_b w))) by (eexists; exact Hrb).
  destruct (bufed_refresh_ok E qs s w bs 1 Hperm Hw Hb Hbs)
    as (qs1 & Hr1 & Hf1).
  simpl in Hr1.
  set (bsx := set_bs_flags bs (Z.lxor (bs_flags bs) BUFED_ALL_VISIBLE)) in *.
  set (bs1 := rebuilt E qs bsx) in *.
  destruct (frame_get_window _ _ _ _ _ _ _ Hf1 Hw) as (w1 & Hw1 & _ & Hb1 & _).
  assert (Hw1' : get_window (put_state qs1 (s_b w) bs1) s = Some w1)
    by exact Hw1.
  assert (Hbuf1 : is_Some (find_buffer (put_state qs1 (s_b w) bs1) (s_b w1))).
  { rewrite Hb1. change (is_Some (find_buffer qs1 (s_b w))).
    eapply (frame_is_buffer E); eassumption. }
  assert (Hbs1 : bufed_get_state (put_state qs1 (s_b w) bs1) w1 = Some bs1).
  { unfold bufed_get_state. rewrite Hb1. apply state_at_put. }
  destruct (bufed_refresh_ok E _ s w1 bs1 1 Hperm Hw1' Hbuf1 Hbs1)
    as (qs2 & Hr2 & Hf2).
  simpl in Hr2. rewrite Hb1 in Hr2.
  assert (Hfl1 : bs_flags bs1 = Z.lxor (bs_flags bs) BUFED_ALL_VISIBLE)
    by reflexivity.
  assert (Hback : Z.lxor (bs_flags bs1) BUFED_ALL_VISIBLE = bs_flags bs).
  { rewrite Hfl1, Z.lxor_assoc, Z.lxor_nilpotent, Z.lxor_0_r. reflexivity. }
  eexists _, bs1, _, _. split; [exact Hr1|]. split; [apply state_at_put|].
  split; [rewrite Hfl1; apply flip_all_visible; exact Hhide|].
  split; [exact Hr2|]. split; [apply state_at_put|].
  split; [exact Hback|].
  unfold rebuilt at 1. simpl bs_items.
  f_equal. apply build_items_of_rows.
  - exact (frame_order _ _ _ _ _ Hf1).
  - unfold listed_rows. f_equal.
    change (first_buffer (put_state qs1 (s_b w) bs1)) with (first_buffer qs1).
    rewrite (List.filter_ext _ (listed E bs))
      by (intros r; apply listed_same_filter; exact Hback).
    apply (kept_filter E Hbits w bs).
    + exact (frame_buffers _ _ _ _ _ Hf1).
    + apply (own_buffer_not_listed E qs w bs rb Hrb Hsys Hhide Hnd).
Qed.

(** ** The selection iterator keeps the array *)

Section IterateMore.
Context {O : Type}.
Variable func_item : O -> StringItem -> Z -> option (O * StringItem).

Lemma selection_loop_length items :
  forall i count o items' count' o',
    selection_loop func_item i items count o = Some (items', count', o') ->
    length items' = length items.
Proof.
  induction items as [|item rest IH]; intros i count o items' count' o' H;
    simpl in H.
  - injection H as <- _ _. reflexivity.
  - destruct (it_selected item).
    + destruct (func_item o item i) as [[o1 item1]|]; [|discriminate].
      cbn [mbind option_bind] in H.
      destruct (selection_loop func_item (i + 1) rest (count + 1) o1)
        as [[[rest' c'] o2]|] eqn:Hl; [|discriminate].
      cbn [mbind option_bind] in H. injection H as <- _ _.
      simpl. f_equal. eapply IH. exact Hl.
    + cbn [mbind option_bind] in H.
      destruct (selection_loop func_item (i + 1) rest count o)
        as [[[rest' c'] o2]|] eqn:Hl; [|discriminate].
      cbn [mbind option_bind] in H. injection H as <- _ _.
      simpl. f_equal. eapply IH. exact Hl.
Qed.

(** The loop hands an unflagged item back untouched, and counts the
    flagged ones. *)
Lemma selection_loop_unflagged items :
  forall i count o items' count' o',
    selection_loop func_item i items count o = Some (items', count', o') ->
    (forall k item, items !! k = Some item -> it_selected item = false ->
                    items' !! k = Some item) /\
    count' = count + Z.of_nat (length (List.filter it_selected items)).
Proof.
  induction items as [|item rest IH]; intros i count o items' count' o' H;
    simpl in H.
  - injection H as <- <- _. split; [auto | simpl; lia].
  - destruct (it_selected item) eqn:Hsel.
    + destruct (func_item o item i) as [[o1 item1]|]; [|discriminate].
      cbn [mbind option_bind] in H.
      destruct (selection_loop func_item (i + 1) rest (count + 1) o1)
        as [[[rest' c'] o2]|] eqn:Hl; [|discriminate].
      cbn [mbind option_bind] in H. injection H as <- <- _.
      destruct (IH _ _ _ _ _ _ Hl) as [Hk Hc]. split.
      * intros [|k] it Hit Hu; simpl in *.
        -- injection Hit as <-. congruence.
        -- eauto.
      * simpl. rewrite Hsel. simpl length. lia.
    + cbn [mbind option_bind] in H.
      destruct (selection_loop func_item (i + 1) rest count o)
        as [[[rest' c'] o2]|] eqn:Hl; [|discriminate].
      cbn [mbind option_bind] in H. injection H as <- <- _.
      destruct (IH _ _ _ _ _ _ Hl) as [Hk Hc]. split.
      * intros [|k] it Hit Hu; simpl in *.
        -- exact Hit.
        -- eauto.
      * simpl. rewrite Hsel. exact Hc.
Qed.

(** X18.  Whatever the action does, the iterator neither adds nor removes
    an item, and while some item is flagged it hands every unflagged item
    back as it was, the current one included. *)
Theorem iterator_keeps_the_unflagged_rows cs current_index o cs' o' :
  string_selection_iterate func_item cs current_index o = Some (cs', o') ->
  length cs' = length cs /\
  (List.existsb it_selected cs = true ->
   forall k item, cs !! k = Some item -> it_selected item = false ->
                  cs' !! k = Some item).
Proof.
  unfold string_selection_iterate. intros H.
  destruct (selection_loop func_item 0 cs 0 o) as [[[cs1 count] o1]|] eqn:Hl;
    [|discriminate].
  cbn [mbind option_bind] in H.
  pose proof (selection_loop_length _ _ _ _ _ _ _ Hl) as Hlen.
  destruct (selection_loop_unflagged _ _ _ _ _ _ _ Hl) as [Hk Hc].
  destruct ((count =? 0) && (0 <=? current_index)
            && (current_index <? Z.of_nat (length cs1))) eqn:Hcond.
  - destruct (cs1 !! Z.to_nat current_index) as [item|]; [|discriminate].
    cbn [mbind option_bind] in H.
    destruct (func_item o1 item current_index) as [[o2 item2]|];
      [|discriminate].
    cbn [mbind option_bind] in H. injection H as <- _. split.
    + rewrite length_insert. exact Hlen.
    + intros Hex. exfalso.
      apply andb_prop in Hcond as [Hcond _].
      apply andb_prop in Hcond as [Hcount _]. apply Z.eqb_eq in Hcount.
      apply List.existsb_exists in Hex as (x & Hin & Hx).
      assert (Hin' : In x (List.filter it_selected cs))
        by (apply List.filter_In; auto).
      destruct (List.filter it_selected cs); [contradiction|].
      simpl length in Hc. lia.
  - injection H as <- _. split; [exact Hlen|]. intros _. exact Hk.
Qed.

End IterateMore.

(** ** The properties on the sample editors *)

(** Witness of X1: the three files under the name key. *)
Lemma bufed_sort_func_is_an_order_witness :
  bufed_sort_func ref_env BUFED_SORT_NAME file_a file_a = 0 /\
  (bufed_sort_func ref_env BUFED_SORT_NAME file_a file_b < 0
   <-> 0 < bufed_sort_func ref_env BUFED_SORT_NAME file_b file_a) /\
  (bufed_sort_func ref_env BUFED_SORT_NAME file_a file_b <= 0 ->
   bufed_sort_func ref_env BUFED_SORT_NAME file_b file_c <= 0 ->
   bufed_sort_func ref_env BUFED_SORT_NAME file_a file_c <= 0) /\
  (bufed_sort_func ref_env BUFED_SORT_NAME file_a file_b = 0 ->
   b_name file_a = b_name file_b).
Proof.
  apply (bufed_sort_func_is_an_order ref_env ref_env_collation_order);
    unfold modified_in_range, int_max; simpl; lia.
Defined.

(** Witness of X2: a rebuild of the sample editor. *)
Lemma rebuild_postconditions_witness :
  exists qs' bs' r',
    build_bufed_list ref_env sample_editor blank_state 1%positive
    = Some (qs', bs') /\
    bs_last_index bs' = -1 /\
    bs_sort_mode bs' = 0 /\
    find_buffer qs' 4%positive = Some r' /\
    b_modified r' = 0 /\
    kill_requests qs' = [].
Proof.
  destruct (rebuild_postconditions ref_env sample_editor blank_state
              1%positive panel_window panel_buffer ref_env_qsort_permutes
              eq_refl eq_refl)
    as (qs' & bs' & r' & Hb & Hi & Hm & _ & _ & _ & Hr & Hmod & _ & _ & _
        & Hk & _).
  exists qs', bs', r'. repeat split; assumption.
Defined.

(** Witness of X3: the sample editor with the name key. *)
Lemma rebuild_sorts_the_rows_witness :
  exists qs' bs',
    build_bufed_list ref_env sample_editor_by_name blank_state 1%positive
    = Some (qs', bs') /\
    bs_items bs'
    = List.map fst (build_items ref_env sample_editor_by_name blank_state) /\
    Permutation (build_items ref_env sample_editor_by_name blank_state)
                (listed_rows ref_env sample_editor_by_name blank_state) /\
    StronglySorted (cmp_le (row_cmp ref_env BUFED_SORT_NAME))
                   (build_items ref_env sample_editor_by_name blank_state).
Proof.
  apply (rebuild_sorts_the_rows ref_env sample_editor_by_name blank_state
           1%positive panel_window ref_env_qsort_permutes ref_env_qsort_sorts
           ref_env_collation_order).
  - unfold int_max. simpl. lia.
  - repeat constructor; unfold modified_in_range; simpl; lia.
  - discriminate.
  - reflexivity.
  - eexists; reflexivity.
Defined.

(** Witness of X4: the unsorted command on the editor sorted by name. *)
Lemma unsorted_lists_in_registry_order_witness :
  exists qs' bs',
    bufed_set_sort ref_env sample_editor_by_name 1%positive 0 = Some qs' /\
    state_at qs' 4%positive = Some bs' /\
    bufed_sort_order qs' = 0 /\
    bs_items bs' = [fresh_item file_a; fresh_item file_b; fresh_item file_c].
Proof.
  apply (unsorted_lists_in_registry_order ref_env sample_editor_by_name
           1%positive panel_window blank_state);
    [reflexivity | eexists; reflexivity | reflexivity].
Defined.

(** Witness of X6: the scratch buffer against a file, under the name
    key. *)
Lemma starred_names_last_until_reversed_witness :
  bufed_sort_func ref_env BUFED_SORT_NAME scratch_buffer file_a = 1 /\
  bufed_sort_func ref_env BUFED_SORT_NAME file_a scratch_buffer = -1.
Proof.
  apply (starred_names_last_until_reversed ref_env BUFED_SORT_NAME
           scratch_buffer file_a); reflexivity.
Defined.

(** Witness of X7: the scratch buffer, which has no file, against a
    file, under the filename key. *)
Lemma empty_filename_against_first_byte_witness :
  bufed_sort_func ref_env BUFED_SORT_FILENAME scratch_buffer file_a
  = char_val ref_env "/"%char /\
  ((N_of_ascii "/"%char < 128)%N ->
   0 < bufed_sort_func ref_env BUFED_SORT_FILENAME scratch_buffer file_a) /\
  (char_signed ref_env = true -> (128 <= N_of_ascii "/"%char)%N ->
   bufed_sort_func ref_env BUFED_SORT_FILENAME scratch_buffer file_a < 0).
Proof.
  apply (empty_filename_against_first_byte ref_env BUFED_SORT_FILENAME
           scratch_buffer file_a "/"%char "tmp/a.txt");
    try reflexivity.
  discriminate.
Defined.

(** Witness of X8: two files saved one after the other, under the time
    key together with the name key. *)
Lemma time_key_decides_first_witness :
  bufed_sort_func ref_env (Z.lor BUFED_SORT_TIME BUFED_SORT_NAME)
    (saved_at 7%positive "z.txt" 100) (saved_at 8%positive "y.txt" 200)
  = -1.
Proof.
  apply (time_key_decides_first ref_env
           (Z.lor BUFED_SORT_TIME BUFED_SORT_NAME)
           (saved_at 7%positive "z.txt" 100)
           (saved_at 8%positive "y.txt" 200));
    try reflexivity.
Defined.

(** Witness of X9: the row of the first file in the sample editor, the
    file being the buffer the list was opened from. *)
Lemma kill_item_on_a_live_row_witness :
  exists qs',
    bufed_kill_item ref_env 1%positive sample_editor (fresh_item file_a) 0
    = Some (qs', set_opaque (fresh_item file_a) None) /\
    kill_requests qs' = ["a.txt"%string] /\
    state_at qs' 4%positive
    = Some (set_bs_refs blank_state (Some 2%positive) None None).
Proof.
  destruct (kill_item_on_a_live_row ref_env sample_editor 1%positive
              panel_window blank_state (fresh_item file_a) 0 1%positive
              eq_refl eq_refl eq_refl)
    as (qs' & Hk & Hreq & _ & _ & Hst & _).
  - discriminate.
  - exists qs'. split; [exact Hk|]. split; [exact Hreq|].
    apply Hst. reflexivity.
Defined.

(** Witness of X10: select on the row of the second file, the list
    opened from window 2. *)
Lemma select_switches_the_opening_window_witness :
  exists qs' we',
    bufed_select ref_env (row_editor (fresh_item file_b)) 1%positive 0
    = Some qs' /\
    get_window qs' 2%positive = Some we' /\
    s_b we' = 2%positive /\
    get_window qs' 1%positive = None /\
    active_window qs' = Some 2%positive.
Proof.
  destruct (select_switches_the_opening_window ref_env
              (row_editor (fresh_item file_b)) 1%positive panel_window
              (row_state (fresh_item file_b)) 0 (fresh_item file_b)
              2%positive 2%positive 0
              eq_refl eq_refl eq_refl eq_refl eq_refl eq_refl eq_refl)
    as (qs' & we' & Hsel & Hwe' & Hb & _ & _ & _ & Hclose & _).
  - discriminate.
  - lia.
  - lia.
  - destruct (Hclose eq_refl) as (Hw & Ha & _).
    exists qs', we'. repeat split; assumption.
Defined.

(** Witness of X11: a second preview of the row previewed last. *)
Lemma preview_of_the_same_row_is_idle_witness :
  bufed_select ref_env previewed_editor 1%positive 1 = Some previewed_editor.
Proof.
  apply (preview_of_the_same_row_is_idle ref_env previewed_editor 1%positive
           panel_window previewed_state 0 1); try reflexivity.
Defined.

(** Witness of X12: select on a row whose buffer is gone. *)
Lemma select_on_a_dead_row_still_closes_witness :
  exists qs' bs',
    bufed_select ref_env (row_editor dead_row) 1%positive 0 = Some qs' /\
    get_window qs' 1%positive = None /\
    get_window qs' 2%positive = get_window (row_editor dead_row) 2%positive /\
    state_at qs' 4%positive = Some bs' /\
    bs_items bs' = [set_opaque dead_row None].
Proof.
  destruct (select_on_a_dead_row_still_closes ref_env (row_editor dead_row)
              1%positive panel_window (row_state dead_row) 0 dead_row
              eq_refl eq_refl eq_refl eq_refl eq_refl eq_refl)
    as (qs' & bs' & Hsel & Hw & Hother & _ & Hst & Hitems).
  exists qs', bs'. repeat split; try assumption.
  apply Hother. discriminate.
Defined.

(** Witness of X13: abort in the sample editor, opened from window 2 on
    the first file. *)
Lemma abort_closes_and_restores_witness :
  exists qs' we',
    bufed_select ref_env sample_editor 1%positive (-1) = Some qs' /\
    get_window qs' 1%positive = None /\
    active_window qs' = Some 2%positive /\
    get_window qs' 2%positive = Some we' /\
    s_b we' = 1%positive.
Proof.
  destruct (abort_closes_and_restores ref_env sample_editor 1%positive
              panel_window blank_state (-1) eq_refl eq_refl)
    as (qs' & Hsel & Hw & _ & _ & Hback & _).
  - lia.
  - destruct (Hback 2%positive 1%positive eq_refl) as (Ha & we' & Hwe' & Hb & _).
    + discriminate.
    + reflexivity.
    + exists qs', we'. repeat split; assumption.
Defined.

(** Witness of X14: the row of the second file, which is modified. *)
Lemma flag_commands_change_one_buffer_witness :
  (exists qs',
     bufed_clear_modified ref_env (row_editor (fresh_item file_b)) 1%positive
     = Some qs' /\
     find_buffer qs' 2%positive = Some (set_b_status file_b 0 0)) /\
  (exists qs',
     bufed_toggle_read_only ref_env (row_editor (fresh_item file_b))
       1%positive
     = Some qs' /\
     find_buffer qs' 2%positive = Some (set_b_status file_b 4 1)).
Proof.
  destruct (flag_commands_change_one_buffer ref_env ref_env_qsort_permutes
              (row_editor (fresh_item file_b)) 1%positive panel_window
              (row_state (fresh_item file_b)) 0 (fresh_item file_b)
              eq_refl eq_refl eq_refl eq_refl eq_refl
              2%positive file_b eq_refl eq_refl)
    as [(qs1 & r1 & Hc & _ & _ & Hb1 & _) (qs2 & r2 & Ht & _ & _ & Hb2 & _)].
  - eexists; reflexivity.
  - split.
    + exists qs1. split; [exact Hc|]. apply Hb1. discriminate.
    + exists qs2. split; [exact Ht|]. apply Hb2. discriminate.
Defined.

(** Witness of X15: the flag commands on a row whose buffer is gone. *)
Lemma flag_commands_on_a_dead_row_witness :
  bufed_clear_modified ref_env (row_editor dead_row) 1%positive
  = Some (row_editor (set_opaque dead_row None)) /\
  bufed_toggle_read_only ref_env (row_editor dead_row) 1%positive
  = Some (row_editor (set_opaque dead_row None)).
Proof.
  apply (flag_commands_on_a_dead_row ref_env (row_editor dead_row)
           1%positive panel_window (row_state dead_row) 0 dead_row);
    reflexivity.
Defined.

(** Witness of X16: two refreshes of the sample editor. *)
Lemma refresh_twice_lists_the_same_witness :
  exists qs1 bs1 qs2 bs2,
    bufed_refresh ref_env sample_editor 1%positive 0 = Some qs1 /\
    state_at qs1 4%positive = Some bs1 /\
    bufed_refresh ref_env qs1 1%positive 0 = Some qs2 /\
    state_at qs2 4%positive = Some bs2 /\
    bs_items bs2 = bs_items bs1.
Proof.
  apply (refresh_twice_lists_the_same ref_env sample_editor 1%positive
           panel_window blank_state panel_buffer ref_env_qsort_permutes);
    try reflexivity.
  exact sample_editor_addresses.
Defined.

(** Witness of X17: the filter of the sample editor toggled twice. *)
Lemma toggle_twice_restores_the_listing_witness :
  exists qs1 bs1 qs2 bs2,
    bufed_refresh ref_env sample_editor 1%positive 1 = Some qs1 /\
    state_at qs1 4%positive = Some bs1 /\
    mask_set (bs_flags bs1) BUFED_ALL_VISIBLE = true /\
    bufed_refresh ref_env qs1 1%positive 1 = Some qs2 /\
    state_at qs2 4%positive = Some bs2 /\
    bs_flags bs2 = 0 /\
    bs_items bs2 = List.map fst (build_items ref_env sample_editor blank_state).
Proof.
  apply (toggle_twice_restores_the_listing ref_env sample_editor 1%positive
           panel_window blank_state panel_buffer ref_env_qsort_permutes);
    try reflexivity.
  exact sample_editor_addresses.
Defined.

(** Witness of X18: the kill action iterated over two rows, the first one
    flagged and the cursor on the second. *)
Lemma iterator_keeps_the_unflagged_rows_witness :
  exists cs' qs',
    string_selection_iterate (bufed_kill_item ref_env 1%positive)
      first_of_two_flagged 1 sample_editor = Some (cs', qs') /\
    length cs' = 2%nat /\
    cs' !! 1%nat = Some (fresh_item file_b).
Proof.
  destruct (string_selection_iterate (bufed_kill_item ref_env 1%positive)
              first_of_two_flagged 1 sample_editor)
    as [[cs' qs']|] eqn:Hrun.
  - exists cs', qs'. split; [reflexivity|].
    destruct (iterator_keeps_the_unflagged_rows _ _ _ _ _ _ Hrun)
      as [Hlen Hkeep].
    split; [exact Hlen|]. apply Hkeep; reflexivity.
  - vm_compute in Hrun. discriminate Hrun.
Defined.
